(** * setuptools-golang: the extension-build adapter

    A shallow embedding of [setuptools_golang.py].  Pure helpers
    ([_get_cflags], the [os.path] string functions, [shlex.quote], [repr])
    are Rocq functions on strings; effectful code ([_tmpdir], [_get_ldflags],
    [_check_call], [build_extension], [set_build_ext]) is written in a small
    state-and-exception monad over an explicit interpreter state: the object
    heap holding compiler objects, [os.environ], the disk, and a trace of the
    library calls the module makes.

    - Strings are sequences of code points below 256.
    - The disk maps a path, spelled as the program spells it, to the entry
      found there; a directory carries the tree of its content, every entry
      with its permission bits.  An entry that is not a directory is a
      file.
    - [shutil.rmtree] is spelled out, because [_tmpdir] hands it a
      callback; the deletion rules of POSIX and of Windows are part of the
      model.
    - The other library calls that touch the disk, child processes, the
      Windows flavour of [os.path] and the host framework's
      [get_ext_fullpath] are parameters, collected in the record [host].
    - [build_manylinux_wheels], the command-line helper, is not covered. *)

From stdpp Require Import gmap strings list sorting functions pretty.
From Stdlib Require Import ZArith String Ascii Lia.

Open Scope string_scope.
Open Scope Z_scope.
Open Scope list_scope.

Set Warnings "-register-all".

(** ** Python string primitives *)

Module Py.

Definition chr (n : nat) : string := String (ascii_of_nat n) EmptyString.

(** The two quote characters and the backslash, by code point. *)
Definition SQUOTE : ascii := ascii_of_nat 39.
Definition DQUOTE : ascii := ascii_of_nat 34.
Definition BACKSLASH : ascii := ascii_of_nat 92.

(** [s.startswith(p)] and [s.endswith(p)]. *)
Fixpoint startswith (s p : string) {struct p} : bool :=
  match p with
  | EmptyString => true
  | String c p' =>
      match s with
      | String d s' => Ascii.eqb d c && startswith s' p'
      | EmptyString => false
      end
  end.

Fixpoint endswith (s p : string) : bool :=
  String.eqb s p
  || match s with
     | String _ s' => endswith s' p
     | EmptyString => false
     end.

(** [sep.join(parts)]. *)
Fixpoint join (sep : string) (parts : list string) : string :=
  match parts with
  | [] => ""
  | [p] => p
  | p :: rest => p +:+ sep +:+ join sep rest
  end.

(** [any(...)]. *)
Definition any {A} (f : A -> bool) (l : list A) : bool := existsb f l.

(** Whitespace in the sense of [str.strip()], for code points below 256. *)
Definition isspace (c : ascii) : bool :=
  let n := nat_of_ascii c in
  ((9 <=? n) && (n <=? 13) || (28 <=? n) && (n <=? 32)
   || (n =? 133) || (n =? 160))%nat.

Fixpoint lstrip (s : string) : string :=
  match s with
  | String c s' => if isspace c then lstrip s' else s
  | EmptyString => EmptyString
  end.

Fixpoint rstrip (s : string) : string :=
  match s with
  | String c s' =>
      match rstrip s' with
      | EmptyString => if isspace c then EmptyString else String c EmptyString
      | r => String c r
      end
  | EmptyString => EmptyString
  end.

Definition strip (s : string) : string := rstrip (lstrip s).

(** [s.lstrip(c)] and [s.rstrip(c)] for a single character [c]. *)
Fixpoint lstrip_char (c : ascii) (s : string) : string :=
  match s with
  | String d s' => if Ascii.eqb d c then lstrip_char c s' else s
  | EmptyString => EmptyString
  end.

Fixpoint rstrip_char (c : ascii) (s : string) : string :=
  match s with
  | String d s' =>
      match rstrip_char c s' with
      | EmptyString => if Ascii.eqb d c then EmptyString else String d EmptyString
      | r => String d r
      end
  | EmptyString => EmptyString
  end.

(** [c in s]. *)
Fixpoint contains_char (c : ascii) (s : string) : bool :=
  match s with
  | String d s' => Ascii.eqb d c || contains_char c s'
  | EmptyString => false
  end.

(** *** [repr] of a [str] and of a list of [str] *)

Definition hexdigit (n : nat) : ascii :=
  nth n (list_ascii_of_string "0123456789abcdef") "0"%char.

(** Code points the interpreter escapes in [repr]: the C0 controls, DEL,
    the C1 controls, the no-break space and the soft hyphen. *)
Definition nonprintable (n : nat) : bool :=
  ((n <? 32) || (n =? 127) || (128 <=? n) && (n <=? 160) || (n =? 173))%nat.

Definition repr_char (quote c : ascii) : string :=
  let n := nat_of_ascii c in
  if Ascii.eqb c quote || Ascii.eqb c BACKSLASH
  then String BACKSLASH (String c "")
  else if (n =? 9)%nat then "\t"
  else if (n =? 10)%nat then "\n"
  else if (n =? 13)%nat then "\r"
  else if nonprintable n
  then "\x" +:+ String (hexdigit (n / 16)) (String (hexdigit (n mod 16)) "")
  else String c "".

Fixpoint repr_body (quote : ascii) (s : string) : string :=
  match s with
  | String c s' => repr_char quote c +:+ repr_body quote s'
  | EmptyString => ""
  end.

Definition repr_str (s : string) : string :=
  let quote :=
    if contains_char SQUOTE s && negb (contains_char DQUOTE s)
    then DQUOTE else SQUOTE in
  String quote (repr_body quote s) +:+ String quote "".

Definition repr_list (l : list string) : string :=
  "[" +:+ join ", " (map repr_str l) +:+ "]".

End Py.

(** ** [shlex.quote] *)

Module shlex.

(** The characters [shlex] leaves unquoted: [[a-zA-Z0-9@%+=:,./-]] and [_]. *)
Definition safe_char (c : ascii) : bool :=
  let n := nat_of_ascii c in
  ((48 <=? n) && (n <=? 57) || (65 <=? n) && (n <=? 90)
   || (97 <=? n) && (n <=? 122) || (n =? 95)
   || Py.contains_char c "@%+=:,./-")%nat.

Fixpoint all_safe (s : string) : bool :=
  match s with
  | String c s' => safe_char c && all_safe s'
  | EmptyString => true
  end.

(** [s.replace("'", "'\"'\"'")]. *)
Fixpoint escape_squotes (s : string) : string :=
  match s with
  | String c s' =>
      (if Ascii.eqb c Py.SQUOTE
       then String Py.SQUOTE (String Py.DQUOTE (String Py.SQUOTE
              (String Py.DQUOTE (String Py.SQUOTE ""))))
       else String c "") +:+ escape_squotes s'
  | EmptyString => ""
  end.

Definition quote (s : string) : string :=
  match s with
  | EmptyString => String Py.SQUOTE (String Py.SQUOTE "")
  | _ =>
      if all_safe s then s
      else String Py.SQUOTE (escape_squotes s) +:+ String Py.SQUOTE ""
  end.

End shlex.

(** ** [os.path] (the POSIX implementation, [posixpath]) *)

Module posixpath.

Definition SEP : ascii := "/"%char.

(** [join(a, b)]: an absolute [b] discards [a]; otherwise [b] is appended,
    with a separator unless [a] is empty or already ends with one. *)
Definition join2 (path b : string) : string :=
  if Py.startswith b "/" then b
  else if String.eqb path "" || Py.endswith path "/" then path +:+ b
  else path +:+ "/" +:+ b.

Definition join (a : string) (p : list string) : string :=
  fold_left join2 p a.

(** [p[:p.rfind('/') + 1]]: everything up to and including the last
    separator. *)
Fixpoint head_upto_sep (p : string) : string :=
  match p with
  | EmptyString => ""
  | String c p' =>
      if Py.contains_char SEP p then String c (head_upto_sep p') else ""
  end.

Definition all_seps (s : string) : bool :=
  String.eqb (Py.lstrip_char SEP s) "".

Definition dirname (p : string) : string :=
  let head := head_upto_sep p in
  if negb (String.eqb head "") && negb (all_seps head)
  then Py.rstrip_char SEP head
  else head.

End posixpath.

(** ** Exceptions and results *)

Inductive exn :=
| OSError (msg : string)
| FileNotFoundError
| FileExistsError
| PermissionError
| NotADirectoryError
| CalledProcessError (returncode : Z)
| KeyError (key : string)
| OtherError (msg : string).

Inductive result (A : Type) :=
| Ok (a : A)
| Raise (e : exn).
Arguments Ok {A} a.
Arguments Raise {A} e.

Definition is_CalledProcessError (e : exn) : bool :=
  match e with CalledProcessError _ => true | _ => false end.

(** ** The disk

    A directory entry is a file or a directory, each with its [st_mode]
    permission bits.  The disk maps a path, as the program names it, to the
    entry found there; the content of a directory is the tree below it. *)

Inductive node :=
| File (mode : Z)
| Dir (mode : Z) (entries : list (string * node)).

Definition node_mode (n : node) : Z :=
  match n with File m => m | Dir m _ => m end.

Definition S_IREAD : Z := 256.   (* 0o400 *)
Definition S_IWRITE : Z := 128.  (* 0o200 *)
Definition S_IEXEC : Z := 64.    (* 0o100 *)

Definition has_bit (mode bit : Z) : bool := negb (Z.land mode bit =? 0).

Inductive platform := Posix | Win32.

(** The operating system as the file operations see it: the platform, and
    the effective user id of the process ([os.geteuid()], which matters on
    POSIX only; 0 is the superuser). *)
Record os_view := {
  os_platform : platform;
  os_euid : nat;
}.

(** A directory slot: the entry a name refers to inside its containing
    directory, [None] once it is gone. *)
Definition slot := option node.

(** An operation on a named entry, given the mode of the directory that
    contains it: what [os.unlink], [os.rmdir], [os.scandir] and the like
    are to [shutil.rmtree] and its [onerror] callback. *)
Definition action := os_view -> Z -> slot -> result unit * slot.

(** An [onerror] callback: called with the function that failed, the path
    and the exception. *)
Definition handler := action -> exn -> action.

(** On POSIX the superuser passes every permission check. *)
Definition superuser (o : os_view) : bool :=
  match os_platform o with
  | Posix => (os_euid o =? 0)%nat
  | Win32 => false
  end.

(** POSIX: reaching a name needs search permission on the directory that
    contains it. *)
Definition may_search (o : os_view) (dmode : Z) : bool :=
  match os_platform o with
  | Posix => superuser o || has_bit dmode S_IEXEC
  | Win32 => true
  end.

(** POSIX: removing a name needs write and search permission on the
    containing directory.  Windows: the entry itself must not carry the
    read-only attribute, which [st_mode] shows as a missing write bit. *)
Definition may_remove (o : os_view) (dmode : Z) (n : node) : bool :=
  match os_platform o with
  | Posix => superuser o || (has_bit dmode S_IWRITE && has_bit dmode S_IEXEC)
  | Win32 => has_bit (node_mode n) S_IWRITE
  end.

(** POSIX: opening an entry for reading, or listing a directory, needs
    read permission on it, and the entry must be reached. *)
Definition may_list (o : os_view) (dmode : Z) (n : node) : bool :=
  match os_platform o with
  | Posix =>
      superuser o || (has_bit dmode S_IEXEC && has_bit (node_mode n) S_IREAD)
  | Win32 => true
  end.

Definition os_lstat : action := fun o dmode e =>
  match e with
  | None => (Raise FileNotFoundError, None)
  | Some _ =>
      if may_search o dmode then (Ok tt, e) else (Raise PermissionError, e)
  end.

Definition os_unlink : action := fun o dmode e =>
  match e with
  | None => (Raise FileNotFoundError, None)
  | Some (Dir _ _) => (Raise PermissionError, e)
  | Some (File m) =>
      if may_remove o dmode (File m) then (Ok tt, None)
      else (Raise PermissionError, e)
  end.

Definition os_rmdir : action := fun o dmode e =>
  match e with
  | None => (Raise FileNotFoundError, None)
  | Some (File _) => (Raise NotADirectoryError, e)
  | Some (Dir m []) =>
      if may_remove o dmode (Dir m []) then (Ok tt, None)
      else (Raise PermissionError, e)
  | Some (Dir _ (_ :: _)) => (Raise (OSError "Directory not empty"), e)
  end.

Definition os_scandir : action := fun o dmode e =>
  match e with
  | None => (Raise FileNotFoundError, None)
  | Some (File _) => (Raise NotADirectoryError, e)
  | Some (Dir m es) =>
      if may_list o dmode (Dir m es) then (Ok tt, e)
      else (Raise PermissionError, e)
  end.

(** [os.open(name, os.O_RDONLY)], as [shutil.rmtree] calls it. *)
Definition os_open_rdonly : action := fun o dmode e =>
  match e with
  | None => (Raise FileNotFoundError, None)
  | Some n =>
      if may_list o dmode n then (Ok tt, e) else (Raise PermissionError, e)
  end.

(** [os.open(name)], which is what a callback that calls the function it
    is handed with the path alone makes of [os.open]: [flags] is a
    required argument, so the call raises [TypeError]. *)
Definition os_open : action := fun _ _ e =>
  (Raise (OtherError "TypeError"), e).

(** [os.chmod(name, mode)]: replaces the permission bits of the entry. *)
Definition os_chmod (mode : Z) : action := fun o dmode e =>
  match e with
  | None => (Raise FileNotFoundError, None)
  | Some n =>
      if may_search o dmode
      then (Ok tt, Some match n with
                        | File _ => File mode
                        | Dir _ es => Dir mode es
                        end)
      else (Raise PermissionError, e)
  end.

(** The callback [_tmpdir] hands to [shutil.rmtree]:
    [os.chmod(name, stat.S_IWRITE); action(name)]. *)
Definition err : handler := fun act _ o dmode name =>
  match os_chmod S_IWRITE o dmode name with
  | (Raise e, name') => (Raise e, name')
  | (Ok _, name') => act o dmode name'
  end.

Definition keep (nm : string) (e : slot) (rest : list (string * node))
  : list (string * node) :=
  match e with Some n => (nm, n) :: rest | None => rest end.

(** [shutil.rmtree] below one directory entry: list the directory, remove
    the children in order (recursing into directories, unlinking the
    rest), then remove the directory itself.  Every failing operation is
    handed to [onerror]; an exception leaving [onerror] ends the walk. *)
Section Walk.
Variable o : os_view.
Variable onerror : handler.

(** [try: act(name)] with [except OSError: onerror(func, name, exc)]. *)
Definition guarded_as (func act : action) (dmode : Z) (e : slot)
  : result unit * slot :=
  match act o dmode e with
  | (Ok _, e') => (Ok tt, e')
  | (Raise x, e') => onerror func x o dmode e'
  end.

Definition guarded (act : action) : Z -> slot -> result unit * slot :=
  guarded_as act act.

(** The loop over the entries of a directory of mode [m]; [rm] is the
    recursive call for a subdirectory. *)
Definition walk_with (rm : node -> result unit * slot) (m : Z)
  : list (string * node) -> result unit * list (string * node) :=
  fix walk (es : list (string * node)) :=
    match es with
    | [] => (Ok tt, [])
    | (nm, c) :: rest =>
        let '(r, c') :=
          match c with
          | Dir _ _ => rm c
          | File _ => guarded os_unlink m (Some c)
          end in
        match r with
        | Raise e => (Raise e, keep nm c' rest)
        | Ok _ =>
            let '(r', rest') := walk rest in
            (r', keep nm c' rest')
        end
    end.

(** The listing of the entry failed with [x]: [onerror] is told, nothing
    is walked, and the removal of the directory itself is still
    attempted. *)
Definition after_failed_listing (x : exn) (dmode : Z) (e : slot)
  : result unit * slot :=
  match onerror os_scandir x o dmode e with
  | (Raise y, e') => (Raise y, e')
  | (Ok _, e') => guarded os_rmdir dmode e'
  end.

(** [_rmtree_unsafe], the implementation on path names. *)
Fixpoint rmtree_node (dmode : Z) (n : node) {struct n}
  : result unit * slot :=
  match n with
  | File _ =>
      (* [os.scandir(path)] on what is no directory *)
      after_failed_listing NotADirectoryError dmode (Some n)
  | Dir m es =>
      match os_scandir o dmode (Some n) with
      | (Ok _, _) =>
          match walk_with (rmtree_node m) m es with
          | (Raise x, es') => (Raise x, Some (Dir m es'))
          | (Ok _, es') => guarded os_rmdir dmode (Some (Dir m es'))
          end
      | (Raise x, e') => after_failed_listing x dmode e'
      end
  end.

(** The implementation on file descriptors, [_rmtree_safe_fd] with the
    steps [rmtree] and its loop put before and after it (as in CPython 3.8
    to 3.12): [lstat] the entry, open it, list what was opened, remove the
    children, and remove the directory.  If [lstat] or [open] fails,
    [onerror] is told and nothing more is done to the entry; the function
    named to [onerror] for a failed open is [os.open]. *)
Fixpoint rmtree_safe_fd (dmode : Z) (n : node) {struct n}
  : result unit * slot :=
  match os_lstat o dmode (Some n) with
  | (Raise x, e') => onerror os_lstat x o dmode e'
  | (Ok _, _) =>
      match os_open_rdonly o dmode (Some n) with
      | (Raise x, e') => onerror os_open x o dmode e'
      | (Ok _, _) =>
          match n with
          | File _ =>
              (* [os.scandir(fd)] on what is no directory *)
              after_failed_listing NotADirectoryError dmode (Some n)
          | Dir m es =>
              match walk_with (rmtree_safe_fd m) m es with
              | (Raise x, es') => (Raise x, Some (Dir m es'))
              | (Ok _, es') => guarded os_rmdir dmode (Some (Dir m es'))
              end
          end
      end
  end.

(** [shutil._use_fd_functions]: the implementation on file descriptors is
    the one used where the platform has them, as Linux and macOS do, and
    Windows does not. *)
Definition use_fd_functions : bool :=
  match os_platform o with Posix => true | Win32 => false end.

Definition rmtree_slot (dmode : Z) (e : slot) : result unit * slot :=
  if use_fd_functions
  then match e with
       | None => onerror os_lstat FileNotFoundError o dmode None
       | Some n => rmtree_safe_fd dmode n
       end
  else match e with
       | None => after_failed_listing FileNotFoundError dmode None
       | Some n => rmtree_node dmode n
       end.
End Walk.

(** The directory [tempfile] creates temporary directories in is writable
    (mode [0o1777]); a fresh temporary directory has mode [0o700]. *)
Definition TMP_PARENT_MODE : Z := 1023.
Definition TMP_DIR_MODE : Z := 448.

(** Every directory of the tree grants its owner read, write and search
    permission. *)
Fixpoint fully_permitted (n : node) : bool :=
  match n with
  | File _ => true
  | Dir m es =>
      has_bit m S_IREAD && has_bit m S_IWRITE && has_bit m S_IEXEC
      && forallb (fun e => fully_permitted e.2) es
  end.

(** The trees [shutil.rmtree] with [err] can remove: on POSIX a directory
    all of whose directories are fully permitted; on Windows any
    directory. *)
Definition removable (plat : platform) (n : node) : bool :=
  match n with
  | File _ => false
  | Dir _ _ =>
      match plat with
      | Posix => fully_permitted n
      | Win32 => true
      end
  end.

(** ** Interpreter state *)

(** A [distutils] compiler object, as far as this module reads it. *)
Record CCompiler := {
  include_dirs : list string;
  macros : list (string * option string);
  library_dirs : list string;
  libraries : list string;
}.

(** [setuptools.Extension]. *)
Record Extension := {
  name : string;
  sources : list string;
  define_macros : list (string * option string);
}.

(** What the Python code can reach: the builder's [self.compiler]
    attribute (a reference), the objects on the heap, [os.environ] and the
    disk. *)
Record world := {
  self_compiler : nat;
  heap : nat -> CCompiler;
  heap_next : nat;
  environ : gmap string string;
  disk : gmap string node;
}.

(** Calls into the standard library and the host framework, as they are
    made. *)
Inductive event :=
| EvMkdtemp (path : string)
| EvRmtree (path : string)
| EvMakedirs (path : string)
| EvCopytree (src dst : string) (symlinks : bool)
| EvWrite (path content : string)
| EvCheckOutput (cmd : list string)
| EvCheckCall (cmd : list string) (cwd : string)
    (env : option (gmap string string))
| EvStderr (line : string)
| EvBaseBuildExtension (ext : Extension).

(** The surroundings of the module: the platform, the user the process
    runs as, the temporary-name
    generator, the library calls that touch the disk, child processes, and
    the host framework's path computation.  A child process or a library
    call changes the disk only; it has no access to the interpreter's
    objects or to its [os.environ]. *)
Record host := {
  sys_platform : platform;
  os_geteuid : nat;                    (* looked at on POSIX only *)
  sys_prefix : string;                 (* getattr(sys, 'real_prefix', sys.prefix) *)
  sys_version_info : nat * nat;
  ntpath_join2 : string -> string -> string;
  ntpath_dirname : string -> string;
  os_path_abspath : string -> string;
  mkdtemp_name : gmap string node -> string;
  os_makedirs : string -> gmap string node -> result unit * gmap string node;
  shutil_copytree :
    string -> string -> bool -> gmap string node
    -> result unit * gmap string node;
  write_text :
    string -> string -> gmap string node -> result unit * gmap string node;
  (** [subprocess.check_call(cmd, cwd=..., env=...)], given the environment
      the child really gets *)
  subprocess_check_call :
    list string -> string -> gmap string string -> gmap string node
    -> result unit * gmap string node;
  (** [subprocess.check_output(cmd).decode('UTF-8')] *)
  subprocess_check_output :
    list string -> gmap string string -> gmap string node
    -> result string * gmap string node;
  get_ext_fullpath : string -> string;
}.

(** The operating system the file operations of the process meet. *)
Definition host_os (h : host) : os_view :=
  {| os_platform := sys_platform h; os_euid := os_geteuid h |}.

(** ** The monad: state, exceptions and the trace of calls *)

Definition py (A : Type) : Type := world -> result A * world * list event.

Definition ret {A} (a : A) : py A := fun w => (Ok a, w, []).

Definition raise {A} (e : exn) : py A := fun w => (Raise e, w, []).

Definition bind {A B} (m : py A) (f : A -> py B) : py B := fun w =>
  match m w with
  | (Ok a, w1, t1) => let '(r, w2, t2) := f a w1 in (r, w2, t1 ++ t2)
  | (Raise e, w1, t1) => (Raise e, w1, t1)
  end.

Declare Scope py_scope.
Delimit Scope py_scope with py.
Notation "x <- m ;; k" := (bind m (fun x => k))
  (at level 100, m at next level, right associativity) : py_scope.
Notation "m ;;; k" := (bind m (fun _ => k))
  (at level 100, right associativity) : py_scope.
Open Scope py_scope.

(** [try: body finally: fin]: [fin] always runs; an exception it raises
    replaces the outcome of [body]. *)
Definition try_finally {A} (body : py A) (fin : py unit) : py A := fun w =>
  let '(r, w1, t1) := body w in
  match fin w1 with
  | (Ok _, w2, t2) => (r, w2, t1 ++ t2)
  | (Raise e, w2, t2) => (Raise e, w2, t1 ++ t2)
  end.

(** [try: body except <class>: handler]. *)
Definition try_except {A} (body : py A) (catches : exn -> bool)
    (handler : py A) : py A := fun w =>
  match body w with
  | (Raise e, w1, t1) =>
      if catches e
      then let '(r, w2, t2) := handler w1 in (r, w2, t1 ++ t2)
      else (Raise e, w1, t1)
  | ok => ok
  end.

Definition emit (ev : event) : py unit := fun w => (Ok tt, w, [ev]).

Definition gets {A} (f : world -> A) : py A := fun w => (Ok (f w), w, []).

Definition set_self_compiler (l : nat) : py unit := fun w =>
  (Ok tt,
   {| self_compiler := l; heap := heap w; heap_next := heap_next w;
      environ := environ w; disk := disk w |}, []).

Definition set_disk (d : gmap string node) (w : world) : world :=
  {| self_compiler := self_compiler w; heap := heap w;
     heap_next := heap_next w; environ := environ w; disk := d |}.

(** A library call that works on the disk. *)
Definition on_disk {A}
    (f : gmap string node -> result A * gmap string node) : py A := fun w =>
  let '(r, d) := f (disk w) in (r, set_disk d w, []).

(** [copy.deepcopy(obj)]: a new object with the same state. *)
Definition deepcopy (l : nat) : py nat := fun w =>
  (Ok (heap_next w),
   {| self_compiler := self_compiler w;
      heap := <[heap_next w := heap w l]> (heap w);
      heap_next := S (heap_next w);
      environ := environ w; disk := disk w |}, []).

Definition path_exists (p : string) : py bool :=
  gets (fun w => bool_decide (is_Some (disk w !! p))).

(** [sorted(tuple(env.items()))]: the keys of a dict are distinct, so the
    order is that of the keys. *)
Definition item_le (a b : string * string) : Prop :=
  String.leb a.1 b.1 = true.

#[global] Instance item_le_dec a b : Decision (item_le a b).
Proof. unfold item_le. apply _. Defined.

Definition sorted_items (env : gmap string string)
  : list (string * string) :=
  merge_sort item_le (map_to_list env).

(** [dict(base, **overrides)]: a new mapping, [overrides] winning. *)
Definition dict_override (base overrides : gmap string string)
  : gmap string string := overrides ∪ base.

Section Module.
Variable h : host.

(** *** [os.path] on the running platform *)

Definition os_path_join2 (a b : string) : string :=
  match sys_platform h with
  | Posix => posixpath.join2 a b
  | Win32 => ntpath_join2 h a b
  end.

Definition os_path_join (a : string) (p : list string) : string :=
  fold_left os_path_join2 p a.

Definition os_path_dirname (p : string) : string :=
  match sys_platform h with
  | Posix => posixpath.dirname p
  | Win32 => ntpath_dirname h p
  end.

(** *** Library calls *)

(** [tempfile.mkdtemp()] *)
Definition mkdtemp : py string := fun w =>
  let t := mkdtemp_name h (disk w) in
  match disk w !! t with
  | Some _ => (Raise FileExistsError, w, [])
  | None => (Ok t, set_disk (<[t := Dir TMP_DIR_MODE []]> (disk w)) w,
             [EvMkdtemp t])
  end.

(** [shutil.rmtree(path, onerror=onerror)] *)
Definition shutil_rmtree (path : string) (onerror : handler)
  : py unit := fun w =>
  let '(r, e) :=
    rmtree_slot (host_os h) onerror TMP_PARENT_MODE (disk w !! path) in
  (r,
   set_disk (match e with
             | Some n => <[path := n]> (disk w)
             | None => delete path (disk w)
             end) w,
   [EvRmtree path]).

Definition makedirs (path : string) : py unit :=
  emit (EvMakedirs path) ;;; on_disk (os_makedirs h path).

Definition copytree (src dst : string) (symlinks : bool) : py unit :=
  emit (EvCopytree src dst symlinks) ;;;
  on_disk (shutil_copytree h src dst symlinks).

(** [with open(path, 'w') as f: f.write(content)] *)
Definition write_file (path content : string) : py unit :=
  emit (EvWrite path content) ;;; on_disk (write_text h path content).

(** [subprocess.check_call(cmd, cwd=cwd, env=env)]; without [env] the
    child inherits [os.environ]. *)
Definition check_call (cmd : list string) (cwd : string)
    (env : option (gmap string string)) : py unit :=
  emit (EvCheckCall cmd cwd env) ;;;
  inherited <- gets environ ;;
  on_disk (subprocess_check_call h cmd cwd (default inherited env)).

Definition check_output (cmd : list string) : py string :=
  emit (EvCheckOutput cmd) ;;;
  inherited <- gets environ ;;
  on_disk (subprocess_check_output h cmd inherited).

Definition print_stderr (line : string) : py unit := emit (EvStderr line).

(** *** [_tmpdir] *)

Definition _tmpdir {A} (body : string -> py A) : py A :=
  tempdir <- mkdtemp ;;
  try_finally (body tempdir)
              (shutil_rmtree tempdir err).

(** *** [_get_cflags] *)

Definition define_flag (m : string * option string) : string :=
  match m with
  | (macro_name, None) => "-D" +:+ macro_name
  | (macro_name, Some macro_value) =>
      "-D" +:+ macro_name +:+ "=" +:+ macro_value
  end.

Definition _get_cflags (compiler : CCompiler)
    (macros : list (string * option string)) : string :=
  let args := map (fun p => "-I" +:+ p) (include_dirs compiler) in
  (* for macro_name, macro_value in macros: args.append(...) *)
  let args := fold_left (fun args m => args ++ [define_flag m]) macros args in
  Py.join " " args.

(** *** [_get_ldflags] *)

Definition LFLAG_CLANG := "-Wl,-undefined,dynamic_lookup".
Definition LFLAG_GCC := "-Wl,--unresolved-symbols=ignore-all".
Definition LFLAGS := [LFLAG_CLANG; LFLAG_GCC].

Definition TEST_C : string :=
  "int f(int); int main(void) { return f(0); }" +:+ Py.chr 10.

(** The [for lflag in LFLAGS: ... else: ...] loop. *)
Fixpoint probe (cc testf tmpdir : string) (lflags : list string)
  : py string :=
  match lflags with
  | [] => ret LFLAG_GCC
  | lflag :: rest =>
      try_except
        (check_call [cc; testf; lflag] tmpdir None ;;; ret lflag)
        is_CalledProcessError
        (probe cc testf tmpdir rest)
  end.

Definition _get_ldflags : py string :=
  match sys_platform h with
  | Win32 =>
      let prefix := sys_prefix h in
      let libs := os_path_join prefix ["libs"] in
      ret ("-L" +:+ libs +:+ " -lpython"
           +:+ pretty (sys_version_info h).1
           +:+ pretty (sys_version_info h).2)
  | Posix =>
      out <- check_output ["go"; "env"; "CC"] ;;
      let cc := Py.strip out in
      _tmpdir (fun tmpdir =>
        let testf := os_path_join tmpdir ["test.c"] in
        write_file testf TEST_C ;;;
        probe cc testf tmpdir LFLAGS)
  end.

(** *** [_check_call] *)

Definition _check_call (cmd : list string) (cwd : string)
    (env : gmap string string) : py unit :=
  let envparts :=
    map (fun kv => kv.1 +:+ "=" +:+ shlex.quote kv.2) (sorted_items env) in
  print_stderr ("$ " +:+ Py.join " " (envparts ++ map shlex.quote cmd)) ;;;
  ambient <- gets environ ;;
  check_call cmd cwd (Some (dict_override ambient env)).

(** *** [_get_build_extension_method] *)

Definition wrong_count_message (ext : Extension) : string :=
  "Error building extension `" +:+ name ext +:+ "`: "
  +:+ "sources must be a single file in the `main` package."
  +:+ Py.chr 10 +:+ "Recieved: " +:+ Py.repr_list (sources ext).

Definition missing_file_message (ext : Extension) (main_file : string)
  : string :=
  "Error building extension `" +:+ name ext +:+ "`: "
  +:+ main_file +:+ " does not exist".

Definition cmd_get : list string := ["go"; "get"; "-d"].

Definition cmd_build (artifact : string) : list string :=
  ["go"; "build"; "-buildmode=c-shared"; "-o"; artifact].

(** The part of [build_extension] after validation: the body of
    [with _tmpdir() as tempdir]. *)
Definition build_in (root : string) (ext : Extension) (main_dir : string)
    (tempdir : string) : py unit :=
  let root_path := os_path_join tempdir ["src"; root] in
  makedirs (os_path_dirname root_path) ;;;
  copytree "." root_path true ;;;
  let pkg_path := os_path_join root_path [main_dir] in
  let env : gmap string string := {[ "GOPATH" := tempdir ]} in
  _check_call cmd_get pkg_path env ;;;
  l <- gets self_compiler ;;
  compiler <- gets (fun w => heap w l) ;;
  let cflags := _get_cflags compiler (define_macros ext) in
  ldflags <- _get_ldflags ;;
  let env : gmap string string :=
    <["CGO_LDFLAGS" := ldflags]> (<["CGO_CFLAGS" := cflags]> env) in
  _check_call
    (cmd_build (os_path_abspath h (get_ext_fullpath h (name ext))))
    pkg_path env.

Definition build_extension (base : Extension -> py unit) (root : string)
    (ext : Extension) : py unit :=
  if negb (Py.any (fun source => Py.endswith source ".go") (sources ext))
  then
    (* the base class may mutate [self.compiler] *)
    original <- gets self_compiler ;;
    compiler <- deepcopy original ;;
    set_self_compiler compiler ;;;
    let compiler := original in
    try_finally
      (emit (EvBaseBuildExtension ext) ;;; base ext)
      (set_self_compiler compiler)
  else
    match sources ext with
    | [main_file] =>
        exists_ <- path_exists main_file ;;
        if negb exists_
        then raise (OSError (missing_file_message ext main_file))
        else
          let main_dir := os_path_dirname main_file in
          (* Copy the package into a temporary GOPATH environment *)
          _tmpdir (build_in root ext main_dir)
    | _ => raise (OSError (wrong_count_message ext))
    end.

Definition _get_build_extension_method (base : Extension -> py unit)
    (root : string) : Extension -> py unit :=
  build_extension base root.
End Module.

(** ** [set_build_ext] and the registered command classes *)

(** A build-step class: the framework's own [build_ext], a class someone
    else registered, or the class [_get_build_ext_cls] makes with
    [type('build_ext', (base,), attrs)]. *)
Inductive cmd_class :=
| Framework_build_ext
| Registered_class (id : string)
| Golang_build_ext (base : cmd_class) (root : string).

Record Distribution := {
  cmdclass : gmap string cmd_class;
}.

(** The direct base classes, [cls.__bases__]. *)
Definition bases (c : cmd_class) : list cmd_class :=
  match c with
  | Golang_build_ext base _ => [base]
  | _ => []
  end.

Definition _get_build_ext_cls (base : cmd_class) (root : string)
  : cmd_class := Golang_build_ext base root.

Definition set_build_ext (dist : Distribution) (attr : string)
    (value : gmap string string) : result unit * Distribution :=
  match value !! "root" with
  | None => (Raise (KeyError "root"), dist)
  | Some root =>
      let base := default Framework_build_ext (cmdclass dist !! "build_ext") in
      (Ok tt,
       {| cmdclass :=
            <["build_ext" := _get_build_ext_cls base root]> (cmdclass dist) |})
  end.

(** The [build_extension] method a class resolves to: the attribute set by
    [_get_build_ext_cls] for a wrapper class, the class's own otherwise. *)
Fixpoint class_build_extension (h : host)
    (external : cmd_class -> Extension -> py unit) (c : cmd_class)
  : Extension -> py unit :=
  match c with
  | Golang_build_ext base root =>
      _get_build_extension_method h (class_build_extension h external base)
                                  root
  | _ => external c
  end.

(** ** Notions used in the statements *)

(** [inv I T m]: running [m] keeps the world property [I] and emits only
    events satisfying [T]. *)
Definition inv (I : world -> Prop) (T : event -> Prop) {A} (m : py A)
  : Prop :=
  forall w, I w -> I (m w).1.2 /\ Forall T (m w).2.

(** Side conditions of the [inv] rules: the world property is kept by disk
    updates, and an event of a given shape satisfies the trace property. *)
Ltac inv_side := solve [auto | intros; simpl; tauto].

Definition is_ok {A} (r : result A) : bool :=
  match r with Ok _ => true | Raise _ => false end.

(** The target has a foreign-language source. *)
Definition has_go_source (ext : Extension) : bool :=
  Py.any (fun source => Py.endswith source ".go") (sources ext).

Definition is_base_call (ev : event) : Prop :=
  match ev with EvBaseBuildExtension _ => True | _ => False end.

(** The calls the Toolchain Prober makes. *)
Definition is_prober_call (ev : event) : Prop :=
  match ev with
  | EvCheckOutput _ | EvMkdtemp _ | EvWrite _ _ | EvRmtree _
  | EvCheckCall _ _ None => True
  | _ => False
  end.

(** The child processes started by [check_call], with their working
    directories, in order. *)
Definition spawned (t : list event) : list (list string * string) :=
  omap (fun ev => match ev with
                  | EvCheckCall cmd cwd _ => Some (cmd, cwd)
                  | _ => None
                  end) t.

(** The world [base.build_extension] is entered with: [self.compiler] refers
    to a fresh deep copy. *)
Definition swapped (w : world) : world :=
  {| self_compiler := heap_next w;
     heap := <[heap_next w := heap w (self_compiler w)]> (heap w);
     heap_next := S (heap_next w);
     environ := environ w; disk := disk w |}.

(** [m] writes to no object that existed before it ran, except the one
    [self.compiler] refers to. *)
Definition touches_only_self_compiler (m : py unit) : Prop :=
  forall w l, (l < heap_next w)%nat -> l <> self_compiler w ->
              heap (m w).1.2 l = heap w l.

(** [part] occurs in [msg]. *)
Definition mentions (msg part : string) : Prop :=
  exists pre post, msg = pre +:+ part +:+ post.

(** The flag the spec describes for one macro: bare when the macro has no
    value, [name=value] otherwise. *)
Definition spec_define_flag (m : string * option string) : string :=
  match m.2 with
  | None => "-D" +:+ m.1
  | Some v => "-D" +:+ m.1 +:+ "=" +:+ v
  end.

(** The overrides [build_extension] passes for [go build]. *)
Definition build_env (tempdir cflags ldflags : string) : gmap string string :=
  <["CGO_LDFLAGS" := ldflags]>
    (<["CGO_CFLAGS" := cflags]> {[ "GOPATH" := tempdir ]}).

(** [env] is [base] overridden by [overrides]: for every name the
    override when there is one, the value in [base] otherwise. *)
Definition overridden_by (base overrides env : gmap string string) : Prop :=
  forall k,
    env !! k
    = match overrides !! k with Some v => Some v | None => base !! k end.

(** What every child process started during a build in the workspace
    [tempdir] gets for environment, given the ambient environment [E] and
    the C flags [cflags] of the target.  [go get -d] and [go build] are
    handed a mapping of their own: [E] overridden by [GOPATH] for the
    fetch, and by [GOPATH], [CGO_CFLAGS] and [CGO_LDFLAGS] for the build.
    The only other children are the trial compiles of the Toolchain Prober,
    started without [env=], which inherit [os.environ]. *)
Definition build_env_ok (E : gmap string string) (tempdir cflags : string)
    (ev : event) : Prop :=
  match ev with
  | EvCheckCall cmd cwd env =>
      (cmd = ["go"; "get"; "-d"]
       /\ exists env',
            env = Some env'
            /\ overridden_by E {[ "GOPATH" := tempdir ]} env')
      \/ (exists artifact ldflags env',
            cmd = ["go"; "build"; "-buildmode=c-shared"; "-o"; artifact]
            /\ env = Some env'
            /\ overridden_by E
                 (<["CGO_LDFLAGS" := ldflags]>
                    (<["CGO_CFLAGS" := cflags]> {[ "GOPATH" := tempdir ]}))
                 env')
      \/ (exists cc testf lflag,
            cmd = [cc; testf; lflag] /\ In lflag LFLAGS /\ env = None)
  | _ => True
  end.

(** The state of the workspace named [t] on disk [d] allows [rmtree] with
    [err] to remove it. *)
Definition workspace_removable (plat : platform) (t : string)
    (d : gmap string node) : Prop :=
  exists n, d !! t = Some n /\ removable plat n = true.

(** ** Sample users

    An ordinary user and the superuser on POSIX, and a user on Windows. *)
Definition unprivileged : os_view := {| os_platform := Posix; os_euid := 1000 |}.
Definition superuser_view : os_view := {| os_platform := Posix; os_euid := 0 |}.
Definition windows_user : os_view := {| os_platform := Win32; os_euid := 0 |}.

(** ** Sample surroundings

    A POSIX host on which every library call and every child process
    succeeds and leaves the disk alone, except that the C compiler rejects
    the clang-style link flag. *)

Definition sample_compiler : CCompiler :=
  {| include_dirs := ["/usr/include/python3.8"]; macros := [];
     library_dirs := []; libraries := [] |}.

Definition sample_host : host :=
  {| sys_platform := Posix;
     os_geteuid := 1000;
     sys_prefix := "/usr";
     sys_version_info := (3, 8)%nat;
     ntpath_join2 := fun a b => a +:+ "\" +:+ b;
     ntpath_dirname := fun p => p;
     os_path_abspath := fun p => posixpath.join2 "/home/dev/project" p;
     mkdtemp_name := fun d =>
       if bool_decide (is_Some (d !! "/tmp/tmpab12"))
       then "/tmp/tmpcd34" else "/tmp/tmpab12";
     os_makedirs := fun _ d => (Ok tt, d);
     shutil_copytree := fun _ _ _ d => (Ok tt, d);
     write_text := fun _ _ d => (Ok tt, d);
     subprocess_check_call := fun cmd _ _ d =>
       match cmd with
       | [_; _; lflag] =>
           if String.eqb lflag "-Wl,-undefined,dynamic_lookup"
           then (Raise (CalledProcessError 1), d)
           else (Ok tt, d)
       | _ => (Ok tt, d)
       end;
     subprocess_check_output := fun _ _ d => (Ok ("gcc" +:+ Py.chr 10), d);
     get_ext_fullpath := fun n => "build/lib/" +:+ n +:+ ".so" |}.

(** [h] on another platform. *)
Definition with_platform (p : platform) (h : host) : host :=
  {| sys_platform := p;
     os_geteuid := os_geteuid h;
     sys_prefix := sys_prefix h;
     sys_version_info := sys_version_info h;
     ntpath_join2 := ntpath_join2 h;
     ntpath_dirname := ntpath_dirname h;
     os_path_abspath := os_path_abspath h;
     mkdtemp_name := mkdtemp_name h;
     os_makedirs := os_makedirs h;
     shutil_copytree := shutil_copytree h;
     write_text := write_text h;
     subprocess_check_call := subprocess_check_call h;
     subprocess_check_output := subprocess_check_output h;
     get_ext_fullpath := get_ext_fullpath h |}.

(** [h] with other child processes. *)
Definition with_check_call
    (f : list string -> string -> gmap string string -> gmap string node
         -> result unit * gmap string node) (h : host) : host :=
  {| sys_platform := sys_platform h;
     os_geteuid := os_geteuid h;
     sys_prefix := sys_prefix h;
     sys_version_info := sys_version_info h;
     ntpath_join2 := ntpath_join2 h;
     ntpath_dirname := ntpath_dirname h;
     os_path_abspath := os_path_abspath h;
     mkdtemp_name := mkdtemp_name h;
     os_makedirs := os_makedirs h;
     shutil_copytree := shutil_copytree h;
     write_text := write_text h;
     subprocess_check_call := f;
     subprocess_check_output := subprocess_check_output h;
     get_ext_fullpath := get_ext_fullpath h |}.

(** A host on which [go env CC] names a compiler that is not installed:
    starting it raises [FileNotFoundError]. *)
Definition no_compiler_host : host :=
  with_check_call
    (fun cmd _ _ d =>
       match cmd with
       | "gcc" :: _ => (Raise FileNotFoundError, d)
       | _ => (Ok tt, d)
       end)
    sample_host.

Definition sample_world : world :=
  {| self_compiler := 0;
     heap := fun _ => sample_compiler;
     heap_next := 1;
     environ := {[ "PATH" := "/usr/bin"; "GOPATH" := "/home/dev/go" ]};
     disk := {[ "pkg/dir/main.go" := File 420;
                "/opt/other/main.go" := File 420 ]} |}.

Definition ext_pkg : Extension :=
  {| name := "pkg"; sources := ["pkg/dir/main.go"]; define_macros := [] |}.

(** The target of [testing/multidir/setup.py]. *)
Definition ext_multidir : Extension :=
  {| name := "multidir"; sources := ["dir1/sum.go"; "dir2/sum_support.go"];
     define_macros := [] |}.

Definition ext_missing : Extension :=
  {| name := "gone"; sources := ["gone/main.go"]; define_macros := [] |}.

Definition ext_native : Extension :=
  {| name := "native"; sources := ["native/mod.c"]; define_macros := [] |}.

(** A target whose source lies outside the project, named by an absolute
    path. *)
Definition ext_outside : Extension :=
  {| name := "outside"; sources := ["/opt/other/main.go"];
     define_macros := [] |}.

Definition base_noop (ext : Extension) : py unit := ret tt.

(** A base implementation that adds an include directory to
    [self.compiler] and then fails. *)
Definition base_mutates_and_raises (ext : Extension) : py unit := fun w =>
  let c := heap w (self_compiler w) in
  (Raise (OtherError "compile failed"),
   {| self_compiler := self_compiler w;
      heap := <[self_compiler w :=
                  {| include_dirs := "/opt/include" :: include_dirs c;
                     macros := macros c; library_dirs := library_dirs c;
                     libraries := libraries c |}]> (heap w);
      heap_next := heap_next w; environ := environ w; disk := disk w |},
   []).

(** What a Go toolchain that keeps a module cache leaves in [GOPATH]:
    [pkg/mod] holds read-only directories ([0o555]) of read-only files
    ([0o444]). *)
Definition module_cache : node :=
  Dir 448 [("pkg", Dir 493 [("mod", Dir 365 [("dep.go", File 292)])])].

(** A scope body whose child process fills the workspace with a module
    cache and then fails. *)
Definition body_fails_leaving_cache (tempdir : string) : py unit :=
  on_disk (fun d => (Raise (CalledProcessError 2),
                     <[tempdir := module_cache]> d)).

(** A distribution on which the adapter is registered already, next to
    a command class of someone else. *)
Definition dist_wrapped : Distribution :=
  {| cmdclass := {[ "build_ext" := Golang_build_ext Framework_build_ext "a.b/c";
                    "sdist" := Registered_class "sdist" ]} |}.

(** A host whose [go get -d] leaves a module cache in the workspace
    it is given as [GOPATH]. *)
Definition module_cache_host : host :=
  with_check_call
    (fun cmd cwd env d =>
       match cmd with
       | ["go"; "get"; "-d"] =>
           match env !! "GOPATH" with
           | Some gopath => (Ok tt, <[gopath := module_cache]> d)
           | None => (Ok tt, d)
           end
       | _ => subprocess_check_call sample_host cmd cwd env d
       end)
    sample_host.

(** ** Further string primitives *)

Module Str.

(** [s.split(c)] for a one-character separator [c]: never empty, one part
    more than there are separators. *)
Fixpoint split (c : ascii) (s : string) : list string :=
  match s with
  | EmptyString => [EmptyString]
  | String d s' =>
      if Ascii.eqb d c then EmptyString :: split c s'
      else match split c s' with
           | p :: ps => String d p :: ps
           | [] => [String d EmptyString]
           end
  end.

(** [s.replace(a, b)] for single characters. *)
Fixpoint replace_char (a b : ascii) (s : string) : string :=
  match s with
  | EmptyString => EmptyString
  | String d s' =>
      String (if Ascii.eqb d a then b else d) (replace_char a b s')
  end.

(** [c * n] for a character [c]. *)
Fixpoint repeat_char (c : ascii) (n : nat) : string :=
  match n with
  | O => EmptyString
  | S n' => String c (repeat_char c n')
  end.

End Str.

(** ** [build_manylinux_wheels] *)

(** [GOLANG.format(version)] *)
Definition GOLANG (version : string) : string :=
  "https://storage.googleapis.com/golang/go" +:+ version
  +:+ ".linux-amd64.tar.gz".

(** [SCRIPT.format(golang=golang, pythons=pythons)] *)
Definition SCRIPT (golang pythons : string) : string :=
  "cd /tmp" +:+ Py.chr 10
  +:+ "curl " +:+ golang +:+ " --silent --location | tar -xz" +:+ Py.chr 10
  +:+ "export PATH=" +:+ String Py.DQUOTE "/tmp/go/bin:$PATH"
  +:+ String Py.DQUOTE " HOME=/tmp" +:+ Py.chr 10
  +:+ "for py in " +:+ pythons +:+ "; do" +:+ Py.chr 10
  +:+ "    " +:+ String Py.DQUOTE "/opt/python/$py/bin/pip"
  +:+ String Py.DQUOTE " wheel --no-deps --wheel-dir /tmp /dist/*.tar.gz"
  +:+ Py.chr 10
  +:+ "done" +:+ Py.chr 10
  +:+ "ls *.whl | xargs -n1 --verbose auditwheel repair --wheel-dir /dist"
  +:+ Py.chr 10
  +:+ "ls -al /dist" +:+ Py.chr 10.

(** The namespace [parser.parse_args(argv)] returns; the parsing itself is
    [argparse]'s. *)
Record Namespace := {
  golang : string;
  pythons : string;
}.

(** The namespace of an empty command line: the two defaults. *)
Definition DEFAULT_ARGS : Namespace :=
  {| golang := "1.13.8"; pythons := "cp36-cp36m,cp37-cp37m,cp38-cp38" |}.

(** What the helper reads from the process besides [host]: the user and
    group ids, and the permission bits of the current directory, which
    govern the removal of [dist]. *)
Record process := {
  os_getuid : nat;
  os_getgid : nat;
  cwd_mode : Z;
}.

(** The default [onerror] of [shutil.rmtree]: a bare [raise], which raises
    the exception of the operation that failed. *)
Definition reraise : handler := fun _ exc _ _ name => (Raise exc, name).

(** [shutil.rmtree(path)] for an entry of the current directory. *)
Definition rmtree_in_cwd (h : host) (p : process) (path : string)
  : py unit := fun w =>
  let '(r, e) :=
    rmtree_slot (host_os h) reraise (cwd_mode p) (disk w !! path) in
  (r,
   set_disk (match e with
             | Some n => <[path := n]> (disk w)
             | None => delete path (disk w)
             end) w,
   [EvRmtree path]).

Definition cmd_sdist : list string := ["python"; "setup.py"; "sdist"].

(** [f'{os.getuid()}:{os.getgid()}']: the two functions exist on Unix
    only, elsewhere the attribute lookup on [os] fails. *)
Definition user_ids (h : host) (p : process) : py string :=
  match sys_platform h with
  | Posix => ret (pretty (os_getuid p) +:+ ":" +:+ pretty (os_getgid p))
  | Win32 => raise (OtherError "AttributeError")
  end.

Definition cmd_docker (h : host) (user : string) (args : Namespace)
  : list string :=
  let golang := GOLANG (golang args) in
  let pythons := Py.join " " (Str.split "," (pythons args)) in
  ["docker"; "run"; "--rm";
   "--volume"; os_path_abspath h "dist" +:+ ":/dist:rw";
   "--user"; user;
   "quay.io/pypa/manylinux1_x86_64:latest";
   "bash"; "-o"; "pipefail"; "-euxc";
   SCRIPT golang pythons].

Definition BANNER : list string :=
  [Str.repeat_char "*" 79;
   "Your wheels have been built into ./dist";
   Str.repeat_char "*" 79].

(** The body of [build_manylinux_wheels] after [parse_args]; the value is
    what was printed to standard output and the exit status. *)
Definition build_manylinux_wheels (h : host) (p : process)
    (args : Namespace) : py (list string * Z) :=
  has_setup <- path_exists "setup.py" ;;
  if negb has_setup then raise (OtherError "AssertionError")
  else
    has_dist <- path_exists "dist" ;;
    (if has_dist then rmtree_in_cwd h p "dist" else ret tt) ;;;
    makedirs h "dist" ;;;
    _check_call h cmd_sdist "." ∅ ;;;
    user <- user_ids h p ;;
    _check_call h (cmd_docker h user args) "." ∅ ;;;
    ret (BANNER, 0).

(** ** Class ancestry and repeated registration *)

(** The linearised ancestry of a class, most derived first. *)
Fixpoint mro (c : cmd_class) : list cmd_class :=
  c :: match c with
       | Golang_build_ext base _ => mro base
       | _ => []
       end.

(** [set_build_ext(dist, 'build_golang', {'root': root})], for the
    distribution it leaves. *)
Definition register (dist : Distribution) (root : string) : Distribution :=
  (set_build_ext dist "build_golang" {[ "root" := root ]}).2.

(** Registration of several roots, one after the other. *)
Definition register_all (dist : Distribution) (roots : list string)
  : Distribution := fold_left register roots dist.

(** Wrappers around [base], the outermost for the first root. *)
Fixpoint wrap_roots (roots : list string) (base : cmd_class) : cmd_class :=
  match roots with
  | [] => base
  | root :: rest => Golang_build_ext (wrap_roots rest base) root
  end.

(** The world after [n] nested swaps of [self.compiler] for a copy. *)
Fixpoint swapped_n (n : nat) (w : world) : world :=
  match n with
  | O => w
  | S n' => swapped_n n' (swapped w)
  end.

(** ** Removal on POSIX *)

(** What [shutil.rmtree] needs on POSIX to clear a directory found in a
    directory of mode [dmode]: the right to remove from [dmode], the right
    to list every directory of the tree, and the right to remove from
    every directory of the tree that is not empty. *)
Fixpoint posix_listable (n : node) : bool :=
  match n with
  | File _ => true
  | Dir m es =>
      has_bit m S_IREAD
      && match es with
         | [] => true
         | _ => has_bit m S_IWRITE && has_bit m S_IEXEC
         end
      && forallb (fun e => posix_listable e.2) es
  end.

(** Write and search permission on a directory of mode [dmode]. *)
Definition may_unlink_in (dmode : Z) : bool :=
  has_bit dmode S_IWRITE && has_bit dmode S_IEXEC.

Definition posix_clears (dmode : Z) (n : node) : bool :=
  match n with
  | File _ => false
  | Dir _ _ =>
      has_bit dmode S_IWRITE && has_bit dmode S_IEXEC && posix_listable n
  end.

(** The child [e] of a directory of mode [m] can be cleared. *)
Definition child_clears (m : Z) (e : string * node) : bool :=
  match e.2 with
  | File _ => may_unlink_in m
  | Dir _ _ => posix_clears m e.2
  end.

(** ** Further sample surroundings *)

(** A host on which [go get -d] exits with status 1. *)
Definition fetch_fails_host : host :=
  with_check_call
    (fun cmd _ _ d =>
       match cmd with
       | ["go"; "get"; "-d"] => (Raise (CalledProcessError 1), d)
       | _ => (Ok tt, d)
       end)
    sample_host.

(** A host on which the destination of the copy exists already. *)
Definition copy_fails_host : host :=
  {| sys_platform := sys_platform sample_host;
     os_geteuid := os_geteuid sample_host;
     sys_prefix := sys_prefix sample_host;
     sys_version_info := sys_version_info sample_host;
     ntpath_join2 := ntpath_join2 sample_host;
     ntpath_dirname := ntpath_dirname sample_host;
     os_path_abspath := os_path_abspath sample_host;
     mkdtemp_name := mkdtemp_name sample_host;
     os_makedirs := os_makedirs sample_host;
     shutil_copytree := fun _ _ _ d => (Raise FileExistsError, d);
     write_text := write_text sample_host;
     subprocess_check_call := subprocess_check_call sample_host;
     subprocess_check_output := subprocess_check_output sample_host;
     get_ext_fullpath := get_ext_fullpath sample_host |}.

(** A scope body that returns normally and leaves a module cache in the
    workspace. *)
Definition body_returns_leaving_cache (tempdir : string) : py string :=
  on_disk (fun d => (Ok "built", <[tempdir := module_cache]> d)).

(** A source file in the project root. *)
Definition ext_toplevel : Extension :=
  {| name := "top"; sources := ["main.go"]; define_macros := [] |}.

(** ** Removal on Windows without the callback *)

(** No entry of the tree carries the read-only attribute. *)
Fixpoint all_writable (n : node) : bool :=
  match n with
  | File m => has_bit m S_IWRITE
  | Dir m es =>
      has_bit m S_IWRITE && forallb (fun e => all_writable e.2) es
  end.

Definition is_dir (n : node) : bool :=
  match n with Dir _ _ => true | File _ => false end.

(** A project directory with a stale [dist], and a host whose [makedirs]
    creates the directory unless the name is taken. *)
Definition project_world : world :=
  set_disk {[ "setup.py" := File 420;
              "dist" := Dir 493 [("old.whl", File 420)] ]} sample_world.

Definition project_host : host :=
  {| sys_platform := Posix;
     os_geteuid := 1000;
     sys_prefix := sys_prefix sample_host;
     sys_version_info := sys_version_info sample_host;
     ntpath_join2 := ntpath_join2 sample_host;
     ntpath_dirname := ntpath_dirname sample_host;
     os_path_abspath := os_path_abspath sample_host;
     mkdtemp_name := mkdtemp_name sample_host;
     os_makedirs := fun p d =>
       match d !! p with
       | Some _ => (Raise FileExistsError, d)
       | None => (Ok tt, <[p := Dir 493 []]> d)
       end;
     shutil_copytree := shutil_copytree sample_host;
     write_text := write_text sample_host;
     subprocess_check_call := fun _ _ _ d => (Ok tt, d);
     subprocess_check_output := subprocess_check_output sample_host;
     get_ext_fullpath := get_ext_fullpath sample_host |}.

Definition sample_process : process :=
  {| os_getuid := 1000; os_getgid := 1000; cwd_mode := 493 |}.

(** ** The primitives on concrete inputs *)

Example endswith_go : Py.endswith "dir1/sum.go" ".go" = true.
Proof. reflexivity. Qed.

Example endswith_short : Py.endswith "go" ".go" = false.
Proof. reflexivity. Qed.

Example endswith_c : Py.endswith "pkg/mod.c" ".go" = false.
Proof. reflexivity. Qed.

Example repr_list_multidir :
  Py.repr_list ["dir1/sum.go"; "dir2/sum_support.go"]
  = "['dir1/sum.go', 'dir2/sum_support.go']".
Proof. reflexivity. Qed.

Example join_three :
  posixpath.join "/tmp/tmpab12" ["src"; "example.com/pkg"]
  = "/tmp/tmpab12/src/example.com/pkg".
Proof. reflexivity. Qed.

Example join_absolute :
  posixpath.join "/tmp/tmpab12" ["src"; "/opt/go"] = "/opt/go".
Proof. reflexivity. Qed.

Example dirname_nested :
  posixpath.dirname "/tmp/tmpab12/src/example.com/pkg"
  = "/tmp/tmpab12/src/example.com".
Proof. reflexivity. Qed.

Example dirname_plain : posixpath.dirname "main.go" = "".
Proof. reflexivity. Qed.

Example dirname_root : posixpath.dirname "//main.go" = "//".
Proof. reflexivity. Qed.

Example strip_cc : Py.strip (" gcc" +:+ Py.chr 10) = "gcc".
Proof. reflexivity. Qed.

Example quote_plain : shlex.quote "/tmp/tmpab12" = "/tmp/tmpab12".
Proof. reflexivity. Qed.

Example quote_spaces : shlex.quote "-Ia -DFOO" = "'-Ia -DFOO'".
Proof. reflexivity. Qed.

Example strip_inner : Py.strip "  clang -m64  " = "clang -m64".
Proof. reflexivity. Qed.

Example rstrip_seps : Py.rstrip_char "/" "/tmp//x//" = "/tmp//x".
Proof. reflexivity. Qed.

Example endswith_empty : Py.endswith "" "" = true.
Proof. reflexivity. Qed.

Example repr_apostrophe :
  Py.repr_str "it's"
  = String Py.DQUOTE "it's" +:+ String Py.DQUOTE "".
Proof. reflexivity. Qed.

Example repr_newline : Py.repr_str ("a" +:+ Py.chr 10 +:+ "b") = "'a\nb'".
Proof. reflexivity. Qed.

Example sorted_items_by_key :
  sorted_items {[ "GOPATH" := "/tmp/x"; "CGO_LDFLAGS" := "-l";
                  "CGO_CFLAGS" := "-I" ]}
  = [("CGO_CFLAGS", "-I"); ("CGO_LDFLAGS", "-l"); ("GOPATH", "/tmp/x")].
Proof. vm_compute. reflexivity. Qed.

Example dict_override_wins :
  dict_override {[ "PATH" := "/usr/bin"; "GOPATH" := "/home/dev/go" ]}
                {[ "GOPATH" := "/tmp/x" ]}
  = {[ "PATH" := "/usr/bin"; "GOPATH" := "/tmp/x" ]}.
Proof. vm_compute. reflexivity. Qed.

(** The line [_check_call] prints for the build step. *)
Example check_call_line :
  (_check_call sample_host (cmd_build "/home/dev/project/build/lib/pkg.so")
     "/tmp/tmpab12/src/example.com/pkg/pkg/dir"
     (build_env "/tmp/tmpab12" "-Ia -DFOO" "-Wl,--unresolved-symbols=ignore-all")
     sample_world).2 !! 0%nat
  = Some (EvStderr
      ("$ CGO_CFLAGS='-Ia -DFOO' "
       +:+ "CGO_LDFLAGS=-Wl,--unresolved-symbols=ignore-all "
       +:+ "GOPATH=/tmp/tmpab12 "
       +:+ "go build -buildmode=c-shared -o "
       +:+ "/home/dev/project/build/lib/pkg.so")).
Proof. vm_compute. reflexivity. Qed.

(** The Windows branch of [_get_ldflags]. *)
Example ldflags_win32 :
  _get_ldflags
    {| sys_platform := Win32; os_geteuid := 0;
       sys_prefix := "C:\Python38";
       sys_version_info := (3, 8)%nat;
       ntpath_join2 := fun a b => a +:+ "\" +:+ b;
       ntpath_dirname := ntpath_dirname sample_host;
       os_path_abspath := os_path_abspath sample_host;
       mkdtemp_name := mkdtemp_name sample_host;
       os_makedirs := os_makedirs sample_host;
       shutil_copytree := shutil_copytree sample_host;
       write_text := write_text sample_host;
       subprocess_check_call := subprocess_check_call sample_host;
       subprocess_check_output := subprocess_check_output sample_host;
       get_ext_fullpath := get_ext_fullpath sample_host |}
    sample_world
  = (Ok "-LC:\Python38\libs -lpython38", sample_world, []).
Proof. vm_compute. reflexivity. Qed.

(** ** Reasoning about [py] programs *)

Section Invariants.
Variable I : world -> Prop.
Variable T : event -> Prop.
Hypothesis I_disk : forall w d, I w -> I (set_disk d w).

Lemma inv_ret {A} (a : A) : inv I T (ret a).
Proof. intros w Hw. split; [exact Hw | constructor]. Qed.

Lemma inv_raise {A} (e : exn) : inv I T (@raise A e).
Proof. intros w Hw. split; [exact Hw | constructor]. Qed.

Lemma inv_gets {A} (f : world -> A) : inv I T (gets f).
Proof. intros w Hw. split; [exact Hw | constructor]. Qed.

Lemma inv_emit (ev : event) : T ev -> inv I T (emit ev).
Proof. intros Hev w Hw. split; [exact Hw | repeat constructor; exact Hev]. Qed.

Lemma inv_bind {A B} (m : py A) (f : A -> py B) :
  inv I T m -> (forall a, inv I T (f a)) -> inv I T (bind m f).
Proof.
  intros Hm Hf w Hw. unfold bind.
  destruct (Hm w Hw) as [H1 H2].
  destruct (m w) as [[[a | e] w1] t1]; simpl in *; [| auto].
  destruct (Hf a w1 H1) as [H3 H4].
  destruct (f a w1) as [[r w2] t2]; simpl in *.
  split; [exact H3 | apply Forall_app; auto].
Qed.

Lemma inv_try_finally {A} (body : py A) (fin : py unit) :
  inv I T body -> inv I T fin -> inv I T (try_finally body fin).
Proof.
  intros Hb Hf w Hw. unfold try_finally.
  destruct (Hb w Hw) as [H1 H2].
  destruct (body w) as [[r w1] t1]; simpl in *.
  destruct (Hf w1 H1) as [H3 H4].
  destruct (fin w1) as [[[u | e] w2] t2]; simpl in *;
    (split; [exact H3 | apply Forall_app; auto]).
Qed.

Lemma inv_try_except {A} (body : py A) (catches : exn -> bool)
    (handler : py A) :
  inv I T body -> inv I T handler -> inv I T (try_except body catches handler).
Proof.
  intros Hb Hh w Hw. unfold try_except.
  destruct (Hb w Hw) as [H1 H2].
  destruct (body w) as [[[a | e] w1] t1]; simpl in *; [auto |].
  destruct (catches e); simpl; [| auto].
  destruct (Hh w1 H1) as [H3 H4].
  destruct (handler w1) as [[r w2] t2]; simpl in *.
  split; [exact H3 | apply Forall_app; auto].
Qed.

Lemma inv_on_disk {A}
    (f : gmap string node -> result A * gmap string node) :
  inv I T (on_disk f).
Proof.
  intros w Hw. unfold on_disk. destruct (f (disk w)) as [r d]; simpl.
  split; [apply I_disk; exact Hw | constructor].
Qed.

(** A read of the state whose value the invariant determines. *)
Lemma inv_gets_bind {A B} (f : world -> A) (k : A -> py B) (a : A) :
  (forall w, I w -> f w = a) -> inv I T (k a) -> inv I T (bind (gets f) k).
Proof.
  intros Hf Hk w Hw. unfold bind, gets. rewrite (Hf w Hw).
  destruct (Hk w Hw) as [H1 H2].
  destruct (k a w) as [[r w1] t1]. simpl in *. auto.
Qed.

Lemma inv_path_exists (p : string) : inv I T (path_exists p).
Proof. apply inv_gets. Qed.

Section WithHost.
Variable h : host.

Lemma inv_mkdtemp : (forall t, T (EvMkdtemp t)) -> inv I T (mkdtemp h).
Proof.
  intros HT w Hw. unfold mkdtemp.
  destruct (disk w !! mkdtemp_name h (disk w)); simpl.
  - split; [exact Hw | constructor].
  - split; [apply I_disk; exact Hw | repeat constructor; apply HT].
Qed.

Lemma inv_shutil_rmtree (path : string) (onerror : handler) :
  T (EvRmtree path) -> inv I T (shutil_rmtree h path onerror).
Proof.
  intros HT w Hw. unfold shutil_rmtree.
  destruct (rmtree_slot _ _ _ _) as [r e]; simpl.
  split; [apply I_disk; exact Hw | repeat constructor; exact HT].
Qed.

Lemma inv_tmpdir {A} (body : string -> py A) :
  (forall t, T (EvMkdtemp t)) -> (forall t, T (EvRmtree t)) ->
  (forall t, inv I T (body t)) -> inv I T (_tmpdir h body).
Proof.
  intros H1 H2 Hb. unfold _tmpdir.
  apply inv_bind; [apply inv_mkdtemp; exact H1 |].
  intros t. apply inv_try_finally; [apply Hb |].
  apply inv_shutil_rmtree, H2.
Qed.

Lemma inv_makedirs (p : string) :
  T (EvMakedirs p) -> inv I T (makedirs h p).
Proof.
  intros HT. unfold makedirs.
  apply inv_bind; [apply inv_emit, HT | intros _; apply inv_on_disk].
Qed.

Lemma inv_copytree (src dst : string) (b : bool) :
  T (EvCopytree src dst b) -> inv I T (copytree h src dst b).
Proof.
  intros HT. unfold copytree.
  apply inv_bind; [apply inv_emit, HT | intros _; apply inv_on_disk].
Qed.

Lemma inv_write_file (p c : string) :
  T (EvWrite p c) -> inv I T (write_file h p c).
Proof.
  intros HT. unfold write_file.
  apply inv_bind; [apply inv_emit, HT | intros _; apply inv_on_disk].
Qed.

Lemma inv_check_call (cmd : list string) (cwd : string)
    (env : option (gmap string string)) :
  T (EvCheckCall cmd cwd env) -> inv I T (check_call h cmd cwd env).
Proof.
  intros HT. unfold check_call.
  apply inv_bind; [apply inv_emit, HT | intros _].
  apply inv_bind; [apply inv_gets | intros ?; apply inv_on_disk].
Qed.

Lemma inv_check_output (cmd : list string) :
  T (EvCheckOutput cmd) -> inv I T (check_output h cmd).
Proof.
  intros HT. unfold check_output.
  apply inv_bind; [apply inv_emit, HT | intros _].
  apply inv_bind; [apply inv_gets | intros ?; apply inv_on_disk].
Qed.

Lemma inv_probe (cc testf tmpdir : string) (lflags : list string) :
  (forall cmd, T (EvCheckCall cmd tmpdir None)) ->
  inv I T (probe h cc testf tmpdir lflags).
Proof.
  intros HT. induction lflags as [| lflag rest IH]; simpl.
  - apply inv_ret.
  - apply inv_try_except; [| exact IH].
    apply inv_bind; [apply inv_check_call, HT | intros _; apply inv_ret].
Qed.

Lemma inv_get_ldflags :
  (forall t, T (EvMkdtemp t)) -> (forall t, T (EvRmtree t)) ->
  (forall p c, T (EvWrite p c)) -> (forall cmd, T (EvCheckOutput cmd)) ->
  (forall cmd cwd, T (EvCheckCall cmd cwd None)) ->
  inv I T (_get_ldflags h).
Proof.
  intros H1 H2 H3 H4 H5. unfold _get_ldflags.
  destruct (sys_platform h); [| apply inv_ret].
  apply inv_bind; [apply inv_check_output, H4 | intros out].
  apply inv_tmpdir; [exact H1 | exact H2 | intros t].
  apply inv_bind; [apply inv_write_file, H3 | intros _].
  apply inv_probe. intros cmd. apply H5.
Qed.

(** The same with the shape of the trial compiles kept. *)
Lemma inv_probe_trials (cc testf tmpdir : string) (lflags : list string) :
  (forall lflag,
     In lflag lflags -> T (EvCheckCall [cc; testf; lflag] tmpdir None)) ->
  inv I T (probe h cc testf tmpdir lflags).
Proof.
  induction lflags as [| lflag rest IH]; intros HT; simpl.
  - apply inv_ret.
  - apply inv_try_except; [| apply IH; intros l Hl; apply HT; right; exact Hl].
    apply inv_bind; [| intros _; apply inv_ret].
    apply inv_check_call, HT. left. reflexivity.
Qed.

Lemma inv_get_ldflags_trials :
  (forall t, T (EvMkdtemp t)) -> (forall t, T (EvRmtree t)) ->
  (forall p c, T (EvWrite p c)) -> (forall cmd, T (EvCheckOutput cmd)) ->
  (forall cc testf lflag cwd,
     In lflag LFLAGS -> T (EvCheckCall [cc; testf; lflag] cwd None)) ->
  inv I T (_get_ldflags h).
Proof.
  intros H1 H2 H3 H4 H5. unfold _get_ldflags.
  destruct (sys_platform h); [| apply inv_ret].
  apply inv_bind; [apply inv_check_output, H4 | intros out].
  apply inv_tmpdir; [exact H1 | exact H2 | intros t].
  apply inv_bind; [apply inv_write_file, H3 | intros _].
  apply inv_probe_trials. intros lflag Hl. apply H5, Hl.
Qed.
End WithHost.
End Invariants.

(** ** The Flag Synthesizer *)

Lemma fold_append_flags (ms : list (string * option string))
    (args : list string) :
  fold_left (fun args m => args ++ [define_flag m]) ms args
  = args ++ map define_flag ms.
Proof.
  revert args. induction ms as [| m ms IH]; intros args; simpl.
  - symmetry. apply app_nil_r.
  - rewrite IH, <- app_assoc. reflexivity.
Qed.

(** C6: [_get_cflags] is a function of its two arguments alone; its result
    is the space-joined list of one [-I<dir>] per include directory, in
    list order, followed by one define flag per macro in the order of the
    macro sequence, [-D<name>] for a macro without value and
    [-D<name>=<value>] otherwise; include dirs [a, b] with macros
    [FOO: None, BAR: "1"] give ["-Ia -Ib -DFOO -DBAR=1"]. *)
Theorem C6_get_cflags_flag_string :
  forall (compiler : CCompiler) (ms : list (string * option string)),
    _get_cflags compiler ms
    = Py.join " " (map (fun d => "-I" +:+ d) (include_dirs compiler)
                   ++ map spec_define_flag ms)
    /\ forall m ld l,
         _get_cflags {| include_dirs := ["a"; "b"]; macros := m;
                        library_dirs := ld; libraries := l |}
                     [("FOO", None); ("BAR", Some "1")]
         = "-Ia -Ib -DFOO -DBAR=1".
Proof.
  intros compiler ms. split; [| reflexivity].
  unfold _get_cflags. rewrite fold_append_flags.
  do 2 f_equal. apply map_ext. intros [n [v |]]; reflexivity.
Qed.

(** ** Registration *)

(** C10: without a ['root'] key [set_build_ext] raises [KeyError] and leaves
    [dist.cmdclass] as it was; with one, the class registered under
    ['build_ext'] is a new class whose base is the class registered before
    (the framework's [build_ext] when there was none), every other command
    keeps its class, and the new class's [build_extension] wraps that of
    its base. *)
Theorem C10_set_build_ext_registration :
  forall (dist : Distribution) (attr : string) (value : gmap string string),
    (value !! "root" = None ->
     set_build_ext dist attr value = (Raise (KeyError "root"), dist))
    /\ (forall root, value !! "root" = Some root ->
        let previous :=
          default Framework_build_ext (cmdclass dist !! "build_ext") in
        exists cls dist',
          set_build_ext dist attr value = (Ok tt, dist')
          /\ cmdclass dist' !! "build_ext" = Some cls
          /\ bases cls = [previous]
          /\ (forall k, k <> "build_ext" ->
                        cmdclass dist' !! k = cmdclass dist !! k)
          /\ forall h external,
               class_build_extension h external cls
               = build_extension h (class_build_extension h external previous)
                                 root).
Proof.
  intros dist attr value. split.
  - intros Hroot. unfold set_build_ext. rewrite Hroot. reflexivity.
  - intros root Hroot previous. unfold set_build_ext. rewrite Hroot.
    eexists _, _. split; [reflexivity |]. simpl.
    split; [apply lookup_insert_eq |].
    split; [reflexivity |].
    split; [| reflexivity].
    intros k Hk. apply lookup_insert_ne. congruence.
Qed.

Lemma C10_set_build_ext_registration_witness :
  set_build_ext dist_wrapped "build_golang" {[ "rot" := "x" ]}
  = (Raise (KeyError "root"), dist_wrapped)
  /\ exists cls dist',
       set_build_ext dist_wrapped "build_golang" {[ "root" := "example.com/pkg" ]}
       = (Ok tt, dist')
       /\ cmdclass dist' !! "build_ext" = Some cls
       /\ bases cls = [Golang_build_ext Framework_build_ext "a.b/c"].
Proof.
  split.
  - apply (C10_set_build_ext_registration dist_wrapped "build_golang"
             {[ "rot" := "x" ]}).
    vm_compute. reflexivity.
  - destruct (C10_set_build_ext_registration dist_wrapped "build_golang"
                {[ "root" := "example.com/pkg" ]}) as [_ Hreg].
    destruct (Hreg "example.com/pkg") as (cls & dist' & H1 & H2 & H3 & _).
    + vm_compute. reflexivity.
    + exists cls, dist'. repeat split; assumption.
Defined.

(** ** The Extension Router *)

Lemma no_base_call_in_check_call h cmd cwd env :
  inv (fun _ => True) (fun ev => ~ is_base_call ev) (_check_call h cmd cwd env).
Proof.
  unfold _check_call, print_stderr.
  apply inv_bind; [apply inv_emit; inv_side | intros _].
  apply inv_bind; [apply inv_gets | intros ?].
  apply inv_check_call; inv_side.
Qed.

Lemma no_base_call_in_driver h root ext main_dir :
  inv (fun _ => True) (fun ev => ~ is_base_call ev)
      (_tmpdir h (build_in h root ext main_dir)).
Proof.
  apply inv_tmpdir; try inv_side.
  intros t. unfold build_in.
  apply inv_bind; [apply inv_makedirs; inv_side | intros _].
  apply inv_bind; [apply inv_copytree; inv_side | intros _].
  apply inv_bind; [apply no_base_call_in_check_call | intros _].
  apply inv_bind; [apply inv_gets | intros l].
  apply inv_bind; [apply inv_gets | intros c].
  apply inv_bind; [| intros ?; apply no_base_call_in_check_call].
  apply inv_get_ldflags; inv_side.
Qed.

Lemma build_extension_delegates h base root ext w :
  has_go_source ext = false ->
  build_extension h base root ext w
  = let '(r, w1, t) := base ext (swapped w) in
    (r,
     {| self_compiler := self_compiler w; heap := heap w1;
        heap_next := heap_next w1; environ := environ w1; disk := disk w1 |},
     EvBaseBuildExtension ext :: t).
Proof.
  intros Hgo. unfold build_extension. fold (has_go_source ext).
  rewrite Hgo. simpl. unfold bind, try_finally, gets, deepcopy,
    set_self_compiler, emit; simpl. fold (swapped w).
  destruct (base ext (swapped w)) as [[[u | e] w1] t]; simpl;
    rewrite ?app_nil_r; reflexivity.
Qed.

(** ** Configuration errors *)

Lemma append_cons (x : ascii) (a b : string) :
  String x a +:+ b = String x (a +:+ b).
Proof. reflexivity. Qed.

Lemma append_nil_l (a : string) : "" +:+ a = a.
Proof. reflexivity. Qed.

Lemma append_assoc (a b c : string) : (a +:+ b) +:+ c = a +:+ (b +:+ c).
Proof.
  induction a as [| x a IH]; [reflexivity |].
  rewrite !append_cons, IH. reflexivity.
Qed.

Lemma append_nil_r (a : string) : a +:+ "" = a.
Proof.
  induction a as [| x a IH]; [reflexivity |].
  rewrite append_cons, IH. reflexivity.
Qed.

(** C2: a target with a [.go] source whose source list does not have
    exactly one entry, or whose single source does not exist, makes
    [build_extension] raise [OSError] with a message that names the target
    (and, for a wrong count, shows the source list); nothing has been
    called by then: the trace is empty and the world is as before, so no
    temporary directory was made and no process was started. *)
Theorem C2_configuration_errors_fail_fast :
  forall (h : host) (base : Extension -> py unit) (root : string)
         (ext : Extension) (w : world),
    has_go_source ext = true ->
    (List.length (sources ext) <> 1%nat ->
     build_extension h base root ext w
     = (Raise (OSError (wrong_count_message ext)), w, [])
     /\ mentions (wrong_count_message ext) (name ext)
     /\ mentions (wrong_count_message ext) (Py.repr_list (sources ext)))
    /\ (forall main_file,
          sources ext = [main_file] -> disk w !! main_file = None ->
          build_extension h base root ext w
          = (Raise (OSError (missing_file_message ext main_file)), w, [])
          /\ mentions (missing_file_message ext main_file) (name ext)
          /\ mentions (missing_file_message ext main_file) main_file).
Proof.
  intros h base root ext w Hgo. unfold has_go_source in Hgo. split.
  - intros Hlen. split; [| split].
    + unfold build_extension. rewrite Hgo. simpl.
      destruct (sources ext) as [| a [| b l]]; simpl in *;
        [reflexivity | congruence | reflexivity].
    + eexists "Error building extension `", _. reflexivity.
    + exists ("Error building extension `" +:+ name ext +:+ "`: "
              +:+ "sources must be a single file in the `main` package."
              +:+ Py.chr 10 +:+ "Recieved: "), "".
      unfold wrong_count_message.
      rewrite append_nil_r, !append_assoc. reflexivity.
  - intros main_file Hsrc Hmissing. split; [| split].
    + unfold build_extension. rewrite Hgo, Hsrc. simpl.
      unfold bind, path_exists, gets. simpl. rewrite Hmissing.
      rewrite bool_decide_eq_false_2 by (intros [? ?]; discriminate).
      reflexivity.
    + eexists "Error building extension `", _. reflexivity.
    + exists ("Error building extension `" +:+ name ext +:+ "`: "),
             " does not exist".
      unfold missing_file_message. rewrite !append_assoc. reflexivity.
Qed.

Lemma C2_configuration_errors_fail_fast_witness :
  build_extension sample_host base_noop "example.com/pkg" ext_multidir
                  sample_world
  = (Raise (OSError
       ("Error building extension `multidir`: "
        +:+ "sources must be a single file in the `main` package."
        +:+ Py.chr 10
        +:+ "Recieved: ['dir1/sum.go', 'dir2/sum_support.go']")),
     sample_world, [])
  /\ build_extension sample_host base_noop "example.com/pkg" ext_missing
                     sample_world
     = (Raise (OSError
          "Error building extension `gone`: gone/main.go does not exist"),
        sample_world, []).
Proof.
  split.
  - destruct (C2_configuration_errors_fail_fast sample_host base_noop
                "example.com/pkg" ext_multidir sample_world eq_refl)
      as [Hcount _].
    apply Hcount. simpl. lia.
  - destruct (C2_configuration_errors_fail_fast sample_host base_noop
                "example.com/pkg" ext_missing sample_world eq_refl)
      as [_ Hmissing].
    apply (Hmissing "gone/main.go"); [reflexivity | vm_compute; reflexivity].
Defined.

(** ** The compiler object across a delegated build *)

(** C8: for a target without [.go] source the base implementation runs
    while [self.compiler] refers to a fresh deep copy; whether it returns
    or raises, [self.compiler] afterwards refers to the object it referred
    to before and that object has the state it had before. *)
Theorem C8_compiler_object_restored :
  forall (h : host) (base : Extension -> py unit) (root : string)
         (ext : Extension) (w : world),
    has_go_source ext = false ->
    (self_compiler w < heap_next w)%nat ->
    touches_only_self_compiler (base ext) ->
    let w' := (build_extension h base root ext w).1.2 in
    self_compiler w' = self_compiler w
    /\ heap w' (self_compiler w) = heap w (self_compiler w)
    /\ (build_extension h base root ext w).1.1 = (base ext (swapped w)).1.1
    /\ self_compiler (swapped w) <> self_compiler w
    /\ heap (swapped w) (self_compiler (swapped w)) = heap w (self_compiler w).
Proof.
  intros h base root ext w Hgo Hlive Hframe w'. subst w'.
  rewrite (build_extension_delegates h base root ext w Hgo).
  pose proof (Hframe (swapped w) (self_compiler w)) as Hkept.
  destruct (base ext (swapped w)) as [[r w1] t]. simpl in *.
  split; [reflexivity |]. split.
  - rewrite Hkept by lia. apply fn_lookup_insert_ne. lia.
  - split; [reflexivity |]. split; [lia |]. apply fn_lookup_insert.
Qed.

Lemma C8_compiler_object_restored_witness :
  let w' := (build_extension sample_host base_mutates_and_raises
               "example.com/pkg" ext_native sample_world).1.2 in
  self_compiler w' = 0%nat
  /\ heap w' 0%nat = sample_compiler
  /\ (build_extension sample_host base_mutates_and_raises
        "example.com/pkg" ext_native sample_world).1.1
     = Raise (OtherError "compile failed").
Proof.
  destruct (C8_compiler_object_restored sample_host base_mutates_and_raises
              "example.com/pkg" ext_native sample_world)
    as (H1 & H2 & H3 & _).
  - reflexivity.
  - simpl. lia.
  - intros w l _ Hne. simpl. apply fn_lookup_insert_ne. congruence.
  - split; [exact H1 |]. split; [exact H2 |]. exact H3.
Defined.

(** ** Removing a tree *)

Example rmtree_posix_plain :
  rmtree_slot unprivileged err TMP_PARENT_MODE
    (Some (Dir 448 [("src", Dir 493 [("main.go", File 292)]);
                    ("a.out", File 493)]))
  = (Ok tt, None).
Proof. reflexivity. Qed.

(** A read-only file in a read-only directory goes away on Windows through
    the callback. *)
Example rmtree_win32_readonly_file :
  rmtree_slot windows_user err TMP_PARENT_MODE
    (Some (Dir 448 [("cache", Dir 365 [("mod.go", File 292)])]))
  = (Ok tt, None).
Proof. reflexivity. Qed.

(** A read-only directory on POSIX: the callback makes the file writable,
    the directory stays as it is, and the second [os.unlink] fails too. *)
Example rmtree_posix_readonly_dir :
  rmtree_slot unprivileged err TMP_PARENT_MODE
    (Some (Dir 448 [("cache", Dir 365 [("mod.go", File 292)])]))
  = (Raise PermissionError,
     Some (Dir 448 [("cache", Dir 365 [("mod.go", File 128)])])).
Proof. reflexivity. Qed.

(** The superuser removes the same tree. *)
Example rmtree_posix_readonly_dir_as_root :
  rmtree_slot superuser_view err TMP_PARENT_MODE
    (Some (Dir 448 [("cache", Dir 365 [("mod.go", File 292)])]))
  = (Ok tt, None).
Proof. reflexivity. Qed.

(** A directory that cannot be opened ([0o300]): the callback is handed
    [os.open], makes the directory writable and calls [os.open] with the
    path alone. *)
Example rmtree_posix_unreadable_dir :
  rmtree_slot unprivileged err TMP_PARENT_MODE
    (Some (Dir 448 [("cache", Dir 192 [("mod.go", File 292)])]))
  = (Raise (OtherError "TypeError"),
     Some (Dir 448 [("cache", Dir 128 [("mod.go", File 292)])])).
Proof. reflexivity. Qed.

Lemma node_nested_ind (P : node -> Prop) :
  (forall m, P (File m)) ->
  (forall m es, Forall (fun e => P e.2) es -> P (Dir m es)) ->
  forall n, P n.
Proof.
  intros HF HD. fix IH 1. intros [m | m es].
  - apply HF.
  - apply HD. induction es as [| [nm c] es IHes]; constructor.
    + apply IH.
    + exact IHes.
Qed.

Lemma walk_with_cons (o : os_view) (onerror : handler)
    (rm : node -> result unit * slot) (m : Z) (nm : string) (c : node)
    (rest : list (string * node)) :
  walk_with o onerror rm m ((nm, c) :: rest)
  = let '(r, c') :=
      match c with
      | Dir _ _ => rm c
      | File _ => guarded o onerror os_unlink m (Some c)
      end in
    match r with
    | Raise e => (Raise e, keep nm c' rest)
    | Ok _ =>
        let '(r', rest') := walk_with o onerror rm m rest in
        (r', keep nm c' rest')
    end.
Proof. reflexivity. Qed.

Lemma unlink_with_err (o : os_view) (m cm : Z) :
  (os_platform o = Posix ->
   has_bit m S_IWRITE && has_bit m S_IEXEC = true) ->
  guarded o err os_unlink m (Some (File cm)) = (Ok tt, None).
Proof.
  intros Hm.
  unfold guarded, guarded_as, os_unlink, err, os_chmod, may_remove,
    may_search, node_mode.
  destruct (os_platform o).
  - rewrite Hm by reflexivity. rewrite orb_true_r. reflexivity.
  - destruct (has_bit cm S_IWRITE); reflexivity.
Qed.

Lemma rmdir_with_err (o : os_view) (dmode m : Z) :
  (os_platform o = Posix ->
   has_bit dmode S_IWRITE && has_bit dmode S_IEXEC = true) ->
  guarded o err os_rmdir dmode (Some (Dir m [])) = (Ok tt, None).
Proof.
  intros Hm.
  unfold guarded, guarded_as, os_rmdir, err, os_chmod, may_remove,
    may_search, node_mode.
  destruct (os_platform o).
  - rewrite Hm by reflexivity. rewrite orb_true_r. reflexivity.
  - destruct (has_bit m S_IWRITE); reflexivity.
Qed.

Lemma walk_removes (o : os_view) (rm : node -> result unit * slot)
    (m : Z) (es : list (string * node)) :
  (os_platform o = Posix ->
   has_bit m S_IWRITE && has_bit m S_IEXEC = true) ->
  Forall (fun e => match e.2 with
                   | Dir _ _ => rm e.2 = (Ok tt, None)
                   | File _ => True
                   end) es ->
  walk_with o err rm m es = (Ok tt, []).
Proof.
  intros Hm Hes. induction Hes as [| [nm c] es Hc _ IH]; [reflexivity |].
  rewrite walk_with_cons. cbn [snd] in Hc. destruct c as [cm | cm ces].
  - rewrite unlink_with_err by exact Hm. rewrite IH. reflexivity.
  - rewrite Hc, IH. reflexivity.
Qed.

(** What [removable] gives for a directory on POSIX. *)
Lemma removable_posix (o : os_view) (m : Z) (es : list (string * node)) :
  removable (os_platform o) (Dir m es) = true ->
  os_platform o = Posix ->
  has_bit m S_IWRITE && has_bit m S_IEXEC = true
  /\ has_bit m S_IREAD = true
  /\ Forall (fun e => removable (os_platform o) e.2 = true
                      \/ exists cm, e.2 = File cm) es.
Proof.
  intros Hrm Hp. rewrite Hp in *. cbn [removable fully_permitted] in Hrm.
  apply andb_prop in Hrm as [Hrm Hes].
  apply andb_prop in Hrm as [Hrm Hx]. apply andb_prop in Hrm as [Hr Hw].
  rewrite Hw, Hx, Hr. split; [reflexivity |]. split; [reflexivity |].
  apply Forall_forall. intros [nm c] Hin.
  rewrite forallb_forall in Hes.
  specialize (Hes (nm, c) (proj1 (list_elem_of_In _ _) Hin)).
  destruct c as [cm | cm ces]; [right; eauto | left; exact Hes].
Qed.

Lemma may_search_permitted (o : os_view) (dmode : Z) :
  (os_platform o = Posix ->
   has_bit dmode S_IWRITE && has_bit dmode S_IEXEC = true) ->
  may_search o dmode = true.
Proof.
  intros Hd. unfold may_search. destruct (os_platform o); [| reflexivity].
  specialize (Hd eq_refl). apply andb_prop in Hd as [_ ->].
  apply orb_true_r.
Qed.

Lemma may_list_permitted (o : os_view) (dmode m : Z)
    (es : list (string * node)) :
  (os_platform o = Posix ->
   has_bit dmode S_IWRITE && has_bit dmode S_IEXEC = true) ->
  (os_platform o = Posix -> has_bit m S_IREAD = true) ->
  may_list o dmode (Dir m es) = true.
Proof.
  intros Hd Hr. unfold may_list, node_mode.
  destruct (os_platform o); [| reflexivity].
  specialize (Hd eq_refl). apply andb_prop in Hd as [_ ->].
  rewrite (Hr eq_refl). apply orb_true_r.
Qed.

(** A removable tree is removed, whatever read-only attributes its entries
    carry: by the implementation on path names, *)
Lemma rmtree_node_removes (o : os_view) (n : node) :
  forall dmode,
    (os_platform o = Posix ->
     has_bit dmode S_IWRITE && has_bit dmode S_IEXEC = true) ->
    removable (os_platform o) n = true ->
    rmtree_node o err dmode n = (Ok tt, None).
Proof.
  induction n as [m | m es IH] using node_nested_ind; intros dmode Hd Hrm;
    [discriminate |].
  pose proof (removable_posix o m es Hrm) as Hm.
  assert (Hl : may_list o dmode (Dir m es) = true).
  { apply may_list_permitted; [exact Hd |]. intros Hp. apply Hm, Hp. }
  cbn [rmtree_node]. unfold os_scandir. rewrite Hl.
  rewrite walk_removes.
  - apply rmdir_with_err, Hd.
  - intros Hp. apply Hm, Hp.
  - apply Forall_forall. intros [nm c] Hin.
    rewrite Forall_forall in IH. specialize (IH _ Hin). cbn [snd] in *.
    destruct c as [cm | cm ces]; [exact I |].
    apply IH.
    + intros Hp. apply Hm, Hp.
    + destruct (os_platform o) eqn:Hp; [| reflexivity].
      destruct (Hm eq_refl) as (_ & _ & Hes).
      rewrite Forall_forall in Hes.
      destruct (Hes _ Hin) as [Hc | [? [=]]]. exact Hc.
Qed.

(** and by the implementation on file descriptors. *)
Lemma rmtree_safe_fd_removes (o : os_view) (n : node) :
  forall dmode,
    (os_platform o = Posix ->
     has_bit dmode S_IWRITE && has_bit dmode S_IEXEC = true) ->
    removable (os_platform o) n = true ->
    rmtree_safe_fd o err dmode n = (Ok tt, None).
Proof.
  induction n as [m | m es IH] using node_nested_ind; intros dmode Hd Hrm;
    [discriminate |].
  pose proof (removable_posix o m es Hrm) as Hm.
  assert (Hs : may_search o dmode = true)
    by (apply may_search_permitted, Hd).
  assert (Hl : may_list o dmode (Dir m es) = true).
  { apply may_list_permitted; [exact Hd |]. intros Hp. apply Hm, Hp. }
  cbn [rmtree_safe_fd]. unfold os_lstat, os_open_rdonly. rewrite Hs, Hl.
  rewrite walk_removes.
  - apply rmdir_with_err, Hd.
  - intros Hp. apply Hm, Hp.
  - apply Forall_forall. intros [nm c] Hin.
    rewrite Forall_forall in IH. specialize (IH _ Hin). cbn [snd] in *.
    destruct c as [cm | cm ces]; [exact I |].
    apply IH.
    + intros Hp. apply Hm, Hp.
    + destruct (os_platform o) eqn:Hp; [| reflexivity].
      destruct (Hm eq_refl) as (_ & _ & Hes).
      rewrite Forall_forall in Hes.
      destruct (Hes _ Hin) as [Hc | [? [=]]]. exact Hc.
Qed.

Lemma rmtree_slot_removes (o : os_view) (dmode : Z) (n : node) :
  (os_platform o = Posix ->
   has_bit dmode S_IWRITE && has_bit dmode S_IEXEC = true) ->
  removable (os_platform o) n = true ->
  rmtree_slot o err dmode (Some n) = (Ok tt, None).
Proof.
  intros Hd Hrm. unfold rmtree_slot.
  destruct (use_fd_functions o);
    [apply rmtree_safe_fd_removes | apply rmtree_node_removes]; assumption.
Qed.

(** With [err] as callback, [rmtree] returns normally only when the entry
    is gone. *)
Lemma guarded_err_ok (o : os_view) (act : action) (dmode : Z) (e e' : slot) :
  (forall d x x', act o d x = (Ok tt, x') -> x' = None) ->
  guarded o err act dmode e = (Ok tt, e') -> e' = None.
Proof.
  intros Hact. unfold guarded, guarded_as, err.
  destruct (act o dmode e) as [[[] | ex] e1] eqn:H1.
  - intros [= <-]. eapply Hact, H1.
  - destruct (os_chmod S_IWRITE o dmode e1) as [[[] | ex'] e2];
      [| discriminate].
    intros H2. eapply Hact, H2.
Qed.

Lemma os_rmdir_ok (o : os_view) d x x' :
  os_rmdir o d x = (Ok tt, x') -> x' = None.
Proof.
  unfold os_rmdir. destruct x as [[m | m [| ? ?]] |]; try discriminate.
  destruct (may_remove _ _ _); [congruence | discriminate].
Qed.

(** The callback cannot make up for a listing that failed: a file is no
    directory whatever its mode, the mode the callback sets takes read
    permission away, [os.open] is not called the way the callback calls
    it, and what cannot be reached cannot be changed. *)
Lemma err_scandir_fails (o : os_view) (x : exn) (dmode : Z) (e : slot) :
  (forall m es, e = Some (Dir m es) -> may_list o dmode (Dir m es) = false) ->
  is_ok (err os_scandir x o dmode e).1 = false.
Proof.
  intros Hl. unfold err, os_chmod.
  destruct e as [[m | m es] |]; [| | reflexivity];
    (destruct (may_search o dmode) eqn:Hs; [| reflexivity]).
  - reflexivity.
  - specialize (Hl m es eq_refl). unfold os_scandir.
    assert (Hl' : may_list o dmode (Dir S_IWRITE es) = false).
    { revert Hl. unfold may_list, node_mode.
      destruct (os_platform o); [| discriminate].
      destruct (superuser o); [discriminate |]. intros _. simpl.
      apply andb_false_r. }
    rewrite Hl'. reflexivity.
Qed.

Lemma err_lstat_fails (o : os_view) (x : exn) (dmode : Z) (e e' : slot) :
  os_lstat o dmode e = (Raise x, e') ->
  is_ok (err os_lstat x o dmode e').1 = false.
Proof.
  unfold os_lstat, err, os_chmod.
  destruct e as [n |]; [| intros [= _ <-]; reflexivity].
  destruct (may_search o dmode) eqn:Hs; [discriminate |].
  intros [= _ <-]. reflexivity.
Qed.

Lemma err_open_fails (o : os_view) (x : exn) (dmode : Z) (e : slot) :
  is_ok (err os_open x o dmode e).1 = false.
Proof.
  unfold err. destruct (os_chmod S_IWRITE o dmode e) as [[[] | y] e'];
    reflexivity.
Qed.

Lemma after_failed_listing_err (o : os_view) (x : exn) (dmode : Z)
    (e e' : slot) :
  (forall m es, e = Some (Dir m es) -> may_list o dmode (Dir m es) = false) ->
  after_failed_listing o err x dmode e <> (Ok tt, e').
Proof.
  intros Hl. unfold after_failed_listing.
  pose proof (err_scandir_fails o x dmode e Hl) as Hf.
  destruct (err os_scandir x o dmode e) as [[[] | y] e1];
    [discriminate | discriminate].
Qed.

Lemma rmtree_node_ok (o : os_view) (dmode : Z) (n : node) (e' : slot) :
  rmtree_node o err dmode n = (Ok tt, e') -> e' = None.
Proof.
  destruct n as [m | m es]; cbn [rmtree_node].
  - intros H. exfalso. revert H. apply after_failed_listing_err.
    discriminate.
  - unfold os_scandir.
    destruct (may_list o dmode (Dir m es)) eqn:Hl.
    + destruct (walk_with _ _ _ _ _) as [[[] | ex] es']; [| discriminate].
      apply guarded_err_ok, os_rmdir_ok.
    + intros H. exfalso. revert H. apply after_failed_listing_err.
      intros m' es' [= <- <-]. exact Hl.
Qed.

Lemma rmtree_safe_fd_ok (o : os_view) (dmode : Z) (n : node) (e' : slot) :
  rmtree_safe_fd o err dmode n = (Ok tt, e') -> e' = None.
Proof.
  assert (Hlstat : forall x e1,
             os_lstat o dmode (Some n) = (Raise x, e1) ->
             err os_lstat x o dmode e1 <> (Ok tt, e')).
  { intros x e1 H1 H2. apply err_lstat_fails in H1. rewrite H2 in H1.
    discriminate. }
  assert (Hopen : forall x e1, err os_open x o dmode e1 <> (Ok tt, e')).
  { intros x e1 H2. pose proof (err_open_fails o x dmode e1) as H1.
    rewrite H2 in H1. discriminate. }
  destruct n as [m | m es]; cbn [rmtree_safe_fd];
    (destruct (os_lstat o dmode _) as [[[] | x] e1] eqn:H1;
       [| intros H; destruct (Hlstat x e1 eq_refl H)]);
    (destruct (os_open_rdonly o dmode _) as [[[] | y] e2];
       [| intros H; destruct (Hopen y e2 H)]).
  - intros H. exfalso. revert H. apply after_failed_listing_err.
    discriminate.
  - destruct (walk_with _ _ _ _ _) as [[[] | ex] es']; [| discriminate].
    apply guarded_err_ok, os_rmdir_ok.
Qed.

Lemma rmtree_slot_ok (o : os_view) (dmode : Z) (e e' : slot) :
  rmtree_slot o err dmode e = (Ok tt, e') -> e' = None.
Proof.
  unfold rmtree_slot. destruct (use_fd_functions o), e as [n |].
  - apply rmtree_safe_fd_ok.
  - discriminate.
  - apply rmtree_node_ok.
  - intros H. exfalso. revert H. apply after_failed_listing_err.
    discriminate.
Qed.

(** ** The scoped workspace *)

Lemma tmpdir_run {A} (h : host) (body : string -> py A) (w : world) :
  disk w !! mkdtemp_name h (disk w) = None ->
  _tmpdir h body w
  = let t := mkdtemp_name h (disk w) in
    let '(r, w1, t1) :=
      body t (set_disk (<[t := Dir TMP_DIR_MODE []]> (disk w)) w) in
    let '(rc, w2, t2) := shutil_rmtree h t err w1 in
    (match rc with Ok _ => r | Raise e => Raise e end,
     w2, EvMkdtemp t :: t1 ++ t2).
Proof.
  intros Hfresh. unfold _tmpdir, bind, mkdtemp, try_finally.
  rewrite Hfresh. simpl.
  destruct (body _ _) as [[r w1] t1].
  destruct (shutil_rmtree _ _ _ _) as [[[[] | e] w2] t2]; reflexivity.
Qed.

Lemma rmtree_run_removable (h : host) (t : string) (w : world) :
  workspace_removable (sys_platform h) t (disk w) ->
  shutil_rmtree h t err w
  = (Ok tt, set_disk (delete t (disk w)) w, [EvRmtree t]).
Proof.
  intros (n & Hn & Hrm). unfold shutil_rmtree. rewrite Hn.
  rewrite rmtree_slot_removes; [reflexivity | reflexivity | exact Hrm].
Qed.

Lemma rmtree_environ (h : host) (t : string) (onerror : handler)
    (w : world) :
  environ (shutil_rmtree h t onerror w).1.2 = environ w.
Proof.
  unfold shutil_rmtree. destruct (rmtree_slot _ _ _ _). reflexivity.
Qed.

Lemma rmtree_trace (h : host) (t : string) (onerror : handler)
    (w : world) :
  (shutil_rmtree h t onerror w).2 = [EvRmtree t].
Proof.
  unfold shutil_rmtree. destruct (rmtree_slot _ _ _ _). reflexivity.
Qed.

(** C5, as the code has it: when the scope ends, by return or by
    exception, [shutil.rmtree] runs on the temporary directory, with [err]
    as callback; if the tree found there is one the callback can deal with
    (on POSIX every directory in it still grants read, write and search
    permission; on Windows any tree, read-only entries included), the
    directory is gone afterwards and the outcome of the body is passed
    on. *)
Theorem C5_tmpdir_removed_when_removable :
  forall (h : host) (A : Type) (body : string -> py A) (w : world),
    let tempdir := mkdtemp_name h (disk w) in
    let entered := set_disk (<[tempdir := Dir TMP_DIR_MODE []]> (disk w)) w in
    disk w !! tempdir = None ->
    (_tmpdir h body w).2
    = EvMkdtemp tempdir :: (body tempdir entered).2 ++ [EvRmtree tempdir]
    /\ (workspace_removable (sys_platform h) tempdir
                            (disk (body tempdir entered).1.2) ->
        disk (_tmpdir h body w).1.2 !! tempdir = None
        /\ (_tmpdir h body w).1.1 = (body tempdir entered).1.1).
Proof.
  intros h A body w tempdir entered Hfresh. subst tempdir entered.
  rewrite (tmpdir_run h body w Hfresh). cbv zeta.
  destruct (body _ _) as [[r w1] t1]. simpl. split.
  - pose proof (rmtree_trace h (mkdtemp_name h (disk w)) err w1) as Ht.
    destruct (shutil_rmtree _ _ _ _) as [[rc w2] t2]. simpl in *.
    rewrite Ht. reflexivity.
  - intros Hrm. rewrite (rmtree_run_removable h _ w1 Hrm). simpl.
    split; [apply lookup_delete_eq | reflexivity].
Qed.

Lemma C5_tmpdir_removed_when_removable_witness :
  disk (_tmpdir (with_platform Win32 sample_host) body_fails_leaving_cache
          sample_world).1.2 !! "/tmp/tmpab12" = None
  /\ (_tmpdir (with_platform Win32 sample_host) body_fails_leaving_cache
        sample_world).1.1 = Raise (CalledProcessError 2).
Proof.
  destruct (C5_tmpdir_removed_when_removable
              (with_platform Win32 sample_host) unit
              body_fails_leaving_cache sample_world) as (_ & Hgone).
  - vm_compute. reflexivity.
  - apply Hgone. exists module_cache. split; vm_compute; reflexivity.
Defined.

(** On POSIX the module cache defeats the cleanup: the exception of the
    body is replaced by [PermissionError] and the directory is still
    there. *)
Lemma C5_counterexample_readonly_directory :
  (_tmpdir sample_host body_fails_leaving_cache sample_world).1.1
  = Raise PermissionError
  /\ is_Some (disk (_tmpdir sample_host body_fails_leaving_cache
                      sample_world).1.2 !! "/tmp/tmpab12")
  /\ (_tmpdir sample_host body_fails_leaving_cache sample_world).2
     = [EvMkdtemp "/tmp/tmpab12"; EvRmtree "/tmp/tmpab12"].
Proof.
  split; [vm_compute; reflexivity |].
  split; [| vm_compute; reflexivity].
  eexists. vm_compute. reflexivity.
Qed.

(** ** The environment of child processes *)

Lemma lookup_dict_override (base overrides : gmap string string) (k : string) :
  dict_override base overrides !! k
  = match overrides !! k with Some v => Some v | None => base !! k end.
Proof.
  unfold dict_override. destruct (overrides !! k) as [v |] eqn:Hk.
  - apply lookup_union_Some_l. exact Hk.
  - rewrite lookup_union_r by exact Hk. reflexivity.
Qed.

Lemma overridden_by_dict_override (base overrides : gmap string string) :
  overridden_by base overrides (dict_override base overrides).
Proof. intros k. apply lookup_dict_override. Qed.

Lemma inv_check_call_with (I : world -> Prop) (E : gmap string string)
    (T : event -> Prop) h cmd cwd env :
  (forall w d, I w -> I (set_disk d w)) ->
  (forall w, I w -> environ w = E) ->
  (forall line, T (EvStderr line)) ->
  T (EvCheckCall cmd cwd (Some (dict_override E env))) ->
  inv I T (_check_call h cmd cwd env).
Proof.
  intros HI HE H1 H2 w Hw.
  unfold _check_call, check_call, print_stderr, bind, emit, gets, on_disk.
  simpl. destruct (subprocess_check_call _ _ _ _ _) as [r d]. simpl.
  rewrite (HE w Hw). split; [apply HI, Hw |]. repeat constructor; auto.
Qed.

(** The state a build reads: [os.environ], the object heap and the
    reference [self.compiler]. *)
Lemma build_in_environment h root ext main_dir tempdir (w0 : world) :
  let cflags :=
    _get_cflags (heap w0 (self_compiler w0)) (define_macros ext) in
  inv (fun w => environ w = environ w0 /\ heap w = heap w0
                /\ self_compiler w = self_compiler w0)
      (build_env_ok (environ w0) tempdir cflags)
      (build_in h root ext main_dir tempdir).
Proof.
  intros cflags. unfold build_in.
  apply inv_bind; [apply inv_makedirs; inv_side | intros _].
  apply inv_bind; [apply inv_copytree; inv_side | intros _].
  apply inv_bind.
  { apply inv_check_call_with with (E := environ w0);
      [inv_side | inv_side | inv_side |].
    left. split; [reflexivity |]. eexists. split; [reflexivity |].
    apply overridden_by_dict_override. }
  intros _.
  apply inv_gets_bind with (a := self_compiler w0); [inv_side |].
  apply inv_gets_bind with (a := heap w0 (self_compiler w0)).
  { intros w (_ & -> & _). reflexivity. }
  apply inv_bind.
  { apply inv_get_ldflags_trials; try inv_side.
    intros cc testf lflag cwd Hl. simpl. right. right.
    exists cc, testf, lflag. auto. }
  intros ldflags.
  apply inv_check_call_with with (E := environ w0);
    [inv_side | inv_side | inv_side |].
  right. left. eexists _, ldflags, _. split; [reflexivity |].
  split; [reflexivity |]. apply overridden_by_dict_override.
Qed.

(** C7: a build of a [.go] target leaves [os.environ] as it found it, and
    every child process it starts gets the environment the claim says:
    [go get -d] a mapping of its own, the ambient environment overridden by
    [{GOPATH: <workspace>}]; [go build] one overridden by [GOPATH],
    [CGO_CFLAGS] (the flags of the target) and [CGO_LDFLAGS]; no other
    child is started with [env=], the trial compiles of the Toolchain
    Prober being the only others. *)
Theorem C7_ambient_environment_untouched :
  forall (h : host) (base : Extension -> py unit) (root : string)
         (ext : Extension) (w : world),
    has_go_source ext = true ->
    let tempdir := mkdtemp_name h (disk w) in
    let cflags :=
      _get_cflags (heap w (self_compiler w)) (define_macros ext) in
    environ (build_extension h base root ext w).1.2 = environ w
    /\ Forall (build_env_ok (environ w) tempdir cflags)
              (build_extension h base root ext w).2.
Proof.
  intros h base root ext w Hgo tempdir cflags. unfold has_go_source in Hgo.
  unfold build_extension. rewrite Hgo. simpl.
  destruct (sources ext) as [| main_file [| ? ?]];
    try (split; [reflexivity | constructor]).
  unfold bind, path_exists, gets; simpl.
  destruct (negb _); simpl; [split; [reflexivity | constructor] |].
  set (body := build_in h root ext (os_path_dirname h main_file)).
  assert (Hrun : environ (_tmpdir h body w).1.2 = environ w
                 /\ Forall (build_env_ok (environ w) tempdir cflags)
                           (_tmpdir h body w).2).
  { destruct (disk w !! tempdir) as [n |] eqn:Hfresh.
    - unfold _tmpdir, bind, mkdtemp. fold tempdir. rewrite Hfresh. simpl.
      split; [reflexivity | constructor].
    - rewrite (tmpdir_run h body w Hfresh). cbv zeta. fold tempdir.
      destruct (build_in_environment h root ext
                  (os_path_dirname h main_file) tempdir w
                  (set_disk (<[tempdir := Dir TMP_DIR_MODE []]> (disk w)) w))
        as [(He & _ & _) Ht]; [auto |].
      fold body in He, Ht. fold cflags in Ht.
      destruct (body _ _) as [[r w1] t1]. simpl in He, Ht.
      pose proof (rmtree_environ h tempdir err w1) as He2.
      pose proof (rmtree_trace h tempdir err w1) as Ht2.
      destruct (shutil_rmtree _ _ _ _) as [[rc w2] t2]. simpl in *.
      split; [congruence |]. subst t2.
      constructor; [exact I |]. apply Forall_app. split; [exact Ht |].
      repeat constructor. }
  destruct (_tmpdir h body w) as [[r w2] t2]. exact Hrun.
Qed.

Lemma C7_ambient_environment_untouched_witness :
  environ (build_extension sample_host base_noop "example.com/pkg" ext_pkg
             sample_world).1.2
  = {[ "PATH" := "/usr/bin"; "GOPATH" := "/home/dev/go" ]}
  /\ Forall (build_env_ok (environ sample_world) "/tmp/tmpab12"
               "-I/usr/include/python3.8")
            (build_extension sample_host base_noop "example.com/pkg" ext_pkg
               sample_world).2.
Proof.
  apply (C7_ambient_environment_untouched sample_host base_noop
           "example.com/pkg" ext_pkg sample_world).
  reflexivity.
Defined.

(** ** Paths *)

Lemma append_eq_nil (a b : string) : a +:+ b = "" -> b = "".
Proof. destruct a; [auto | discriminate]. Qed.

Lemma endswith_cons (x : ascii) (s p : string) :
  Py.endswith (String x s) p = String.eqb (String x s) p || Py.endswith s p.
Proof. reflexivity. Qed.

Lemma endswith_append (a b : string) (p : string) :
  b <> "" -> String.length p = 1%nat ->
  Py.endswith (a +:+ b) p = Py.endswith b p.
Proof.
  intros Hb Hp. induction a as [| x a IH]; [reflexivity |].
  rewrite append_cons, endswith_cons, IH.
  destruct (String.eqb_spec (String x (a +:+ b)) p) as [Heq | _];
    [| reflexivity].
  exfalso. subst p. simpl in Hp. injection Hp as Hp.
  destruct (a +:+ b) eqn:Hab; [| discriminate].
  apply append_eq_nil in Hab. contradiction.
Qed.

Lemma join2_relative (p b : string) :
  p <> "" -> Py.endswith p "/" = false -> Py.startswith b "/" = false ->
  posixpath.join2 p b = p +:+ "/" +:+ b.
Proof.
  intros Hp He Hb. unfold posixpath.join2. rewrite Hb, He.
  destruct (String.eqb_spec p ""); [contradiction | reflexivity].
Qed.

Lemma join2_absolute (p b : string) :
  Py.startswith b "/" = true -> posixpath.join2 p b = b.
Proof. intros Hb. unfold posixpath.join2. rewrite Hb. reflexivity. Qed.

Lemma contains_char_append (c : ascii) (a b : string) :
  Py.contains_char c (a +:+ b)
  = Py.contains_char c a || Py.contains_char c b.
Proof.
  induction a as [| x a IH]; [reflexivity |].
  rewrite append_cons. simpl. rewrite IH. apply orb_assoc.
Qed.

Lemma head_upto_sep_none (f : string) :
  Py.contains_char posixpath.SEP f = false -> posixpath.head_upto_sep f = "".
Proof. destruct f as [| c f]; [reflexivity |]. simpl. now intros ->. Qed.

Lemma head_upto_sep_last (d f : string) :
  Py.contains_char posixpath.SEP f = false ->
  posixpath.head_upto_sep (d +:+ "/" +:+ f) = d +:+ "/".
Proof.
  intros Hf. induction d as [| x d IH].
  - change ("" +:+ "/" +:+ f) with (String "/" f). simpl.
    rewrite (head_upto_sep_none f Hf). reflexivity.
  - rewrite (append_cons x d ("/" +:+ f)), (append_cons x d "/").
    change (posixpath.head_upto_sep (String x (d +:+ "/" +:+ f)))
      with (if Py.contains_char posixpath.SEP (String x (d +:+ "/" +:+ f))
            then String x (posixpath.head_upto_sep (d +:+ "/" +:+ f))
            else "").
    rewrite IH.
    replace (Py.contains_char posixpath.SEP (String x (d +:+ "/" +:+ f)))
      with true; [reflexivity |].
    symmetry. simpl. rewrite contains_char_append. simpl.
    rewrite orb_true_r. apply orb_true_r.
Qed.

Lemma rstrip_char_nil (c : ascii) (s : string) :
  Py.rstrip_char c s = "" -> Py.lstrip_char c s = "".
Proof.
  induction s as [| x s IH]; [reflexivity |]. simpl.
  destruct (Py.rstrip_char c s); [| discriminate].
  destruct (Ascii.eqb x c); [intros _; apply IH; reflexivity | discriminate].
Qed.

Lemma lstrip_char_nil (c : ascii) (s : string) :
  Py.lstrip_char c s = "" -> Py.rstrip_char c s = "".
Proof.
  induction s as [| x s IH]; [reflexivity |]. simpl.
  destruct (Ascii.eqb x c); [| discriminate].
  intros H. rewrite (IH H). reflexivity.
Qed.

Lemma rstrip_char_id (c : ascii) (s : string) :
  Py.endswith s (String c "") = false -> Py.rstrip_char c s = s.
Proof.
  induction s as [| x s IH]; [reflexivity |].
  rewrite endswith_cons. intros H. apply orb_false_elim in H as [Hx Hs].
  simpl. rewrite (IH Hs).
  destruct s as [| y s]; [| reflexivity].
  destruct (Ascii.eqb_spec x c) as [-> | _]; [| reflexivity].
  rewrite String.eqb_refl in Hx. discriminate.
Qed.

Lemma rstrip_char_snoc (c : ascii) (s : string) :
  Py.rstrip_char c (s +:+ String c "") = Py.rstrip_char c s.
Proof.
  induction s as [| x s IH].
  - simpl. rewrite Ascii.eqb_refl. reflexivity.
  - rewrite append_cons. simpl. rewrite IH. reflexivity.
Qed.

Lemma all_seps_prefix (a b : string) :
  posixpath.all_seps (a +:+ b) = true -> posixpath.all_seps a = true.
Proof.
  unfold posixpath.all_seps. induction a as [| x a IH]; [reflexivity |].
  rewrite append_cons. simpl.
  destruct (Ascii.eqb x posixpath.SEP); [exact IH | discriminate].
Qed.

Lemma all_seps_endswith (s : string) :
  posixpath.all_seps s = true -> s = "" \/ Py.endswith s "/" = true.
Proof.
  unfold posixpath.all_seps. induction s as [| x s IH]; [auto |].
  simpl. destruct (Ascii.eqb_spec x posixpath.SEP) as [-> | _];
    [| discriminate].
  intros H. right. destruct (IH H) as [-> | ->].
  - reflexivity.
  - apply orb_true_r.
Qed.

(** [dirname] drops the last component of [d/f]. *)
Lemma dirname_of_file (d f : string) :
  d <> "" -> Py.endswith d "/" = false ->
  Py.contains_char posixpath.SEP f = false ->
  posixpath.dirname (d +:+ "/" +:+ f) = d.
Proof.
  intros Hd He Hf. unfold posixpath.dirname.
  rewrite (head_upto_sep_last d f Hf).
  assert (Hns : posixpath.all_seps (d +:+ "/") = false).
  { destruct (posixpath.all_seps (d +:+ "/")) eqn:Hall; [| reflexivity].
    apply all_seps_prefix, all_seps_endswith in Hall as [-> | Hall];
      [contradiction | congruence]. }
  rewrite Hns.
  destruct (String.eqb_spec (d +:+ "/") "") as [Heq | _].
  - apply append_eq_nil in Heq. discriminate.
  - simpl. rewrite rstrip_char_snoc. apply rstrip_char_id, He.
Qed.

Lemma startswith_sep (p : string) :
  Py.startswith p "/" = true -> exists p', p = String "/" p'.
Proof.
  destruct p as [| c p']; [discriminate |]. simpl.
  destruct (Ascii.eqb_spec c "/") as [-> | _]; [eauto | discriminate].
Qed.

(** The directory of an absolute path is absolute. *)
Lemma dirname_absolute (p : string) :
  Py.startswith p "/" = true ->
  Py.startswith (posixpath.dirname p) "/" = true.
Proof.
  intros Hp. apply startswith_sep in Hp as [p' ->].
  unfold posixpath.dirname.
  change (posixpath.head_upto_sep (String "/" p'))
    with (String "/" (posixpath.head_upto_sep p')).
  set (head' := posixpath.head_upto_sep p').
  destruct (negb (String.eqb (String "/" head') "")
            && negb (posixpath.all_seps (String "/" head'))) eqn:Hc;
    [| reflexivity].
  apply andb_prop in Hc as [_ Hc]. apply negb_true_iff in Hc.
  simpl. destruct (Py.rstrip_char posixpath.SEP head') eqn:Hr;
    [| reflexivity].
  apply rstrip_char_nil in Hr. unfold posixpath.all_seps in Hc.
  simpl in Hc. rewrite Hr in Hc. discriminate.
Qed.
(** ** Run equations of the library calls *)

Lemma bind_ok {A B} (m : py A) (f : A -> py B) w a w1 t1 :
  m w = (Ok a, w1, t1) ->
  bind m f w = let '(r, w2, t2) := f a w1 in (r, w2, t1 ++ t2).
Proof. intros Hm. unfold bind. rewrite Hm. reflexivity. Qed.

Lemma disk_set_disk d w : disk (set_disk d w) = d.
Proof. reflexivity. Qed.

Lemma environ_set_disk d w : environ (set_disk d w) = environ w.
Proof. reflexivity. Qed.

Lemma check_output_run h cmd w :
  check_output h cmd w
  = let '(r, d) := subprocess_check_output h cmd (environ w) (disk w) in
    (r, set_disk d w, [EvCheckOutput cmd]).
Proof.
  unfold check_output, bind, emit, gets, on_disk. simpl.
  destruct (subprocess_check_output _ _ _ _) as [[out | e] d]; reflexivity.
Qed.

Lemma write_file_run h path content w :
  write_file h path content w
  = let '(r, d) := write_text h path content (disk w) in
    (r, set_disk d w, [EvWrite path content]).
Proof.
  unfold write_file, bind, emit, on_disk. simpl.
  destruct (write_text _ _ _ _) as [[[] | e] d]; reflexivity.
Qed.

Lemma os_path_join_posix h a p :
  sys_platform h = Posix -> os_path_join h a p = posixpath.join a p.
Proof.
  intros Hposix. unfold os_path_join, posixpath.join. revert a.
  induction p as [| b p IH]; intros a; [reflexivity |]. simpl.
  rewrite <- IH. unfold os_path_join2 at 2. rewrite Hposix. reflexivity.
Qed.

Lemma makedirs_run h path w :
  makedirs h path w
  = let '(r, d) := os_makedirs h path (disk w) in
    (r, set_disk d w, [EvMakedirs path]).
Proof.
  unfold makedirs, bind, emit, on_disk. simpl.
  destruct (os_makedirs _ _ _) as [[[] | e] d]; reflexivity.
Qed.

Lemma copytree_run h src dst symlinks w :
  copytree h src dst symlinks w
  = let '(r, d) := shutil_copytree h src dst symlinks (disk w) in
    (r, set_disk d w, [EvCopytree src dst symlinks]).
Proof.
  unfold copytree, bind, emit, on_disk. simpl.
  destruct (shutil_copytree _ _ _ _ _) as [[[] | e] d]; reflexivity.
Qed.

Lemma check_call_run h cmd cwd env w :
  _check_call h cmd cwd env w
  = let line :=
      "$ " +:+ Py.join " "
        (map (fun kv => kv.1 +:+ "=" +:+ shlex.quote kv.2) (sorted_items env)
         ++ map shlex.quote cmd) in
    let child_env := dict_override (environ w) env in
    let '(r, d) := subprocess_check_call h cmd cwd child_env (disk w) in
    (r, set_disk d w, [EvStderr line; EvCheckCall cmd cwd (Some child_env)]).
Proof.
  cbv beta iota zeta delta
    [_check_call check_call print_stderr bind emit gets on_disk default].
  destruct (subprocess_check_call _ _ _ _ _) as [[[] | e] d]; reflexivity.
Qed.

Lemma bind_raise {A B} (m : py A) (f : A -> py B) w e w1 t1 :
  m w = (Raise e, w1, t1) -> bind m f w = (Raise e, w1, t1).
Proof. intros Hm. unfold bind. rewrite Hm. reflexivity. Qed.

Lemma spawned_app (a b : list event) :
  spawned (a ++ b) = spawned a ++ spawned b.
Proof. apply omap_app. Qed.

(** ** The Build Driver *)

Lemma has_go_source_single (ext : Extension) (main_file : string) :
  sources ext = [main_file] -> Py.endswith main_file ".go" = true ->
  has_go_source ext = true.
Proof.
  intros Hs He. unfold has_go_source. rewrite Hs. simpl. rewrite He.
  reflexivity.
Qed.

(** A single existing [.go] source passes validation: the build is the
    scoped workspace around [build_in]. *)
Lemma build_extension_validated h base root ext w main_file :
  sources ext = [main_file] -> Py.endswith main_file ".go" = true ->
  is_Some (disk w !! main_file) ->
  build_extension h base root ext w
  = _tmpdir h (build_in h root ext (os_path_dirname h main_file)) w.
Proof.
  intros Hs He Hex. unfold build_extension.
  fold (has_go_source ext).
  rewrite (has_go_source_single ext main_file Hs He), Hs. simpl.
  unfold bind, path_exists, gets. simpl.
  rewrite bool_decide_eq_true_2 by exact Hex. simpl.
  destruct (_tmpdir _ _ _) as [[r w2] t2]. reflexivity.
Qed.

Lemma get_ldflags_frame h w :
  environ (_get_ldflags h w).1.2 = environ w
  /\ heap (_get_ldflags h w).1.2 = heap w
  /\ self_compiler (_get_ldflags h w).1.2 = self_compiler w
  /\ Forall is_prober_call (_get_ldflags h w).2.
Proof.
  assert (Hinv : inv (fun w' => environ w' = environ w /\ heap w' = heap w
                                /\ self_compiler w' = self_compiler w)
                     is_prober_call (_get_ldflags h))
    by (apply inv_get_ldflags; inv_side).
  destruct (Hinv w) as [(H1 & H2 & H3) H4]; auto.
Qed.

(** The body of the workspace begins with [os.makedirs]. *)
Lemma build_in_first_event h root ext main_dir tempdir w :
  exists rest,
    (build_in h root ext main_dir tempdir w).2
    = EvMakedirs (os_path_dirname h (os_path_join h tempdir ["src"; root]))
      :: rest.
Proof.
  unfold build_in. unfold bind at 1. rewrite makedirs_run.
  destruct (os_makedirs h _ _) as [[[] | e] d1]; [| eexists; reflexivity].
  destruct (bind _ _ _) as [[r w2] t2]. eexists. reflexivity.
Qed.

(** The run of the body when every step succeeds. *)
Lemma build_in_success h root ext main_dir tempdir w ldflags d1 d2 d3 d5 :
  let root_path := os_path_join h tempdir ["src"; root] in
  let pkg_path := os_path_join h root_path [main_dir] in
  let artifact := os_path_abspath h (get_ext_fullpath h (name ext)) in
  let cflags :=
    _get_cflags (heap w (self_compiler w)) (define_macros ext) in
  let env_get := dict_override (environ w) {[ "GOPATH" := tempdir ]} in
  let env_build :=
    dict_override (environ w) (build_env tempdir cflags ldflags) in
  os_makedirs h (os_path_dirname h root_path) (disk w) = (Ok tt, d1) ->
  shutil_copytree h "." root_path true d1 = (Ok tt, d2) ->
  subprocess_check_call h ["go"; "get"; "-d"] pkg_path env_get d2
  = (Ok tt, d3) ->
  let probed := _get_ldflags h (set_disk d3 w) in
  probed.1.1 = Ok ldflags ->
  subprocess_check_call h
    ["go"; "build"; "-buildmode=c-shared"; "-o"; artifact] pkg_path
    env_build (disk probed.1.2) = (Ok tt, d5) ->
  exists line_get line_build,
    build_in h root ext main_dir tempdir w
    = (Ok tt, set_disk d5 probed.1.2,
       [EvMakedirs (os_path_dirname h root_path);
        EvCopytree "." root_path true;
        EvStderr line_get;
        EvCheckCall ["go"; "get"; "-d"] pkg_path (Some env_get)]
       ++ probed.2
       ++ [EvStderr line_build;
           EvCheckCall
             ["go"; "build"; "-buildmode=c-shared"; "-o"; artifact]
             pkg_path (Some env_build)]).
Proof.
  intros root_path pkg_path artifact cflags env_get env_build
         Hmk Hcp Hget probed Hprobe Hbuild.
  pose proof (get_ldflags_frame h (set_disk d3 w)) as (He & Hh & Hs & _).
  fold probed in He, Hh, Hs.
  eexists _, _. unfold build_in. fold root_path. fold pkg_path.
  unfold bind at 1. rewrite makedirs_run, Hmk. cbv beta iota zeta.
  unfold bind at 1. rewrite copytree_run, disk_set_disk, Hcp.
  cbv beta iota zeta.
  unfold bind at 1. rewrite check_call_run. cbv zeta.
  rewrite disk_set_disk.
  change (environ (set_disk d2 (set_disk d1 w))) with (environ w).
  fold env_get. change cmd_get with ["go"; "get"; "-d"]. rewrite Hget.
  cbv beta iota zeta.
  unfold bind at 1. unfold gets at 1. cbv beta iota zeta.
  unfold bind at 1. unfold gets at 1. cbv beta iota zeta.
  change (set_disk d3 (set_disk d2 (set_disk d1 w))) with (set_disk d3 w).
  unfold bind at 1. fold probed.
  destruct probed as [[[ldflags' | e] w4] t4] eqn:Hp; [| discriminate].
  simpl in Hprobe, He, Hh, Hs, Hbuild. injection Hprobe as ->.
  rewrite check_call_run. cbv zeta.
  change (self_compiler (set_disk d3 w)) with (self_compiler w).
  change (heap (set_disk d3 w) (self_compiler w))
    with (heap w (self_compiler w)).
  fold cflags. rewrite He.
  change (environ (set_disk d3 w)) with (environ w).
  change (<["CGO_LDFLAGS" := ldflags]>
            (<["CGO_CFLAGS" := cflags]> {[ "GOPATH" := tempdir ]}))
    with (build_env tempdir cflags ldflags).
  fold env_build. fold artifact.
  change (cmd_build artifact)
    with ["go"; "build"; "-buildmode=c-shared"; "-o"; artifact].
  rewrite Hbuild. cbn [fst snd app]. reflexivity.
Qed.

(** The run of the driver when every step of the body succeeds: the
    outcome is the outcome of the cleanup. *)
Lemma driver_success h base root ext w main_file ldflags d1 d2 d3 d5 :
  sources ext = [main_file] ->
  Py.endswith main_file ".go" = true ->
  is_Some (disk w !! main_file) ->
  let tempdir := mkdtemp_name h (disk w) in
  let root_path := os_path_join h tempdir ["src"; root] in
  let pkg_path := os_path_join h root_path [os_path_dirname h main_file] in
  let artifact := os_path_abspath h (get_ext_fullpath h (name ext)) in
  let cflags :=
    _get_cflags (heap w (self_compiler w)) (define_macros ext) in
  let env_get := dict_override (environ w) {[ "GOPATH" := tempdir ]} in
  let env_build :=
    dict_override (environ w) (build_env tempdir cflags ldflags) in
  disk w !! tempdir = None ->
  os_makedirs h (os_path_dirname h root_path)
    (<[tempdir := Dir TMP_DIR_MODE []]> (disk w)) = (Ok tt, d1) ->
  shutil_copytree h "." root_path true d1 = (Ok tt, d2) ->
  subprocess_check_call h ["go"; "get"; "-d"] pkg_path env_get d2
  = (Ok tt, d3) ->
  let probed := _get_ldflags h (set_disk d3 w) in
  probed.1.1 = Ok ldflags ->
  subprocess_check_call h
    ["go"; "build"; "-buildmode=c-shared"; "-o"; artifact] pkg_path
    env_build (disk probed.1.2) = (Ok tt, d5) ->
  let cleanup := shutil_rmtree h tempdir err (set_disk d5 probed.1.2) in
  exists line_get line_build,
    build_extension h base root ext w
    = (cleanup.1.1, cleanup.1.2,
       [EvMkdtemp tempdir;
        EvMakedirs (os_path_dirname h root_path);
        EvCopytree "." root_path true;
        EvStderr line_get;
        EvCheckCall ["go"; "get"; "-d"] pkg_path (Some env_get)]
       ++ probed.2
       ++ [EvStderr line_build;
           EvCheckCall
             ["go"; "build"; "-buildmode=c-shared"; "-o"; artifact]
             pkg_path (Some env_build);
           EvRmtree tempdir]).
Proof.
  intros Hs He Hex tempdir root_path pkg_path artifact cflags env_get
         env_build Hfresh Hmk Hcp Hget probed Hprobe Hbuild cleanup.
  set (entered := set_disk (<[tempdir := Dir TMP_DIR_MODE []]> (disk w)) w).
  destruct (build_in_success h root ext (os_path_dirname h main_file)
              tempdir entered ldflags d1 d2 d3 d5 Hmk Hcp Hget Hprobe Hbuild)
    as (line_get & line_build & Hin).
  exists line_get, line_build.
  rewrite (build_extension_validated h base root ext w main_file Hs He Hex).
  rewrite (tmpdir_run h _ w Hfresh). cbv zeta.
  fold tempdir. fold entered. rewrite Hin.
  change (set_disk d3 entered) with (set_disk d3 w). fold probed.
  fold cleanup.
  pose proof (rmtree_trace h tempdir err (set_disk d5 probed.1.2)) as Ht.
  fold cleanup in Ht.
  destruct cleanup as [[[[] | e] w2] t2]; simpl in Ht; subst t2; simpl;
    rewrite <- !app_assoc; reflexivity.
Qed.

(** C1: a target none of whose sources ends with [.go] is handed to the
    base [build_extension], with the same [ext].  A target with at least
    one [.go] source goes to the Build Driver instead: the base
    implementation is not called and plays no part in the outcome, and the
    call does what the driver does, which is to validate the target and
    then to build in a scoped workspace.  With a source list that has not
    exactly one entry, or whose one entry is missing, it raises the
    driver's error and nothing else happens; otherwise it is the run of
    the workspace around the driver's steps, which begins with [mkdtemp]
    and [os.makedirs] on the directory of the root path. *)
Theorem C1_router_delegation :
  forall (h : host) (base : Extension -> py unit) (root : string)
         (ext : Extension) (w : world),
    let run := build_extension h base root ext w in
    if Py.any (fun source => Py.endswith source ".go") (sources ext)
    then
      Forall (fun ev => ~ is_base_call ev) run.2
      /\ (forall base', build_extension h base' root ext w = run)
      /\ match sources ext with
         | [main_file] =>
             if bool_decide (is_Some (disk w !! main_file))
             then
               let tempdir := mkdtemp_name h (disk w) in
               let root_path := os_path_join h tempdir ["src"; root] in
               run = _tmpdir h
                       (build_in h root ext (os_path_dirname h main_file)) w
               /\ if bool_decide (disk w !! tempdir = None)
                  then exists rest,
                         run.2
                         = EvMkdtemp tempdir
                           :: EvMakedirs (os_path_dirname h root_path)
                           :: rest
                  else run = (Raise FileExistsError, w, [])
             else
               run
               = (Raise (OSError (missing_file_message ext main_file)), w, [])
         | _ => run = (Raise (OSError (wrong_count_message ext)), w, [])
         end
    else run.2 = EvBaseBuildExtension ext :: (base ext (swapped w)).2
         /\ run.1.1 = (base ext (swapped w)).1.1.
Proof.
  intros h base root ext w run. subst run.
  destruct (Py.any _ _) eqn:Hgo.
  2: { rewrite (build_extension_delegates h base root ext w Hgo).
       destruct (base ext (swapped w)) as [[r w1] t]. split; reflexivity. }
  assert (Hrun : forall b,
    build_extension h b root ext w
    = match sources ext with
      | [main_file] =>
          if bool_decide (is_Some (disk w !! main_file))
          then _tmpdir h (build_in h root ext (os_path_dirname h main_file)) w
          else (Raise (OSError (missing_file_message ext main_file)), w, [])
      | _ => (Raise (OSError (wrong_count_message ext)), w, [])
      end).
  { intros b. unfold build_extension. rewrite Hgo. cbn [negb].
    destruct (sources ext) as [| main_file [| ? ?]]; try reflexivity.
    unfold bind at 1. unfold path_exists, gets.
    destruct (bool_decide _); cbn [negb]; [| reflexivity].
    destruct (_tmpdir _ _ _) as [[r w2] t2]. rewrite app_nil_l.
    reflexivity. }
  split; [| split].
  - rewrite Hrun.
    destruct (sources ext) as [| main_file [| ? ?]]; try (constructor).
    destruct (bool_decide _); [| constructor].
    destruct (no_base_call_in_driver h root ext
                (os_path_dirname h main_file) w I) as [_ Ht]. exact Ht.
  - intros base'. rewrite !Hrun. reflexivity.
  - rewrite Hrun.
    destruct (sources ext) as [| main_file [| ? ?]]; try reflexivity.
    destruct (bool_decide (is_Some _)); [| reflexivity].
    cbv zeta. split; [reflexivity |].
    destruct (bool_decide (disk w !! mkdtemp_name h (disk w) = None))
      eqn:Hfresh.
    + apply bool_decide_eq_true in Hfresh.
      rewrite (tmpdir_run h _ w Hfresh). cbv zeta.
      destruct (build_in_first_event h root ext (os_path_dirname h main_file)
                  (mkdtemp_name h (disk w))
                  (set_disk (<[mkdtemp_name h (disk w)
                               := Dir TMP_DIR_MODE []]> (disk w)) w))
        as [rest Hrest].
      destruct (build_in _ _ _ _ _ _) as [[r w1] t1]. simpl in Hrest.
      subst t1.
      destruct (shutil_rmtree _ _ _ _) as [[rc w2] t2].
      eexists. reflexivity.
    + apply bool_decide_eq_false in Hfresh.
      unfold _tmpdir, bind, mkdtemp.
      destruct (disk w !! mkdtemp_name h (disk w)); [reflexivity |].
      contradiction.
Qed.

(** C3, as the code has it: on a valid target, when [os.makedirs],
    [shutil.copytree], [go get -d], the Toolchain Prober and [go build]
    succeed, the driver makes these calls, in this order: [mkdtemp];
    [makedirs] on the directory of the root path
    [os.path.join(tempdir, 'src', root)]; [copytree] of ['.'] to the root
    path with [symlinks=True]; [go get -d] in the root path joined with the
    directory of the source; the prober's calls; [go build
    -buildmode=c-shared -o <absolute artifact path>] in the same directory;
    [rmtree] of the temporary directory.  The outcome of the build is the
    outcome of that [rmtree]: if it raises, the build raises, however well
    the steps before went.  If the build returns, the temporary directory
    is gone, and it returns when the workspace is removable.  On POSIX,
    for a relative root and a source [d/f], the root path is
    [<tempdir>/src/<root>], the working directory [<tempdir>/src/<root>/d],
    and the directory made beforehand is the root path without its last
    component. *)
Theorem C3_build_driver_sequence :
  forall (h : host) (base : Extension -> py unit) (root : string)
         (ext : Extension) (w : world) (main_file ldflags : string)
         (d1 d2 d3 d5 : gmap string node),
    sources ext = [main_file] ->
    Py.endswith main_file ".go" = true ->
    is_Some (disk w !! main_file) ->
    let tempdir := mkdtemp_name h (disk w) in
    let root_path := os_path_join h tempdir ["src"; root] in
    let pkg_path := os_path_join h root_path [os_path_dirname h main_file] in
    let artifact := os_path_abspath h (get_ext_fullpath h (name ext)) in
    let cflags :=
      _get_cflags (heap w (self_compiler w)) (define_macros ext) in
    let env_get := dict_override (environ w) {[ "GOPATH" := tempdir ]} in
    let env_build :=
      dict_override (environ w) (build_env tempdir cflags ldflags) in
    disk w !! tempdir = None ->
    os_makedirs h (os_path_dirname h root_path)
      (<[tempdir := Dir TMP_DIR_MODE []]> (disk w)) = (Ok tt, d1) ->
    shutil_copytree h "." root_path true d1 = (Ok tt, d2) ->
    subprocess_check_call h ["go"; "get"; "-d"] pkg_path env_get d2
    = (Ok tt, d3) ->
    let probed := _get_ldflags h (set_disk d3 w) in
    probed.1.1 = Ok ldflags ->
    subprocess_check_call h
      ["go"; "build"; "-buildmode=c-shared"; "-o"; artifact] pkg_path
      env_build (disk probed.1.2) = (Ok tt, d5) ->
    let run := build_extension h base root ext w in
    let cleanup := shutil_rmtree h tempdir err (set_disk d5 probed.1.2) in
    (exists line_get line_build,
        run.2
        = [EvMkdtemp tempdir;
           EvMakedirs (os_path_dirname h root_path);
           EvCopytree "." root_path true;
           EvStderr line_get;
           EvCheckCall ["go"; "get"; "-d"] pkg_path (Some env_get)]
          ++ probed.2
          ++ [EvStderr line_build;
              EvCheckCall
                ["go"; "build"; "-buildmode=c-shared"; "-o"; artifact]
                pkg_path (Some env_build);
              EvRmtree tempdir])
    /\ Forall is_prober_call probed.2
    /\ run.1.1 = cleanup.1.1
    /\ (run.1.1 = Ok tt -> disk run.1.2 !! tempdir = None)
    /\ (workspace_removable (sys_platform h) tempdir d5 -> run.1.1 = Ok tt)
    /\ (sys_platform h = Posix ->
        tempdir <> "" -> Py.endswith tempdir "/" = false ->
        root <> "" -> Py.startswith root "/" = false ->
        Py.endswith root "/" = false ->
        root_path = tempdir +:+ "/src/" +:+ root
        /\ (forall d f,
              main_file = d +:+ "/" +:+ f ->
              d <> "" -> Py.startswith d "/" = false ->
              Py.endswith d "/" = false ->
              Py.contains_char "/" f = false ->
              pkg_path = tempdir +:+ "/src/" +:+ root +:+ "/" +:+ d)
        /\ (forall parent last,
              root_path = parent +:+ "/" +:+ last ->
              parent <> "" -> Py.endswith parent "/" = false ->
              Py.contains_char "/" last = false ->
              os_path_dirname h root_path = parent)).
Proof.
  intros h base root ext w main_file ldflags d1 d2 d3 d5 Hs He Hex
         tempdir root_path pkg_path artifact cflags env_get env_build
         Hfresh Hmk Hcp Hget probed Hprobe Hbuild run cleanup.
  destruct (driver_success h base root ext w main_file ldflags d1 d2 d3 d5
              Hs He Hex Hfresh Hmk Hcp Hget Hprobe Hbuild)
    as (line_get & line_build & Hrun).
  fold tempdir root_path pkg_path artifact cflags env_get env_build in Hrun.
  fold probed in Hrun. fold cleanup in Hrun. fold run in Hrun.
  split; [exists line_get, line_build; rewrite Hrun; reflexivity |].
  split; [apply get_ldflags_frame |].
  split; [rewrite Hrun; reflexivity |].
  split; [| split].
  - rewrite Hrun. cbn [fst snd]. subst cleanup. unfold shutil_rmtree.
    destruct (rmtree_slot _ _ _ _) as [rc s] eqn:Hrm. cbn [fst snd].
    intros ->. apply rmtree_slot_ok in Hrm as ->. apply lookup_delete_eq.
  - intros Hrm. rewrite Hrun. cbn [fst snd]. subst cleanup.
    rewrite rmtree_run_removable; [reflexivity |].
    rewrite disk_set_disk. exact Hrm.
  - intros Hposix Ht0 Hte Hr0 Hrs Hre.
    assert (Hsrc : posixpath.join2 tempdir "src" = tempdir +:+ "/src").
    { apply join2_relative; [exact Ht0 | exact Hte | reflexivity]. }
    assert (Hsrc_end : Py.endswith (tempdir +:+ "/src") "/" = false).
    { rewrite endswith_append; [reflexivity | discriminate | reflexivity]. }
    assert (Hroot : root_path = tempdir +:+ "/src/" +:+ root).
    { subst root_path. unfold os_path_join, os_path_join2. simpl.
      rewrite Hposix, Hsrc.
      rewrite join2_relative; [| | exact Hsrc_end | exact Hrs].
      - rewrite append_assoc. reflexivity.
      - intros Heq. apply append_eq_nil in Heq. discriminate. }
    split; [exact Hroot |]. split.
    + intros d f Hmain Hd0 Hds Hde Hf.
      subst pkg_path. unfold os_path_join, os_path_dirname, os_path_join2.
      simpl. rewrite Hposix. fold root_path.
      rewrite Hmain, (dirname_of_file d f Hd0 Hde Hf), Hroot.
      rewrite join2_relative; [| | | exact Hds].
      * rewrite !append_assoc. reflexivity.
      * intros Heq. apply append_eq_nil, append_eq_nil in Heq.
        contradiction.
      * rewrite endswith_append; [| discriminate | reflexivity].
        rewrite endswith_append; [exact Hre | exact Hr0 | reflexivity].
    + intros parent last Heq Hp0 Hpe Hl.
      unfold os_path_dirname. rewrite Hposix, Heq.
      apply dirname_of_file; assumption.
Qed.

Lemma C3_build_driver_sequence_witness :
  (build_extension sample_host base_noop "example.com/pkg" ext_pkg
     sample_world).1.1 = Ok tt
  /\ spawned (build_extension sample_host base_noop "example.com/pkg"
                ext_pkg sample_world).2
     = [(["go"; "get"; "-d"], "/tmp/tmpab12/src/example.com/pkg/pkg/dir");
        (["gcc"; "/tmp/tmpcd34/test.c"; "-Wl,-undefined,dynamic_lookup"],
         "/tmp/tmpcd34");
        (["gcc"; "/tmp/tmpcd34/test.c";
          "-Wl,--unresolved-symbols=ignore-all"], "/tmp/tmpcd34");
        (["go"; "build"; "-buildmode=c-shared"; "-o";
          "/home/dev/project/build/lib/pkg.so"],
         "/tmp/tmpab12/src/example.com/pkg/pkg/dir")].
Proof.
  assert (Hex : is_Some (disk sample_world !! "pkg/dir/main.go"))
    by (eexists; vm_compute; reflexivity).
  destruct (C3_build_driver_sequence sample_host base_noop "example.com/pkg"
              ext_pkg sample_world "pkg/dir/main.go"
              "-Wl,--unresolved-symbols=ignore-all"
              (<["/tmp/tmpab12" := Dir TMP_DIR_MODE []]> (disk sample_world))
              (<["/tmp/tmpab12" := Dir TMP_DIR_MODE []]> (disk sample_world))
              (<["/tmp/tmpab12" := Dir TMP_DIR_MODE []]> (disk sample_world))
              (<["/tmp/tmpab12" := Dir TMP_DIR_MODE []]> (disk sample_world))
              eq_refl eq_refl Hex)
    as ((line_get & line_build & Ht) & _ & _ & _ & Hok & _);
    [vm_compute; reflexivity | reflexivity | reflexivity | reflexivity
     | vm_compute; reflexivity | vm_compute; reflexivity |].
  split.
  - apply Hok. exists (Dir TMP_DIR_MODE []). split; vm_compute; reflexivity.
  - rewrite Ht. vm_compute. reflexivity.
Defined.

(** Every step succeeds, [go get -d] leaves a module cache in the
    workspace, and the build raises [PermissionError] from the cleanup; the
    temporary directory is still there. *)
Lemma C3_counterexample_cleanup_fails :
  spawned (build_extension module_cache_host base_noop "example.com/pkg"
             ext_pkg sample_world).2
  = [(["go"; "get"; "-d"], "/tmp/tmpab12/src/example.com/pkg/pkg/dir");
     (["gcc"; "/tmp/tmpcd34/test.c"; "-Wl,-undefined,dynamic_lookup"],
      "/tmp/tmpcd34");
     (["gcc"; "/tmp/tmpcd34/test.c";
       "-Wl,--unresolved-symbols=ignore-all"], "/tmp/tmpcd34");
     (["go"; "build"; "-buildmode=c-shared"; "-o";
       "/home/dev/project/build/lib/pkg.so"],
      "/tmp/tmpab12/src/example.com/pkg/pkg/dir")]
  /\ (build_extension module_cache_host base_noop "example.com/pkg" ext_pkg
        sample_world).1.1 = Raise PermissionError
  /\ is_Some (disk (build_extension module_cache_host base_noop
                      "example.com/pkg" ext_pkg sample_world).1.2
              !! "/tmp/tmpab12").
Proof.
  split; [vm_compute; reflexivity |].
  split; [vm_compute; reflexivity |].
  eexists. vm_compute. reflexivity.
Qed.

(** C9, as the code has it: the driver does not look at where the source
    lies.  On POSIX, for a single existing [.go] source given by an
    absolute path, so a file that need not lie under the project root at
    all, nothing is raised on that account: when [os.makedirs],
    [shutil.copytree], the two [go] commands and the Toolchain Prober
    succeed and the workspace can be removed, the build returns normally,
    and both [go get -d] and [go build] have run in the directory of the
    source itself, not in a directory of the copy in the workspace. *)
Theorem C9_source_location_not_checked :
  forall (h : host) (base : Extension -> py unit) (root : string)
         (ext : Extension) (w : world) (main_file ldflags : string)
         (d1 d2 d3 d5 : gmap string node),
    sys_platform h = Posix ->
    sources ext = [main_file] ->
    Py.endswith main_file ".go" = true ->
    is_Some (disk w !! main_file) ->
    Py.startswith main_file "/" = true ->
    let tempdir := mkdtemp_name h (disk w) in
    let root_path := os_path_join h tempdir ["src"; root] in
    let source_dir := posixpath.dirname main_file in
    let artifact := os_path_abspath h (get_ext_fullpath h (name ext)) in
    let cflags :=
      _get_cflags (heap w (self_compiler w)) (define_macros ext) in
    let env_get := dict_override (environ w) {[ "GOPATH" := tempdir ]} in
    let env_build :=
      dict_override (environ w) (build_env tempdir cflags ldflags) in
    disk w !! tempdir = None ->
    os_makedirs h (os_path_dirname h root_path)
      (<[tempdir := Dir TMP_DIR_MODE []]> (disk w)) = (Ok tt, d1) ->
    shutil_copytree h "." root_path true d1 = (Ok tt, d2) ->
    subprocess_check_call h ["go"; "get"; "-d"] source_dir env_get d2
    = (Ok tt, d3) ->
    let probed := _get_ldflags h (set_disk d3 w) in
    probed.1.1 = Ok ldflags ->
    subprocess_check_call h
      ["go"; "build"; "-buildmode=c-shared"; "-o"; artifact] source_dir
      env_build (disk probed.1.2) = (Ok tt, d5) ->
    workspace_removable Posix tempdir d5 ->
    (build_extension h base root ext w).1.1 = Ok tt
    /\ spawned (build_extension h base root ext w).2
       = (["go"; "get"; "-d"], source_dir)
         :: spawned probed.2
         ++ [(["go"; "build"; "-buildmode=c-shared"; "-o"; artifact],
              source_dir)].
Proof.
  intros h base root ext w main_file ldflags d1 d2 d3 d5 Hposix Hs He Hex
         Habs tempdir root_path source_dir artifact cflags env_get env_build
         Hfresh Hmk Hcp Hget probed Hprobe Hbuild Hrm.
  assert (Hdir : os_path_join h root_path [os_path_dirname h main_file]
                 = source_dir).
  { unfold os_path_join, os_path_join2, os_path_dirname. simpl.
    rewrite Hposix. apply join2_absolute, dirname_absolute, Habs. }
  rewrite <- Hdir in Hget, Hbuild.
  destruct (driver_success h base root ext w main_file ldflags d1 d2 d3 d5
              Hs He Hex Hfresh Hmk Hcp Hget Hprobe Hbuild)
    as (line_get & line_build & Hrun).
  fold tempdir root_path in Hrun. rewrite Hdir in Hrun.
  fold artifact cflags env_get env_build in Hrun. fold probed in Hrun.
  rewrite Hrun. cbn [fst snd]. split.
  - rewrite rmtree_run_removable; [reflexivity |].
    rewrite Hposix, disk_set_disk. exact Hrm.
  - rewrite !spawned_app. reflexivity.
Qed.

Lemma C9_source_location_not_checked_witness :
  (build_extension sample_host base_noop "example.com/pkg" ext_outside
     sample_world).1.1 = Ok tt
  /\ spawned (build_extension sample_host base_noop "example.com/pkg"
                ext_outside sample_world).2
     = (["go"; "get"; "-d"], "/opt/other")
       :: spawned (_get_ldflags sample_host
                     (set_disk (<["/tmp/tmpab12" := Dir TMP_DIR_MODE []]>
                                  (disk sample_world)) sample_world)).2
       ++ [(["go"; "build"; "-buildmode=c-shared"; "-o";
             "/home/dev/project/build/lib/outside.so"], "/opt/other")].
Proof.
  assert (Hex : is_Some (disk sample_world !! "/opt/other/main.go"))
    by (eexists; vm_compute; reflexivity).
  apply (C9_source_location_not_checked sample_host base_noop
           "example.com/pkg" ext_outside sample_world "/opt/other/main.go"
           "-Wl,--unresolved-symbols=ignore-all"
           (<["/tmp/tmpab12" := Dir TMP_DIR_MODE []]> (disk sample_world))
           (<["/tmp/tmpab12" := Dir TMP_DIR_MODE []]> (disk sample_world))
           (<["/tmp/tmpab12" := Dir TMP_DIR_MODE []]> (disk sample_world))
           (<["/tmp/tmpab12" := Dir TMP_DIR_MODE []]> (disk sample_world))
           eq_refl eq_refl eq_refl Hex eq_refl);
    [vm_compute; reflexivity | reflexivity | reflexivity | reflexivity
     | vm_compute; reflexivity | vm_compute; reflexivity |].
  exists (Dir TMP_DIR_MODE []). split; vm_compute; reflexivity.
Defined.

(** A source outside the project root: nothing fails, and both [go]
    commands run in [/opt/other]. *)
Lemma C9_counterexample_absolute_source :
  (build_extension sample_host base_noop "example.com/pkg" ext_outside
     sample_world).1.1 = Ok tt
  /\ spawned (build_extension sample_host base_noop "example.com/pkg"
                ext_outside sample_world).2
     = [(["go"; "get"; "-d"], "/opt/other");
        (["gcc"; "/tmp/tmpcd34/test.c"; "-Wl,-undefined,dynamic_lookup"],
         "/tmp/tmpcd34");
        (["gcc"; "/tmp/tmpcd34/test.c";
          "-Wl,--unresolved-symbols=ignore-all"], "/tmp/tmpcd34");
        (["go"; "build"; "-buildmode=c-shared"; "-o";
          "/home/dev/project/build/lib/outside.so"], "/opt/other")].
Proof. split; vm_compute; reflexivity. Qed.
(** ** The Toolchain Prober *)

(** The loop over the two candidates: the clang-style flag is tried first
    and returned if the compile exits with status zero; after a non-zero
    exit the GNU-style flag is tried and returned, whether that compile
    exits with zero or not; any other exception of a trial leaves the loop
    at once. *)
Lemma probe_run h cc testf tmpdir (w : world) :
  let first :=
    subprocess_check_call h [cc; testf; LFLAG_CLANG] tmpdir
      (environ w) (disk w) in
  let second :=
    subprocess_check_call h [cc; testf; LFLAG_GCC] tmpdir
      (environ w) first.2 in
  probe h cc testf tmpdir LFLAGS w
  = match first.1 with
    | Ok _ =>
        (Ok LFLAG_CLANG, set_disk first.2 w,
         [EvCheckCall [cc; testf; LFLAG_CLANG] tmpdir None])
    | Raise (CalledProcessError _) =>
        (match second.1 with
         | Ok _ | Raise (CalledProcessError _) => Ok LFLAG_GCC
         | Raise e => Raise e
         end,
         set_disk second.2 w,
         [EvCheckCall [cc; testf; LFLAG_CLANG] tmpdir None;
          EvCheckCall [cc; testf; LFLAG_GCC] tmpdir None])
    | Raise e =>
        (Raise e, set_disk first.2 w,
         [EvCheckCall [cc; testf; LFLAG_CLANG] tmpdir None])
    end.
Proof.
  intros first second. subst first second.
  cbv beta iota zeta delta
    [probe LFLAGS try_except bind check_call emit gets on_disk ret default].
  destruct (subprocess_check_call h [cc; testf; LFLAG_CLANG] _ _ _)
    as [[[] | e1] d1]; [reflexivity |].
  destruct e1; try reflexivity. cbn [is_CalledProcessError fst snd].
  change (environ (set_disk d1 w)) with (environ w).
  change (disk (set_disk d1 w)) with d1.
  destruct (subprocess_check_call h [cc; testf; LFLAG_GCC] _ _ _)
    as [[[] | e2] d2]; [reflexivity |].
  destruct e2; reflexivity.
Qed.

(** C4, as the code has it: on a platform other than Windows a failing
    [go env CC] is raised to the caller and nothing is compiled.  When it
    answers and the scratch directory can be made, written to and, at the
    end, removed, the prober tries the clang-style flag first and returns
    it if that compile exits with status zero; only after a non-zero exit
    ([CalledProcessError]) it tries the GNU-style flag, and returns it
    whether that compile exits with zero or not.  Any other error of a
    trial compile, such as a compiler that cannot be started, is raised to
    the caller, and no further candidate is tried. *)
Theorem C4_prober_selects_flag :
  forall (h : host) (w : world),
    sys_platform h = Posix ->
    (forall e d,
        subprocess_check_output h ["go"; "env"; "CC"] (environ w) (disk w)
        = (Raise e, d) ->
        (_get_ldflags h w).1.1 = Raise e
        /\ spawned (_get_ldflags h w).2 = [])
    /\ forall (out : string) (d1 d3 : gmap string node),
         subprocess_check_output h ["go"; "env"; "CC"] (environ w) (disk w)
         = (Ok out, d1) ->
         let cc := Py.strip out in
         let tmpdir := mkdtemp_name h d1 in
         let testf := posixpath.join tmpdir ["test.c"] in
         let clang := "-Wl,-undefined,dynamic_lookup" in
         let gnu := "-Wl,--unresolved-symbols=ignore-all" in
         d1 !! tmpdir = None ->
         write_text h testf
           ("int f(int); int main(void) { return f(0); }" +:+ Py.chr 10)
           (<[tmpdir := Dir TMP_DIR_MODE []]> d1) = (Ok tt, d3) ->
         let first :=
           subprocess_check_call h [cc; testf; clang] tmpdir (environ w) d3 in
         let second :=
           subprocess_check_call h [cc; testf; gnu] tmpdir (environ w)
             first.2 in
         workspace_removable Posix tmpdir
           match first.1 with
           | Raise (CalledProcessError _) => second.2
           | _ => first.2
           end ->
         (_get_ldflags h w).1.1
         = match first.1 with
           | Ok _ => Ok clang
           | Raise (CalledProcessError _) =>
               match second.1 with
               | Ok _ | Raise (CalledProcessError _) => Ok gnu
               | Raise e => Raise e
               end
           | Raise e => Raise e
           end
         /\ spawned (_get_ldflags h w).2
            = ([cc; testf; clang], tmpdir)
              :: match first.1 with
                 | Raise (CalledProcessError _) => [([cc; testf; gnu], tmpdir)]
                 | _ => []
                 end
         /\ disk (_get_ldflags h w).1.2 !! tmpdir = None.
Proof.
  intros h w Hposix. split.
  { intros e d Hout. unfold _get_ldflags. rewrite Hposix.
    unfold bind. rewrite check_output_run, Hout. split; reflexivity. }
  intros out d1 d3 Hout cc tmpdir testf clang gnu Hfresh Hwrite first second
         Hrm.
  assert (Hco : check_output h ["go"; "env"; "CC"] w
                = (Ok out, set_disk d1 w, [EvCheckOutput ["go"; "env"; "CC"]]))
    by (rewrite check_output_run, Hout; reflexivity).
  unfold _get_ldflags. rewrite Hposix, (bind_ok _ _ _ _ _ _ Hco).
  rewrite tmpdir_run by (rewrite disk_set_disk; exact Hfresh).
  cbv zeta. rewrite !disk_set_disk, (os_path_join_posix h _ _ Hposix).
  fold tmpdir. fold cc. fold testf.
  set (entered := set_disk (<[tmpdir := Dir TMP_DIR_MODE []]> d1)
                           (set_disk d1 w)).
  assert (Hwf : write_file h testf TEST_C entered
                = (Ok tt, set_disk d3 entered, [EvWrite testf TEST_C]))
    by (rewrite write_file_run; unfold entered; rewrite disk_set_disk;
        change TEST_C
          with ("int f(int); int main(void) { return f(0); }" +:+ Py.chr 10);
        rewrite Hwrite; reflexivity).
  rewrite (bind_ok _ _ _ _ _ _ Hwf).
  rewrite probe_run. cbv zeta. rewrite !disk_set_disk.
  change (environ (set_disk d3 entered)) with (environ w).
  change LFLAG_CLANG with clang. change LFLAG_GCC with gnu.
  fold first. fold second.
  destruct first.1 as [[] | e1].
  - rewrite rmtree_run_removable
      by (rewrite Hposix, disk_set_disk; exact Hrm).
    simpl. split; [reflexivity |]. split; [reflexivity |].
    apply lookup_delete_eq.
  - destruct e1;
      (rewrite rmtree_run_removable
         by (rewrite Hposix, disk_set_disk; exact Hrm));
      simpl; (split; [reflexivity |]); (split; [reflexivity |]);
      apply lookup_delete_eq.
Qed.

Lemma C4_prober_selects_flag_witness :
  (_get_ldflags sample_host sample_world).1.1
  = Ok "-Wl,--unresolved-symbols=ignore-all"
  /\ spawned (_get_ldflags sample_host sample_world).2
     = [(["gcc"; "/tmp/tmpab12/test.c"; "-Wl,-undefined,dynamic_lookup"],
         "/tmp/tmpab12");
        (["gcc"; "/tmp/tmpab12/test.c";
          "-Wl,--unresolved-symbols=ignore-all"], "/tmp/tmpab12")].
Proof.
  destruct (C4_prober_selects_flag sample_host sample_world eq_refl)
    as [_ Hsel].
  destruct (Hsel ("gcc" +:+ Py.chr 10) (disk sample_world)
              (<["/tmp/tmpab12" := Dir TMP_DIR_MODE []]> (disk sample_world)))
    as (H1 & H2 & _).
  - reflexivity.
  - vm_compute. reflexivity.
  - reflexivity.
  - exists (Dir TMP_DIR_MODE []). split; vm_compute; reflexivity.
  - split; [exact H1 | exact H2].
Defined.

(** The compiler [go env CC] names cannot be started: the first trial
    raises [FileNotFoundError], which the loop does not catch. *)
Lemma C4_counterexample_compiler_missing :
  (_get_ldflags no_compiler_host sample_world).1.1 = Raise FileNotFoundError
  /\ spawned (_get_ldflags no_compiler_host sample_world).2
     = [(["gcc"; "/tmp/tmpab12/test.c"; "-Wl,-undefined,dynamic_lookup"],
         "/tmp/tmpab12")].
Proof. split; vm_compute; reflexivity. Qed.

(** ** Which targets the router takes for foreign-language targets *)

Lemma endswith_refl (p : string) : Py.endswith p p = true.
Proof.
  destruct p as [| c p]; [reflexivity |].
  rewrite endswith_cons, String.eqb_refl. reflexivity.
Qed.

Lemma endswith_suffix (s p : string) :
  Py.endswith s p = true <-> exists stem, s = stem +:+ p.
Proof.
  split.
  - induction s as [| c s IH].
    + destruct p; [| discriminate]. exists "". reflexivity.
    + rewrite endswith_cons. intros [H%String.eqb_eq | H]%orb_prop.
      * exists "". subst p. reflexivity.
      * destruct (IH H) as [stem ->]. exists (String c stem). reflexivity.
  - intros [stem ->]. induction stem as [| c stem IH].
    + apply endswith_refl.
    + rewrite append_cons, endswith_cons, IH. apply orb_true_r.
Qed.

(** X1: the router takes a target for a Go target exactly when one of its
    sources is some stem followed by [.go] (the stem may be empty, the
    match is case-sensitive and looks at the end of the name only). *)
Theorem X1_go_target_iff_suffix :
  forall ext : Extension,
    has_go_source ext = true
    <-> exists source stem,
          In source (sources ext) /\ source = stem +:+ ".go".
Proof.
  intros ext. unfold has_go_source, Py.any. rewrite existsb_exists. split.
  - intros (source & Hin & [stem ->]%endswith_suffix). eauto.
  - intros (source & stem & Hin & ->). exists (stem +:+ ".go").
    split; [exact Hin |]. apply endswith_suffix. eauto.
Qed.

(** ** Splitting and joining *)

Lemma split_nonempty (c : ascii) (s : string) : Str.split c s <> [].
Proof.
  induction s as [| d s IH]; [discriminate |]. simpl.
  destruct (Ascii.eqb d c); [discriminate |].
  destruct (Str.split c s); [contradiction | discriminate].
Qed.

Lemma split_no_sep (c : ascii) (s : string) :
  Py.contains_char c s = false -> Str.split c s = [s].
Proof.
  induction s as [| d s IH]; [reflexivity |]. simpl.
  intros [Hd Hs]%orb_false_elim. rewrite Hd, (IH Hs). reflexivity.
Qed.

Lemma split_part_sep (c : ascii) (p rest : string) :
  Py.contains_char c p = false ->
  Str.split c (p +:+ String c rest) = p :: Str.split c rest.
Proof.
  induction p as [| d p IH]; intros Hp.
  - change ("" +:+ String c rest) with (String c rest). simpl.
    rewrite Ascii.eqb_refl. reflexivity.
  - simpl in Hp. apply orb_false_elim in Hp as [Hd Hp].
    rewrite append_cons. simpl. rewrite Hd, (IH Hp). reflexivity.
Qed.

(** Splitting undoes joining when no part holds the separator. *)
Lemma split_join (c : ascii) (parts : list string) :
  parts <> [] ->
  Forall (fun p => Py.contains_char c p = false) parts ->
  Str.split c (Py.join (String c "") parts) = parts.
Proof.
  intros Hne Hall. induction Hall as [| p parts Hp Hall IH];
    [contradiction |].
  destruct parts as [| q parts].
  - simpl. apply split_no_sep, Hp.
  - change (Py.join (String c "") (p :: q :: parts))
      with (p +:+ String c "" +:+ Py.join (String c "") (q :: parts)).
    change (String c "" +:+ Py.join (String c "") (q :: parts))
      with (String c (Py.join (String c "") (q :: parts))).
    rewrite (split_part_sep c p _ Hp), IH by discriminate. reflexivity.
Qed.

(** Joining the parts of a split with another character replaces the
    separator by that character. *)
Lemma join_split_replace (a b : ascii) (s : string) :
  Py.join (String b "") (Str.split a s) = Str.replace_char a b s.
Proof.
  induction s as [| d s IH]; [reflexivity |]. simpl.
  destruct (Ascii.eqb d a).
  - pose proof (split_nonempty a s) as Hne.
    destruct (Str.split a s) as [| q qs] eqn:Hs; [contradiction |].
    change (Py.join (String b "") ("" :: q :: qs))
      with ("" +:+ String b "" +:+ Py.join (String b "") (q :: qs)).
    rewrite IH. reflexivity.
  - pose proof (split_nonempty a s) as Hne.
    destruct (Str.split a s) as [| q qs] eqn:Hs; [contradiction |].
    rewrite <- IH. destruct qs as [| q' qs]; reflexivity.
Qed.

(** X2: when no include directory and no macro text holds a space (and
    there is at least one flag), splitting the flag string at spaces gives
    back exactly the flags, one per include directory followed by one per
    macro: nothing is merged, dropped or reordered. *)
Theorem X2_cflags_split_round_trip :
  forall (compiler : CCompiler) (ms : list (string * option string)),
    let flags :=
      map (fun d => "-I" +:+ d) (include_dirs compiler)
      ++ map define_flag ms in
    flags <> [] ->
    Forall (fun f => Py.contains_char " " f = false) flags ->
    Str.split " " (_get_cflags compiler ms) = flags
    /\ List.length (Str.split " " (_get_cflags compiler ms))
       = (List.length (include_dirs compiler) + List.length ms)%nat.
Proof.
  intros compiler ms flags Hne Hall.
  assert (Hsplit : Str.split " " (_get_cflags compiler ms) = flags).
  { unfold _get_cflags. rewrite fold_append_flags. fold flags.
    apply (split_join " " flags Hne Hall). }
  split; [exact Hsplit |].
  rewrite Hsplit. subst flags. rewrite length_app, !length_map. reflexivity.
Qed.

Lemma X2_cflags_split_round_trip_witness :
  Str.split " "
    (_get_cflags {| include_dirs := ["a"; "b"]; macros := [];
                    library_dirs := []; libraries := [] |}
                 [("FOO", None); ("BAR", Some "1")])
  = ["-Ia"; "-Ib"; "-DFOO"; "-DBAR=1"].
Proof.
  apply (X2_cflags_split_round_trip
           {| include_dirs := ["a"; "b"]; macros := [];
              library_dirs := []; libraries := [] |}
           [("FOO", None); ("BAR", Some "1")]).
  - discriminate.
  - repeat constructor.
Defined.

(** ** [_check_call] *)

(** X3: [_check_call] prints one line and then starts one child, in that
    order.  The child's environment holds, for every name, the override
    when there is one and the ambient value otherwise, so no ambient
    variable is suppressed.  The outcome is the child's outcome, passed on
    as it is; [os.environ] and the compiler objects are left alone, and
    the disk is as the child left it. *)
Theorem X3_check_call_contract :
  forall (h : host) (cmd : list string) (cwd : string)
         (env : gmap string string) (w : world),
    exists (line : string) (child_env : gmap string string),
      (_check_call h cmd cwd env w).2
      = [EvStderr line; EvCheckCall cmd cwd (Some child_env)]
      /\ (forall k, child_env !! k
                    = match env !! k with
                      | Some v => Some v
                      | None => environ w !! k
                      end)
      /\ (_check_call h cmd cwd env w).1.1
         = (subprocess_check_call h cmd cwd child_env (disk w)).1
      /\ disk (_check_call h cmd cwd env w).1.2
         = (subprocess_check_call h cmd cwd child_env (disk w)).2
      /\ environ (_check_call h cmd cwd env w).1.2 = environ w
      /\ heap (_check_call h cmd cwd env w).1.2 = heap w
      /\ self_compiler (_check_call h cmd cwd env w).1.2 = self_compiler w.
Proof.
  intros h cmd cwd env w.
  eexists _, (dict_override (environ w) env).
  cbv beta iota zeta delta
    [_check_call check_call print_stderr bind emit gets on_disk default].
  destruct (subprocess_check_call h cmd cwd _ (disk w)) as [[[] | e] d];
    simpl; (split; [reflexivity |]);
    (split; [intros k; apply lookup_dict_override |]);
    repeat split.
Qed.

#[local] Instance item_le_total : Total item_le.
Proof. intros a b. apply String.leb_total. Qed.

(** X4: the line [_check_call] prints is ["$ "] followed by the overrides
    and the quoted command, joined by spaces; the overrides shown are
    exactly the entries of [env], each once, in ascending order of their
    names, whatever order they were inserted in. *)
Theorem X4_check_call_log_line :
  forall (h : host) (cmd : list string) (cwd : string)
         (env : gmap string string) (w : world),
    (_check_call h cmd cwd env w).2 !! 0%nat
    = Some (EvStderr
              ("$ " +:+ Py.join " "
                 (map (fun kv => kv.1 +:+ "=" +:+ shlex.quote kv.2)
                      (sorted_items env)
                  ++ map shlex.quote cmd)))
    /\ Sorted item_le (sorted_items env)
    /\ NoDup (sorted_items env).*1
    /\ list_to_map (sorted_items env) = env.
Proof.
  intros h cmd cwd env w.
  assert (Hperm : sorted_items env ≡ₚ map_to_list env)
    by apply merge_sort_Permutation.
  assert (Hnd : NoDup (sorted_items env).*1).
  { rewrite Hperm. apply NoDup_fst_map_to_list. }
  split; [| split; [| split]].
  - cbv beta iota zeta delta
      [_check_call check_call print_stderr bind emit gets on_disk default].
    destruct (subprocess_check_call h cmd cwd _ (disk w)) as [[[] | e] d];
      reflexivity.
  - apply (Sorted_merge_sort item_le).
  - exact Hnd.
  - rewrite <- (list_to_map_to_list env) at 2.
    apply list_to_map_proper; [exact Hnd | exact Hperm].
Qed.

(** ** More on the Toolchain Prober *)

Lemma bind_result_ok {A B} (m : py A) (f : A -> py B) w b :
  (bind m f w).1.1 = Ok b ->
  exists a, (m w).1.1 = Ok a /\ (f a (m w).1.2).1.1 = Ok b.
Proof.
  unfold bind. destruct (m w) as [[[a | e] w1] t1]; [| discriminate].
  destruct (f a w1) as [[r w2] t2] eqn:Hf. simpl. intros ->.
  exists a. rewrite Hf. auto.
Qed.

Lemma try_finally_result_ok {A} (body : py A) (fin : py unit) w a :
  (try_finally body fin w).1.1 = Ok a -> (body w).1.1 = Ok a.
Proof.
  unfold try_finally. destruct (body w) as [[r w1] t1].
  destruct (fin w1) as [[[[] | e] w2] t2]; [auto | discriminate].
Qed.

Lemma probe_result h cc testf tmpdir (lflags : list string) w flag :
  (probe h cc testf tmpdir lflags w).1.1 = Ok flag ->
  In flag lflags \/ flag = LFLAG_GCC.
Proof.
  revert w. induction lflags as [| lflag rest IH]; intros w; simpl.
  - intros [= <-]. auto.
  - unfold try_except, bind, ret.
    destruct (check_call h _ tmpdir None w) as [[[[] | e] w1] t1]; simpl.
    + intros [= <-]. auto.
    + destruct (is_CalledProcessError e); [| discriminate].
      destruct (probe h cc testf tmpdir rest w1) as [[r w2] t2] eqn:Hp.
      simpl. intros ->. specialize (IH w1). rewrite Hp in IH.
      destruct (IH eq_refl); auto.
Qed.

(** X5: on a platform other than Windows, whatever the toolchain does,
    a flag the prober returns is one of the two candidates: the
    clang-style flag or the GNU-style flag. *)
Theorem X5_prober_returns_a_candidate :
  forall (h : host) (w : world) (flag : string),
    sys_platform h = Posix ->
    (_get_ldflags h w).1.1 = Ok flag ->
    flag = LFLAG_CLANG \/ flag = LFLAG_GCC.
Proof.
  intros h w flag Hposix Hok. unfold _get_ldflags in Hok.
  rewrite Hposix in Hok.
  apply bind_result_ok in Hok as (out & _ & Hok).
  unfold _tmpdir in Hok.
  apply bind_result_ok in Hok as (tmpdir & _ & Hok).
  apply try_finally_result_ok in Hok.
  apply bind_result_ok in Hok as ([] & _ & Hok).
  apply probe_result in Hok as [[<- | [<- | []]] | ->]; auto.
Qed.

Lemma X5_prober_returns_a_candidate_witness :
  "-Wl,--unresolved-symbols=ignore-all" = LFLAG_CLANG
  \/ "-Wl,--unresolved-symbols=ignore-all" = LFLAG_GCC.
Proof.
  apply (X5_prober_returns_a_candidate sample_host sample_world).
  - reflexivity.
  - vm_compute. reflexivity.
Defined.

(** X6: when [go env CC] fails, the prober fails with that very error; no
    scratch directory is made and no compiler is started. *)
Theorem X6_prober_go_env_failure :
  forall (h : host) (w : world) (e : exn) (d : gmap string node),
    sys_platform h = Posix ->
    subprocess_check_output h ["go"; "env"; "CC"] (environ w) (disk w)
    = (Raise e, d) ->
    _get_ldflags h w
    = (Raise e, set_disk d w, [EvCheckOutput ["go"; "env"; "CC"]]).
Proof.
  intros h w e d Hposix Hout. unfold _get_ldflags. rewrite Hposix.
  unfold bind. rewrite check_output_run, Hout. reflexivity.
Qed.

(** X7: on a platform other than Windows the calls of the prober are, in
    this order: [go env CC]; then, unless that failed or no scratch
    directory could be made, [mkdtemp], the writing of [test.c] into the
    scratch directory with the two-symbol program, at most two trial
    compiles (the clang-style flag, then the GNU-style flag, never the
    other way round), and [rmtree] of the scratch directory, whatever
    happened in between. *)
Theorem X7_prober_call_sequence :
  forall (h : host) (w : world),
    sys_platform h = Posix ->
    (_get_ldflags h w).2 = [EvCheckOutput ["go"; "env"; "CC"]]
    \/ exists out tmpdir trials,
         let cc := Py.strip out in
         let testf := posixpath.join tmpdir ["test.c"] in
         (_get_ldflags h w).2
         = [EvCheckOutput ["go"; "env"; "CC"]; EvMkdtemp tmpdir;
            EvWrite testf TEST_C]
           ++ trials ++ [EvRmtree tmpdir]
         /\ (trials = []
             \/ trials = [EvCheckCall [cc; testf; LFLAG_CLANG] tmpdir None]
             \/ trials = [EvCheckCall [cc; testf; LFLAG_CLANG] tmpdir None;
                          EvCheckCall [cc; testf; LFLAG_GCC] tmpdir None]).
Proof.
  intros h w Hposix. remember (_get_ldflags h w).2 as t eqn:Ht.
  unfold _get_ldflags in Ht. rewrite Hposix in Ht.
  unfold bind at 1 in Ht. rewrite check_output_run in Ht.
  destruct (subprocess_check_output h _ _ _) as [[out | e] d1];
    [| left; exact Ht].
  cbv beta iota zeta in Ht.
  destruct (disk (set_disk d1 w) !! mkdtemp_name h (disk (set_disk d1 w)))
    as [n |] eqn:Hfresh.
  { left. unfold _tmpdir, bind, mkdtemp in Ht. rewrite Hfresh in Ht.
    exact Ht. }
  right. rewrite tmpdir_run in Ht by exact Hfresh. cbv zeta in Ht.
  rewrite (os_path_join_posix h _ _ Hposix) in Ht.
  set (tmpdir := mkdtemp_name h (disk (set_disk d1 w))) in *.
  set (testf := posixpath.join tmpdir ["test.c"]) in *.
  set (entered := set_disk _ (set_disk d1 w)) in Ht.
  exists out, tmpdir. cbv zeta. fold testf.
  unfold bind at 1 in Ht. rewrite write_file_run in Ht.
  destruct (write_text h testf TEST_C (disk entered)) as [[[] | e] d3];
    cbv beta iota zeta in Ht.
  - cbv beta iota zeta delta
      [probe LFLAGS try_except bind check_call emit gets on_disk ret
       default] in Ht.
    destruct (subprocess_check_call h [_; _; LFLAG_CLANG] _ _ _)
      as [[[] | e1] d4]; simpl in Ht.
    + pose proof (rmtree_trace h tmpdir err (set_disk d4 (set_disk d3 entered)))
        as Hr.
      destruct (shutil_rmtree _ _ _ _) as [[rc w2] t2]. simpl in *.
      subst t2 t. exists [EvCheckCall [Py.strip out; testf; LFLAG_CLANG] tmpdir None].
      split; [reflexivity |]. auto.
    + destruct (is_CalledProcessError e1).
      * destruct (subprocess_check_call h [_; _; LFLAG_GCC] _ _ _)
          as [[[] | e2] d5]; simpl in Ht.
        -- pose proof (rmtree_trace h tmpdir err
                         (set_disk d5 (set_disk d4 (set_disk d3 entered))))
             as Hr.
           destruct (shutil_rmtree _ _ _ _) as [[rc w2] t2]. simpl in *.
           subst t2 t. exists [EvCheckCall [Py.strip out; testf; LFLAG_CLANG] tmpdir None;
                   EvCheckCall [Py.strip out; testf; LFLAG_GCC] tmpdir None].
           split; [reflexivity |]. auto.
        -- destruct (is_CalledProcessError e2); simpl in Ht;
             (pose proof (rmtree_trace h tmpdir err
                            (set_disk d5 (set_disk d4 (set_disk d3 entered))))
                as Hr;
              destruct (shutil_rmtree _ _ _ _) as [[rc w2] t2]; simpl in *;
              subst t2 t; exists [EvCheckCall [Py.strip out; testf; LFLAG_CLANG] tmpdir None;
                   EvCheckCall [Py.strip out; testf; LFLAG_GCC] tmpdir None];
              split; [reflexivity |]; auto).
      * pose proof (rmtree_trace h tmpdir err
                      (set_disk d4 (set_disk d3 entered))) as Hr.
        destruct (shutil_rmtree _ _ _ _) as [[rc w2] t2]. simpl in *.
        subst t2 t. exists [EvCheckCall [Py.strip out; testf; LFLAG_CLANG] tmpdir None].
        split; [reflexivity |]. auto.
  - pose proof (rmtree_trace h tmpdir err (set_disk d3 entered)) as Hr.
    destruct (shutil_rmtree _ _ _ _) as [[rc w2] t2]. simpl in *.
    subst t2 t. exists []. split; [reflexivity |]. auto.
Qed.

Lemma X7_prober_call_sequence_witness :
  (_get_ldflags no_compiler_host sample_world).2
  = [EvCheckOutput ["go"; "env"; "CC"]]
  \/ exists out tmpdir trials,
       (_get_ldflags no_compiler_host sample_world).2
       = [EvCheckOutput ["go"; "env"; "CC"]; EvMkdtemp tmpdir;
          EvWrite (posixpath.join tmpdir ["test.c"]) TEST_C]
         ++ trials ++ [EvRmtree tmpdir]
       /\ (trials = []
           \/ trials = [EvCheckCall [Py.strip out;
                                     posixpath.join tmpdir ["test.c"];
                                     LFLAG_CLANG] tmpdir None]
           \/ trials = [EvCheckCall [Py.strip out;
                                     posixpath.join tmpdir ["test.c"];
                                     LFLAG_CLANG] tmpdir None;
                        EvCheckCall [Py.strip out;
                                     posixpath.join tmpdir ["test.c"];
                                     LFLAG_GCC] tmpdir None]).
Proof.
  apply (X7_prober_call_sequence no_compiler_host sample_world).
  reflexivity.
Defined.

Lemma X6_prober_go_env_failure_witness :
  let h :=
    {| sys_platform := Posix; os_geteuid := os_geteuid sample_host;
       sys_prefix := sys_prefix sample_host;
       sys_version_info := sys_version_info sample_host;
       ntpath_join2 := ntpath_join2 sample_host;
       ntpath_dirname := ntpath_dirname sample_host;
       os_path_abspath := os_path_abspath sample_host;
       mkdtemp_name := mkdtemp_name sample_host;
       os_makedirs := os_makedirs sample_host;
       shutil_copytree := shutil_copytree sample_host;
       write_text := write_text sample_host;
       subprocess_check_call := subprocess_check_call sample_host;
       subprocess_check_output :=
         fun _ _ d => (Raise FileNotFoundError, d);
       get_ext_fullpath := get_ext_fullpath sample_host |} in
  _get_ldflags h sample_world
  = (Raise FileNotFoundError, set_disk (disk sample_world) sample_world,
     [EvCheckOutput ["go"; "env"; "CC"]]).
Proof.
  intros h.
  apply (X6_prober_go_env_failure h sample_world FileNotFoundError
           (disk sample_world)); reflexivity.
Defined.

(** ** More on the Build Driver *)

Lemma frame_check_call (I : world -> Prop) h cmd cwd env :
  (forall w d, I w -> I (set_disk d w)) ->
  inv I (fun _ => True) (_check_call h cmd cwd env).
Proof.
  intros HI. unfold _check_call, print_stderr.
  apply inv_bind; [apply inv_emit; inv_side | intros _].
  apply inv_bind; [apply inv_gets | intros ?].
  apply inv_check_call; inv_side.
Qed.

Lemma frame_build_in (I : world -> Prop) h root ext main_dir tempdir :
  (forall w d, I w -> I (set_disk d w)) ->
  inv I (fun _ => True) (build_in h root ext main_dir tempdir).
Proof.
  intros HI. unfold build_in.
  apply inv_bind; [apply inv_makedirs; inv_side | intros _].
  apply inv_bind; [apply inv_copytree; inv_side | intros _].
  apply inv_bind; [apply frame_check_call, HI | intros _].
  apply inv_bind; [apply inv_gets | intros l].
  apply inv_bind; [apply inv_gets | intros c].
  apply inv_bind; [apply inv_get_ldflags; inv_side | intros ldflags].
  apply frame_check_call, HI.
Qed.

(** X8: a build of a target with a [.go] source only reads the compiler
    object: whatever happens, [self.compiler] refers to the same object
    afterwards, no object has changed and none was created. *)
Theorem X8_go_build_leaves_compiler_alone :
  forall (h : host) (base : Extension -> py unit) (root : string)
         (ext : Extension) (w : world),
    has_go_source ext = true ->
    self_compiler (build_extension h base root ext w).1.2 = self_compiler w
    /\ heap (build_extension h base root ext w).1.2 = heap w
    /\ heap_next (build_extension h base root ext w).1.2 = heap_next w.
Proof.
  intros h base root ext w Hgo. unfold has_go_source in Hgo.
  unfold build_extension. rewrite Hgo. simpl.
  destruct (sources ext) as [| main_file [| ? ?]];
    try (repeat split; reflexivity).
  unfold bind, path_exists, gets; simpl.
  destruct (negb _); simpl; [repeat split; reflexivity |].
  assert (Hinv : inv (fun w' => self_compiler w' = self_compiler w
                                /\ heap w' = heap w
                                /\ heap_next w' = heap_next w)
                     (fun _ => True)
                     (_tmpdir h (build_in h root ext
                                   (os_path_dirname h main_file)))).
  { apply inv_tmpdir; try inv_side.
    intros t. apply frame_build_in. inv_side. }
  destruct (Hinv w) as [Hw _]; [auto |].
  destruct (_tmpdir _ _ _) as [[r w2] t2]. exact Hw.
Qed.

Lemma X8_go_build_leaves_compiler_alone_witness :
  self_compiler (build_extension sample_host base_noop "example.com/pkg"
                   ext_pkg sample_world).1.2 = 0%nat
  /\ heap (build_extension sample_host base_noop "example.com/pkg"
             ext_pkg sample_world).1.2 = heap sample_world
  /\ heap_next (build_extension sample_host base_noop "example.com/pkg"
                  ext_pkg sample_world).1.2 = 1%nat.
Proof.
  apply (X8_go_build_leaves_compiler_alone sample_host base_noop
           "example.com/pkg" ext_pkg sample_world).
  reflexivity.
Defined.

(** The outcome of the scope when the body raises. *)
Lemma tmpdir_body_raises {A} h (body : string -> py A) w e w1 t1 :
  disk w !! mkdtemp_name h (disk w) = None ->
  body (mkdtemp_name h (disk w))
       (set_disk (<[mkdtemp_name h (disk w) := Dir TMP_DIR_MODE []]> (disk w))
                 w)
  = (Raise e, w1, t1) ->
  (_tmpdir h body w).2
  = EvMkdtemp (mkdtemp_name h (disk w))
    :: t1 ++ [EvRmtree (mkdtemp_name h (disk w))]
  /\ (workspace_removable (sys_platform h) (mkdtemp_name h (disk w)) (disk w1)
      -> (_tmpdir h body w).1.1 = Raise e
         /\ disk (_tmpdir h body w).1.2 !! mkdtemp_name h (disk w) = None).
Proof.
  intros Hfresh Hbody. rewrite (tmpdir_run h body w Hfresh). cbv zeta.
  rewrite Hbody. split.
  - pose proof (rmtree_trace h (mkdtemp_name h (disk w)) err w1) as Ht.
    destruct (shutil_rmtree _ _ _ _) as [[rc w2] t2]. simpl in *.
    rewrite Ht. reflexivity.
  - intros Hrm. rewrite (rmtree_run_removable h _ w1 Hrm). simpl.
    split; [reflexivity | apply lookup_delete_eq].
Qed.

(** X9: when [go get -d] fails, the driver stops there: the prober is not
    run and [go build] is never started; the workspace is still handed to
    [rmtree], and if that succeeds the driver raises the very error of
    [go get -d]. *)
Theorem X9_fetch_failure_is_fatal :
  forall (h : host) (base : Extension -> py unit) (root : string)
         (ext : Extension) (w : world) (main_file : string) (e : exn)
         (d1 d2 d3 : gmap string node),
    sources ext = [main_file] ->
    Py.endswith main_file ".go" = true ->
    is_Some (disk w !! main_file) ->
    let tempdir := mkdtemp_name h (disk w) in
    let root_path := os_path_join h tempdir ["src"; root] in
    let pkg_path := os_path_join h root_path [os_path_dirname h main_file] in
    let fetch_env := dict_override (environ w) {[ "GOPATH" := tempdir ]} in
    disk w !! tempdir = None ->
    os_makedirs h (os_path_dirname h root_path)
                (<[tempdir := Dir TMP_DIR_MODE []]> (disk w)) = (Ok tt, d1) ->
    shutil_copytree h "." root_path true d1 = (Ok tt, d2) ->
    subprocess_check_call h cmd_get pkg_path fetch_env d2 = (Raise e, d3) ->
    (exists line,
        (build_extension h base root ext w).2
        = [EvMkdtemp tempdir;
           EvMakedirs (os_path_dirname h root_path);
           EvCopytree "." root_path true;
           EvStderr line;
           EvCheckCall cmd_get pkg_path (Some fetch_env);
           EvRmtree tempdir])
    /\ (workspace_removable (sys_platform h) tempdir d3 ->
        (build_extension h base root ext w).1.1 = Raise e
        /\ disk (build_extension h base root ext w).1.2 !! tempdir = None).
Proof.
  intros h base root ext w main_file e d1 d2 d3 Hs He Hex
         tempdir root_path pkg_path fetch_env Hfresh Hmk Hcp Hget.
  rewrite (build_extension_validated h base root ext w main_file Hs He Hex).
  set (entered := set_disk (<[tempdir := Dir TMP_DIR_MODE []]> (disk w)) w).
  assert (Hbody :
    exists line,
      build_in h root ext (os_path_dirname h main_file) tempdir entered
      = (Raise e, set_disk d3 (set_disk d2 (set_disk d1 entered)),
         [EvMakedirs (os_path_dirname h root_path);
          EvCopytree "." root_path true;
          EvStderr line;
          EvCheckCall cmd_get pkg_path (Some fetch_env)])).
  { eexists. unfold build_in. fold root_path. fold pkg_path.
    unfold bind at 1. rewrite makedirs_run. unfold entered at 1.
    rewrite disk_set_disk, Hmk. cbv beta iota zeta.
    unfold bind at 1. rewrite copytree_run, disk_set_disk, Hcp.
    cbv beta iota zeta.
    unfold bind at 1. rewrite check_call_run. cbv zeta.
    rewrite disk_set_disk.
    change (environ (set_disk d2 (set_disk d1 entered))) with (environ w).
    fold fetch_env. rewrite Hget. reflexivity. }
  destruct Hbody as [line Hbody].
  destruct (tmpdir_body_raises h _ w e _ _ Hfresh Hbody) as [Ht Hres].
  split.
  - exists line. exact Ht.
  - intros Hrm. apply Hres. exact Hrm.
Qed.

Lemma X9_fetch_failure_is_fatal_witness :
  (build_extension fetch_fails_host base_noop "example.com/pkg" ext_pkg
     sample_world).1.1 = Raise (CalledProcessError 1)
  /\ spawned (build_extension fetch_fails_host base_noop "example.com/pkg"
                ext_pkg sample_world).2
     = [(["go"; "get"; "-d"], "/tmp/tmpab12/src/example.com/pkg/pkg/dir")].
Proof.
  assert (Hex : is_Some (disk sample_world !! "pkg/dir/main.go"))
    by (eexists; vm_compute; reflexivity).
  destruct (X9_fetch_failure_is_fatal fetch_fails_host base_noop
              "example.com/pkg" ext_pkg sample_world "pkg/dir/main.go"
              (CalledProcessError 1)
              (<["/tmp/tmpab12" := Dir TMP_DIR_MODE []]> (disk sample_world))
              (<["/tmp/tmpab12" := Dir TMP_DIR_MODE []]> (disk sample_world))
              (<["/tmp/tmpab12" := Dir TMP_DIR_MODE []]> (disk sample_world))
              eq_refl eq_refl Hex)
    as [[line Ht] Hres];
    [vm_compute; reflexivity | reflexivity | reflexivity | reflexivity |].
  split.
  - apply Hres. exists (Dir TMP_DIR_MODE []).
    split; vm_compute; reflexivity.
  - rewrite Ht. reflexivity.
Defined.

(** X10: when the workspace cannot be set up, because [os.makedirs] or
    [shutil.copytree] fails, no process is started at all; the temporary
    directory is still handed to [rmtree], and if that succeeds the driver
    raises the error of the call that failed. *)
Theorem X10_workspace_setup_failure :
  forall (h : host) (base : Extension -> py unit) (root : string)
         (ext : Extension) (w : world) (main_file : string),
    sources ext = [main_file] ->
    Py.endswith main_file ".go" = true ->
    is_Some (disk w !! main_file) ->
    let tempdir := mkdtemp_name h (disk w) in
    let root_path := os_path_join h tempdir ["src"; root] in
    let made := <[tempdir := Dir TMP_DIR_MODE []]> (disk w) in
    disk w !! tempdir = None ->
    (forall e d1,
        os_makedirs h (os_path_dirname h root_path) made = (Raise e, d1) ->
        (build_extension h base root ext w).2
        = [EvMkdtemp tempdir; EvMakedirs (os_path_dirname h root_path);
           EvRmtree tempdir]
        /\ (workspace_removable (sys_platform h) tempdir d1 ->
            (build_extension h base root ext w).1.1 = Raise e))
    /\ (forall e d1 d2,
          os_makedirs h (os_path_dirname h root_path) made = (Ok tt, d1) ->
          shutil_copytree h "." root_path true d1 = (Raise e, d2) ->
          (build_extension h base root ext w).2
          = [EvMkdtemp tempdir; EvMakedirs (os_path_dirname h root_path);
             EvCopytree "." root_path true; EvRmtree tempdir]
          /\ (workspace_removable (sys_platform h) tempdir d2 ->
              (build_extension h base root ext w).1.1 = Raise e)).
Proof.
  intros h base root ext w main_file Hs He Hex tempdir root_path made Hfresh.
  rewrite (build_extension_validated h base root ext w main_file Hs He Hex).
  set (entered := set_disk made w).
  split.
  - intros e d1 Hmk.
    assert (Hbody :
      build_in h root ext (os_path_dirname h main_file) tempdir entered
      = (Raise e, set_disk d1 entered,
         [EvMakedirs (os_path_dirname h root_path)])).
    { unfold build_in. fold root_path.
      apply bind_raise. rewrite makedirs_run. unfold entered.
      rewrite disk_set_disk, Hmk. reflexivity. }
    destruct (tmpdir_body_raises h _ w e _ _ Hfresh Hbody) as [Ht Hres].
    split; [exact Ht |]. intros Hrm. apply Hres, Hrm.
  - intros e d1 d2 Hmk Hcp.
    assert (Hbody :
      build_in h root ext (os_path_dirname h main_file) tempdir entered
      = (Raise e, set_disk d2 (set_disk d1 entered),
         [EvMakedirs (os_path_dirname h root_path);
          EvCopytree "." root_path true])).
    { unfold build_in. fold root_path.
      unfold bind at 1. rewrite makedirs_run. unfold entered at 1.
      rewrite disk_set_disk, Hmk. cbv beta iota zeta.
      unfold bind at 1. rewrite copytree_run, disk_set_disk, Hcp.
      reflexivity. }
    destruct (tmpdir_body_raises h _ w e _ _ Hfresh Hbody) as [Ht Hres].
    split; [exact Ht |]. intros Hrm. apply Hres, Hrm.
Qed.

Lemma X10_workspace_setup_failure_witness :
  (build_extension copy_fails_host base_noop "example.com/pkg" ext_pkg
     sample_world).2
  = [EvMkdtemp "/tmp/tmpab12"; EvMakedirs "/tmp/tmpab12/src/example.com";
     EvCopytree "." "/tmp/tmpab12/src/example.com/pkg" true;
     EvRmtree "/tmp/tmpab12"]
  /\ (build_extension copy_fails_host base_noop "example.com/pkg" ext_pkg
        sample_world).1.1 = Raise FileExistsError.
Proof.
  assert (Hex : is_Some (disk sample_world !! "pkg/dir/main.go"))
    by (eexists; vm_compute; reflexivity).
  destruct (X10_workspace_setup_failure copy_fails_host base_noop
              "example.com/pkg" ext_pkg sample_world "pkg/dir/main.go"
              eq_refl eq_refl Hex) as [_ Hcopy].
  - vm_compute. reflexivity.
  - destruct (Hcopy FileExistsError
                (<["/tmp/tmpab12" := Dir TMP_DIR_MODE []]> (disk sample_world))
                (<["/tmp/tmpab12" := Dir TMP_DIR_MODE []]> (disk sample_world))
                eq_refl eq_refl) as [Ht Hres].
    split; [exact Ht |]. apply Hres.
    exists (Dir TMP_DIR_MODE []). split; vm_compute; reflexivity.
Defined.

(** X11: on POSIX an absolute [root] takes the project copy out of the
    workspace: the root path is [root] itself, so [os.makedirs] is called
    on the directory of [root] and the project is copied to [root], a
    place that the final [rmtree] of the temporary directory does not
    cover. *)
Theorem X11_absolute_root_leaves_workspace :
  forall (h : host) (root : string) (ext : Extension) (main_dir : string)
         (tempdir : string) (w : world),
    sys_platform h = Posix ->
    Py.startswith root "/" = true ->
    os_path_join h tempdir ["src"; root] = root
    /\ (build_in h root ext main_dir tempdir w).2 !! 0%nat
       = Some (EvMakedirs (posixpath.dirname root))
    /\ (forall d1,
          os_makedirs h (posixpath.dirname root) (disk w) = (Ok tt, d1) ->
          (build_in h root ext main_dir tempdir w).2 !! 1%nat
          = Some (EvCopytree "." root true)).
Proof.
  intros h root ext main_dir tempdir w Hposix Habs.
  assert (Hroot : os_path_join h tempdir ["src"; root] = root).
  { rewrite (os_path_join_posix h _ _ Hposix). unfold posixpath.join. simpl.
    apply join2_absolute, Habs. }
  assert (Hdir : os_path_dirname h root = posixpath.dirname root)
    by (unfold os_path_dirname; rewrite Hposix; reflexivity).
  split; [exact Hroot |].
  unfold build_in. rewrite Hroot, Hdir. split.
  - unfold bind at 1. rewrite makedirs_run.
    destruct (os_makedirs h _ _) as [[[] | e] d1]; [| reflexivity].
    cbv beta iota zeta.
    destruct (bind _ _ _) as [[r w2] t2]. reflexivity.
  - intros d1 Hmk. unfold bind at 1. rewrite makedirs_run, Hmk.
    cbv beta iota zeta. unfold bind at 1. rewrite copytree_run.
    destruct (shutil_copytree h _ _ _ _) as [[[] | e] d2]; [| reflexivity].
    cbv beta iota zeta.
    destruct (bind _ _ _) as [[r w2] t2]. reflexivity.
Qed.

Lemma X11_absolute_root_leaves_workspace_witness :
  os_path_join sample_host "/tmp/tmpab12" ["src"; "/srv/go/pkg"]
  = "/srv/go/pkg"
  /\ (build_in sample_host "/srv/go/pkg" ext_pkg "pkg/dir" "/tmp/tmpab12"
        sample_world).2 !! 1%nat
     = Some (EvCopytree "." "/srv/go/pkg" true).
Proof.
  destruct (X11_absolute_root_leaves_workspace sample_host "/srv/go/pkg"
              ext_pkg "pkg/dir" "/tmp/tmpab12" sample_world eq_refl eq_refl)
    as (H1 & _ & H3).
  split; [exact H1 |]. apply (H3 (disk sample_world)). reflexivity.
Defined.

Lemma dirname_no_sep (p : string) :
  Py.contains_char posixpath.SEP p = false -> posixpath.dirname p = "".
Proof.
  intros Hp. unfold posixpath.dirname.
  rewrite (head_upto_sep_none p Hp). reflexivity.
Qed.

(** X12: on POSIX, for a source file that lies in the project root (its
    name holds no [/]), the directory of the source is empty and the [go]
    commands run in the root path followed by a separator,
    [<tempdir>/src/<root>/]. *)
Theorem X12_toplevel_source_directory :
  forall (h : host) (root main_file tempdir : string),
    sys_platform h = Posix ->
    Py.contains_char "/" main_file = false ->
    tempdir <> "" -> Py.endswith tempdir "/" = false ->
    root <> "" -> Py.startswith root "/" = false ->
    Py.endswith root "/" = false ->
    os_path_dirname h main_file = ""
    /\ os_path_join h (os_path_join h tempdir ["src"; root])
                    [os_path_dirname h main_file]
       = tempdir +:+ "/src/" +:+ root +:+ "/".
Proof.
  intros h root main_file tempdir Hposix Hm Ht0 Hte Hr0 Hrs Hre.
  assert (Hdir : os_path_dirname h main_file = "").
  { unfold os_path_dirname. rewrite Hposix. apply dirname_no_sep, Hm. }
  split; [exact Hdir |].
  rewrite Hdir, !(os_path_join_posix h _ _ Hposix).
  unfold posixpath.join. simpl.
  rewrite (join2_relative tempdir "src" Ht0 Hte eq_refl).
  change (tempdir +:+ "/" +:+ "src") with (tempdir +:+ "/src").
  rewrite (join2_relative (tempdir +:+ "/src") root); [| | | exact Hrs].
  - rewrite join2_relative; [| | | reflexivity].
    + rewrite !append_assoc. reflexivity.
    + intros Heq. apply append_eq_nil, append_eq_nil in Heq. contradiction.
    + rewrite append_assoc.
      rewrite endswith_append; [| discriminate | reflexivity].
      rewrite endswith_append;
        [| intros Heq; apply append_eq_nil in Heq; contradiction
         | reflexivity].
      rewrite endswith_append; [exact Hre | exact Hr0 | reflexivity].
  - intros Heq. apply append_eq_nil in Heq. discriminate.
  - rewrite endswith_append; [reflexivity | discriminate | reflexivity].
Qed.

Lemma X12_toplevel_source_directory_witness :
  os_path_dirname sample_host "main.go" = ""
  /\ os_path_join sample_host
       (os_path_join sample_host "/tmp/tmpab12" ["src"; "example.com/pkg"])
       [os_path_dirname sample_host "main.go"]
     = "/tmp/tmpab12/src/example.com/pkg/".
Proof.
  apply (X12_toplevel_source_directory sample_host "example.com/pkg"
           "main.go" "/tmp/tmpab12");
    try reflexivity; discriminate.
Defined.

(** ** Repeated registration *)

Lemma wrap_roots_app (a b : list string) (base : cmd_class) :
  wrap_roots (a ++ b) base = wrap_roots a (wrap_roots b base).
Proof.
  induction a as [| r a IH]; [reflexivity |]. simpl. rewrite IH.
  reflexivity.
Qed.

Lemma register_lookup (dist : Distribution) (root : string) :
  cmdclass (register dist root) !! "build_ext"
  = Some (Golang_build_ext
            (default Framework_build_ext (cmdclass dist !! "build_ext")) root)
  /\ forall k, k <> "build_ext" ->
               cmdclass (register dist root) !! k = cmdclass dist !! k.
Proof.
  unfold register, set_build_ext. rewrite lookup_singleton_eq. simpl.
  split; [apply lookup_insert_eq |].
  intros k Hk. apply lookup_insert_ne. congruence.
Qed.

Lemma register_all_lookup (roots : list string) :
  forall dist,
    cmdclass (register_all dist roots) !! "build_ext"
    = match roots with
      | [] => cmdclass dist !! "build_ext"
      | _ => Some (wrap_roots (rev roots)
                     (default Framework_build_ext
                        (cmdclass dist !! "build_ext")))
      end
    /\ forall k, k <> "build_ext" ->
                 cmdclass (register_all dist roots) !! k = cmdclass dist !! k.
Proof.
  induction roots as [| r roots IH]; intros dist; [split; reflexivity |].
  unfold register_all. simpl. fold (register_all (register dist r) roots).
  destruct (IH (register dist r)) as [Hb Hk].
  destruct (register_lookup dist r) as [Hrb Hrk].
  split.
  - rewrite Hb, Hrb. destruct roots as [| r' roots']; [reflexivity |].
    simpl default. f_equal.
    change (rev (r :: r' :: roots')) with (rev (r' :: roots') ++ [r]).
    rewrite wrap_roots_app. reflexivity.
  - intros k Hne. rewrite Hk, Hrk by exact Hne. reflexivity.
Qed.

Lemma build_extension_ignores_base h base base' root ext w :
  has_go_source ext = true ->
  build_extension h base root ext w = build_extension h base' root ext w.
Proof.
  intros Hgo. unfold has_go_source in Hgo. unfold build_extension.
  rewrite Hgo. reflexivity.
Qed.

Lemma mro_wrap_roots (roots : list string) (base : cmd_class) :
  List.length (mro (wrap_roots roots base))
  = (List.length roots + List.length (mro base))%nat.
Proof.
  induction roots as [| r roots IH]; [reflexivity |]. simpl.
  rewrite IH. reflexivity.
Qed.

(** X13: registering the adapter several times stacks one wrapper class
    per registration on what was registered before (the framework's
    [build_ext] when nothing was), and leaves the other commands alone.
    For a target with a [.go] source the outermost wrapper does the build:
    the root of the last registration is the one used, and neither the
    earlier roots nor the class registered before play any part. *)
Theorem X13_last_registration_wins :
  forall (dist : Distribution) (roots : list string) (last_root : string),
    let previous :=
      default Framework_build_ext (cmdclass dist !! "build_ext") in
    let cls := wrap_roots (last_root :: rev roots) previous in
    cmdclass (register_all dist (roots ++ [last_root])) !! "build_ext"
    = Some cls
    /\ (forall k, k <> "build_ext" ->
          cmdclass (register_all dist (roots ++ [last_root])) !! k
          = cmdclass dist !! k)
    /\ List.length (mro cls)
       = (S (List.length roots) + List.length (mro previous))%nat
    /\ forall h external base ext w,
         has_go_source ext = true ->
         class_build_extension h external cls ext w
         = build_extension h base last_root ext w.
Proof.
  intros dist roots last_root previous cls.
  destruct (register_all_lookup (roots ++ [last_root]) dist) as [Hb Hk].
  split; [| split; [exact Hk | split]].
  - rewrite Hb. destruct (roots ++ [last_root]) eqn:Hl.
    + destruct roots; discriminate.
    + rewrite <- Hl, rev_app_distr. reflexivity.
  - subst cls. rewrite mro_wrap_roots. simpl. rewrite length_rev.
    reflexivity.
  - intros h external base ext w Hgo. subst cls. simpl.
    unfold _get_build_extension_method.
    apply build_extension_ignores_base, Hgo.
Qed.

Lemma X13_last_registration_wins_witness :
  cmdclass (register_all dist_wrapped ["x.org/one"; "x.org/two"])
    !! "build_ext"
  = Some (Golang_build_ext
            (Golang_build_ext
               (Golang_build_ext Framework_build_ext "a.b/c") "x.org/one")
            "x.org/two")
  /\ class_build_extension sample_host (fun _ => base_noop)
       (wrap_roots ["x.org/two"; "x.org/one"]
          (Golang_build_ext Framework_build_ext "a.b/c"))
       ext_pkg sample_world
     = build_extension sample_host base_mutates_and_raises "x.org/two"
         ext_pkg sample_world.
Proof.
  destruct (X13_last_registration_wins dist_wrapped ["x.org/one"] "x.org/two")
    as (H1 & _ & _ & H4).
  split; [exact H1 |].
  apply (H4 sample_host (fun _ => base_noop) base_mutates_and_raises ext_pkg
            sample_world).
  reflexivity.
Defined.

Lemma heap_next_swapped_n (n : nat) (w : world) :
  heap_next (swapped_n n w) = (heap_next w + n)%nat.
Proof.
  revert w. induction n as [| n IH]; intros w; simpl; [lia |].
  rewrite IH. simpl. lia.
Qed.

(** X14: a target without [.go] source registered through [n] wrappers
    reaches the class under them: each wrapper hands the call on with the
    same [ext], after swapping [self.compiler] for a fresh deep copy, so
    the innermost class runs on a copy of a copy ([n] new objects); its
    outcome is the outcome of the whole call, and afterwards
    [self.compiler] again refers to the original object. *)
Theorem X14_native_target_through_wrappers :
  forall (h : host) (external : cmd_class -> Extension -> py unit)
         (roots : list string) (base : cmd_class) (ext : Extension)
         (w : world),
    has_go_source ext = false ->
    let n := List.length roots in
    let run := class_build_extension h external (wrap_roots roots base) ext w in
    let inner :=
      class_build_extension h external base ext (swapped_n n w) in
    run.2 = replicate n (EvBaseBuildExtension ext) ++ inner.2
    /\ run.1.1 = inner.1.1
    /\ self_compiler run.1.2
       = match roots with [] => self_compiler inner.1.2 | _ => self_compiler w end
    /\ heap_next (swapped_n n w) = (heap_next w + n)%nat.
Proof.
  intros h external roots base ext w Hgo. cbv zeta.
  split; [| split; [| split; [| apply heap_next_swapped_n]]];
    revert w; induction roots as [| r roots IH]; intros w;
    try reflexivity; simpl; unfold _get_build_extension_method;
    rewrite (build_extension_delegates h _ r ext w Hgo);
    specialize (IH (swapped w));
    destruct (class_build_extension h external (wrap_roots roots base) ext
                (swapped w)) as [[r1 w1] t1]; simpl in *.
  - rewrite IH. reflexivity.
  - exact IH.
  - reflexivity.
Qed.

Lemma X14_native_target_through_wrappers_witness :
  (class_build_extension sample_host (fun _ => base_mutates_and_raises)
     (wrap_roots ["x.org/two"; "x.org/one"] Framework_build_ext)
     ext_native sample_world).2
  = [EvBaseBuildExtension ext_native; EvBaseBuildExtension ext_native]
  /\ self_compiler
       (class_build_extension sample_host (fun _ => base_mutates_and_raises)
          (wrap_roots ["x.org/two"; "x.org/one"] Framework_build_ext)
          ext_native sample_world).1.2 = 0%nat.
Proof.
  destruct (X14_native_target_through_wrappers sample_host
              (fun _ => base_mutates_and_raises) ["x.org/two"; "x.org/one"]
              Framework_build_ext ext_native sample_world eq_refl)
    as (H1 & _ & H3 & _).
  split; [exact H1 | exact H3].
Defined.

(** ** Edges of the scoped workspace *)

(** X15: the scope never runs its body without a temporary directory: if
    [mkdtemp] fails, the error is raised and nothing else happens.  And an
    error of the cleanup takes the place of whatever the body produced,
    be it a result or an exception. *)
Theorem X15_scope_edges :
  forall (h : host) (A : Type) (body : string -> py A) (w : world),
    let tempdir := mkdtemp_name h (disk w) in
    let entered := set_disk (<[tempdir := Dir TMP_DIR_MODE []]> (disk w)) w in
    (is_Some (disk w !! tempdir) ->
     _tmpdir h body w = (Raise FileExistsError, w, []))
    /\ (disk w !! tempdir = None ->
        forall e,
          (shutil_rmtree h tempdir err (body tempdir entered).1.2).1.1
          = Raise e ->
          (_tmpdir h body w).1.1 = Raise e).
Proof.
  intros h A body w tempdir entered. split.
  - intros [n Hn]. unfold _tmpdir, bind, mkdtemp. fold tempdir.
    rewrite Hn. reflexivity.
  - intros Hfresh e Hrm. rewrite (tmpdir_run h body w Hfresh). cbv zeta.
    fold tempdir. fold entered.
    destruct (body tempdir entered) as [[r w1] t1]. simpl in Hrm.
    destruct (shutil_rmtree h tempdir err w1) as [[rc w2] t2].
    simpl in *. rewrite Hrm. reflexivity.
Qed.

Lemma X15_scope_edges_witness :
  (_tmpdir sample_host body_returns_leaving_cache sample_world).1.1
  = Raise PermissionError.
Proof.
  destruct (X15_scope_edges sample_host string body_returns_leaving_cache
              sample_world) as [_ Hmask].
  apply Hmask; vm_compute; reflexivity.
Defined.

(** ** When the cleanup succeeds *)

Lemma child_clears_listable (m : Z) (es : list (string * node)) :
  forallb (child_clears m) es
  = match es with [] => true | _ => may_unlink_in m end
    && forallb (fun e => posix_listable e.2) es.
Proof.
  induction es as [| [nm c] es IH]; [reflexivity |].
  cbn [forallb]. rewrite IH.
  unfold child_clears, posix_clears, may_unlink_in. cbn [snd].
  destruct (has_bit m S_IWRITE && has_bit m S_IEXEC);
    destruct c as [cm | cm ces]; destruct es; reflexivity.
Qed.

Lemma posix_listable_dir (m : Z) (es : list (string * node)) :
  posix_listable (Dir m es)
  = has_bit m S_IREAD && forallb (child_clears m) es.
Proof.
  rewrite child_clears_listable. unfold may_unlink_in.
  cbn [posix_listable]. rewrite andb_assoc. reflexivity.
Qed.

Section PosixRemoval.
Variable o : os_view.
Hypothesis posix : os_platform o = Posix.
Variable onerror : handler.

(** The callback never makes up for an operation that failed. *)
Hypothesis futile_unlink :
  forall dmode e x e',
    os_unlink o dmode e = (Raise x, e') ->
    is_ok (onerror os_unlink x o dmode e').1 = false.
Hypothesis futile_rmdir :
  forall dmode e x e',
    os_rmdir o dmode e = (Raise x, e') ->
    is_ok (onerror os_rmdir x o dmode e').1 = false.
Hypothesis futile_lstat :
  forall dmode e x e',
    os_lstat o dmode e = (Raise x, e') ->
    is_ok (onerror os_lstat x o dmode e').1 = false.
Hypothesis futile_open :
  forall dmode e x, is_ok (onerror os_open x o dmode e).1 = false.
Hypothesis futile_scandir :
  forall dmode m x,
    is_ok (onerror os_scandir x o dmode (Some (File m))).1 = false.

Lemma posix_may_remove (dmode : Z) (n : node) :
  may_remove o dmode n = superuser o || may_unlink_in dmode.
Proof. unfold may_remove. rewrite posix. reflexivity. Qed.

Lemma posix_guarded_unlink (m cm : Z) :
  guarded o onerror os_unlink m (Some (File cm)) = (Ok tt, None)
  /\ may_remove o m (File cm) = true
  \/ is_ok (guarded o onerror os_unlink m (Some (File cm))).1 = false
     /\ may_remove o m (File cm) = false.
Proof.
  unfold guarded, guarded_as.
  destruct (os_unlink o m (Some (File cm))) as [[[] | x] e'] eqn:Hact.
  - left. unfold os_unlink in Hact.
    destruct (may_remove o m (File cm)); [| discriminate].
    injection Hact as <-. auto.
  - right. split; [eapply futile_unlink, Hact |].
    unfold os_unlink in Hact.
    destruct (may_remove o m (File cm)); [discriminate | reflexivity].
Qed.

Lemma posix_guarded_rmdir (dmode m : Z) :
  guarded o onerror os_rmdir dmode (Some (Dir m [])) = (Ok tt, None)
  /\ may_remove o dmode (Dir m []) = true
  \/ is_ok (guarded o onerror os_rmdir dmode (Some (Dir m []))).1 = false
     /\ may_remove o dmode (Dir m []) = false.
Proof.
  unfold guarded, guarded_as.
  destruct (os_rmdir o dmode (Some (Dir m []))) as [[[] | x] e'] eqn:Hact.
  - left. unfold os_rmdir in Hact.
    destruct (may_remove o dmode (Dir m [])); [| discriminate].
    injection Hact as <-. auto.
  - right. split; [eapply futile_rmdir, Hact |].
    unfold os_rmdir in Hact.
    destruct (may_remove o dmode (Dir m [])); [discriminate | reflexivity].
Qed.

Lemma posix_file_fails (dmode m : Z) :
  is_ok (rmtree_safe_fd o onerror dmode (File m)).1 = false.
Proof.
  cbn [rmtree_safe_fd].
  destruct (os_lstat o dmode (Some (File m))) as [[[] | x] e1] eqn:H1;
    [| eapply futile_lstat, H1].
  destruct (os_open_rdonly o dmode (Some (File m))) as [[[] | y] e2];
    [| apply futile_open].
  unfold after_failed_listing.
  pose proof (futile_scandir dmode m NotADirectoryError) as Hf.
  destruct (onerror os_scandir _ o dmode _) as [[[] | z] e3];
    [discriminate | reflexivity].
Qed.

(** *** An ordinary user *)

Section Unprivileged.
Hypothesis unprivileged_user : superuser o = false.

Lemma unprivileged_may_remove (dmode : Z) (n : node) :
  may_unlink_in dmode = may_remove o dmode n.
Proof. rewrite posix_may_remove, unprivileged_user. reflexivity. Qed.

Lemma posix_walk (m : Z) (es : list (string * node)) :
  Forall (fun e => forall d,
            rmtree_safe_fd o onerror d e.2 = (Ok tt, None)
            /\ posix_clears d e.2 = true
            \/ is_ok (rmtree_safe_fd o onerror d e.2).1 = false
               /\ posix_clears d e.2 = false) es ->
  walk_with o onerror (rmtree_safe_fd o onerror m) m es = (Ok tt, [])
  /\ forallb (child_clears m) es = true
  \/ is_ok (walk_with o onerror (rmtree_safe_fd o onerror m) m es).1 = false
     /\ forallb (child_clears m) es = false.
Proof.
  induction 1 as [| [nm c] es Hc _ IH]; [left; split; reflexivity |].
  rewrite walk_with_cons. cbn [forallb]. unfold child_clears at 1 3.
  cbn [snd] in *.
  destruct c as [cm | cm ces].
  - rewrite (unprivileged_may_remove m (File cm)).
    destruct (posix_guarded_unlink m cm) as [[-> ->] | [Hf ->]].
    + destruct IH as [[-> ->] | [Hw ->]]; [left; auto |].
      right. destruct (walk_with _ _ _ _ _) as [[[] | x] rest];
        [discriminate | auto].
    + right. destruct (guarded _ _ _ _ _) as [[[] | x] c'];
        [discriminate | auto].
  - destruct (Hc m) as [[-> ->] | [Hf ->]].
    + destruct IH as [[-> ->] | [Hw ->]]; [left; auto |].
      right. destruct (walk_with _ _ _ _ _) as [[[] | x] rest];
        [discriminate | auto].
    + right. destruct (rmtree_safe_fd _ _ _ _) as [[[] | x] c'];
        [discriminate | auto].
Qed.

Lemma posix_rmtree_safe_fd (n : node) :
  forall dmode,
    rmtree_safe_fd o onerror dmode n = (Ok tt, None)
    /\ posix_clears dmode n = true
    \/ is_ok (rmtree_safe_fd o onerror dmode n).1 = false
       /\ posix_clears dmode n = false.
Proof.
  induction n as [m | m es IH] using node_nested_ind; intros dmode.
  { right. split; [apply posix_file_fails | reflexivity]. }
  cbn [rmtree_safe_fd]. unfold posix_clears. fold (may_unlink_in dmode).
  rewrite posix_listable_dir.
  unfold os_lstat, os_open_rdonly, may_search, may_list, node_mode.
  rewrite posix, unprivileged_user. cbn [orb].
  destruct (has_bit dmode S_IEXEC) eqn:Hx.
  2: { right. split.
       - apply (futile_lstat dmode (Some (Dir m es)) PermissionError).
         unfold os_lstat, may_search. rewrite posix, unprivileged_user, Hx.
         reflexivity.
       - unfold may_unlink_in. rewrite Hx, andb_false_r. reflexivity. }
  cbn [andb]. destruct (has_bit m S_IREAD) eqn:Hr.
  2: { right. split; [apply futile_open |]. apply andb_false_r. }
  cbn [andb]. destruct (posix_walk m es IH) as [[-> ->] | [Hw ->]].
  - rewrite andb_true_r.
    rewrite (unprivileged_may_remove dmode (Dir m [])).
    destruct (posix_guarded_rmdir dmode m) as [[-> ->] | [Hf ->]];
      [left | right]; auto.
  - right. rewrite andb_false_r.
    destruct (walk_with _ _ _ _ _) as [[[] | x] rest]; [discriminate | auto].
Qed.
End Unprivileged.

(** *** The superuser *)

Section Superuser.
Hypothesis root : superuser o = true.

Lemma root_rmtree_safe_fd (n : node) :
  forall dmode,
    is_dir n = true -> rmtree_safe_fd o onerror dmode n = (Ok tt, None).
Proof.
  induction n as [m | m es IH] using node_nested_ind; intros dmode Hdir;
    [discriminate |].
  cbn [rmtree_safe_fd].
  unfold os_lstat, os_open_rdonly, may_search, may_list.
  rewrite posix, root. cbn [orb].
  assert (Hwalk : walk_with o onerror (rmtree_safe_fd o onerror m) m es
                  = (Ok tt, [])).
  { clear Hdir. induction IH as [| [nm c] es Hc _ IHes]; [reflexivity |].
    rewrite walk_with_cons, IHes. cbn [snd] in Hc.
    destruct c as [cm | cm ces].
    - unfold guarded, guarded_as, os_unlink, may_remove.
      rewrite posix, root. reflexivity.
    - rewrite Hc by reflexivity. reflexivity. }
  rewrite Hwalk. unfold guarded, guarded_as, os_rmdir, may_remove.
  rewrite posix, root. reflexivity.
Qed.
End Superuser.

(** The cleanup succeeds on a directory that can be cleared, and for the
    superuser on every directory; on nothing else. *)
Lemma posix_rmtree_slot (dmode : Z) (e : slot) :
  is_ok (rmtree_slot o onerror dmode e).1 = true
  <-> exists n,
        e = Some n
        /\ (if superuser o then is_dir n else posix_clears dmode n) = true.
Proof.
  unfold rmtree_slot, use_fd_functions. rewrite posix.
  destruct e as [n |].
  2: { rewrite (futile_lstat dmode None FileNotFoundError None eq_refl).
       split; [discriminate | intros (n & [=] & _)]. }
  destruct (superuser o) eqn:Hroot.
  - destruct n as [m | m es].
    + rewrite posix_file_fails.
      split; [discriminate | intros (n & [= <-] & [=])].
    + rewrite (root_rmtree_safe_fd Hroot (Dir m es) dmode eq_refl).
      split; [eauto | reflexivity].
  - destruct (posix_rmtree_safe_fd Hroot n dmode) as [[-> Hc] | [-> Hc]].
    + split; [eauto | reflexivity].
    + split; [discriminate | intros (n' & [= <-] & Hc')]. congruence.
Qed.
End PosixRemoval.

Lemma is_ok_unit (r : result unit) : r = Ok tt <-> is_ok r = true.
Proof. destruct r as [[] | e]; split; (reflexivity || discriminate). Qed.

Lemma err_futile_unlink (o : os_view) :
  os_platform o = Posix ->
  forall dmode e x e',
    os_unlink o dmode e = (Raise x, e') ->
    is_ok (err os_unlink x o dmode e').1 = false.
Proof.
  intros Hp dmode e x e'. unfold os_unlink, err, os_chmod.
  destruct e as [[m | m es] |].
  - destruct (may_remove o dmode (File m)) eqn:Hrm; [discriminate |].
    intros [= _ <-]. destruct (may_search o dmode); [| reflexivity].
    revert Hrm. unfold may_remove. rewrite Hp. intros ->. reflexivity.
  - intros [= _ <-]. destruct (may_search o dmode); reflexivity.
  - intros [= _ <-]. reflexivity.
Qed.

Lemma err_futile_rmdir (o : os_view) :
  os_platform o = Posix ->
  forall dmode e x e',
    os_rmdir o dmode e = (Raise x, e') ->
    is_ok (err os_rmdir x o dmode e').1 = false.
Proof.
  intros Hp dmode e x e'. unfold os_rmdir, err, os_chmod.
  destruct e as [[m | m [| c es]] |].
  - intros [= _ <-]. destruct (may_search o dmode); reflexivity.
  - destruct (may_remove o dmode (Dir m [])) eqn:Hrm; [discriminate |].
    intros [= _ <-]. destruct (may_search o dmode); [| reflexivity].
    revert Hrm. unfold may_remove. rewrite Hp. intros ->. reflexivity.
  - intros [= _ <-]. destruct (may_search o dmode); reflexivity.
  - intros [= _ <-]. reflexivity.
Qed.

Lemma err_futile_scandir_file (o : os_view) dmode m x :
  is_ok (err os_scandir x o dmode (Some (File m))).1 = false.
Proof. apply err_scandir_fails. discriminate. Qed.

(** X16: on POSIX the cleanup of the scoped workspace succeeds exactly on
    these trees.  For the superuser: every directory.  For any other user:
    a directory in which every directory can be listed and every directory
    that is not empty allows removing its entries.  The same holds for
    [shutil.rmtree] without a callback: on POSIX the callback [err] never
    turns a failing cleanup into a successful one. *)
Theorem X16_posix_cleanup_exactly_when :
  forall (h : host) (t : string) (w : world),
    sys_platform h = Posix ->
    ((shutil_rmtree h t err w).1.1 = Ok tt
     <-> exists n,
           disk w !! t = Some n
           /\ (if (os_geteuid h =? 0)%nat then is_dir n
               else posix_clears TMP_PARENT_MODE n) = true)
    /\ ((shutil_rmtree h t reraise w).1.1 = Ok tt
        <-> (shutil_rmtree h t err w).1.1 = Ok tt).
Proof.
  intros h t w Hposix.
  assert (Herr : forall dmode e,
             is_ok (rmtree_slot (host_os h) err dmode e).1 = true
             <-> exists n,
                   e = Some n
                   /\ (if superuser (host_os h) then is_dir n
                       else posix_clears dmode n) = true).
  { apply posix_rmtree_slot; try exact Hposix.
    - apply err_futile_unlink, Hposix.
    - apply err_futile_rmdir, Hposix.
    - intros dmode e x e'. apply err_lstat_fails.
    - intros dmode e x. apply err_open_fails.
    - intros dmode m x. apply err_futile_scandir_file. }
  assert (Hre : forall dmode e,
             is_ok (rmtree_slot (host_os h) reraise dmode e).1 = true
             <-> exists n,
                   e = Some n
                   /\ (if superuser (host_os h) then is_dir n
                       else posix_clears dmode n) = true).
  { apply posix_rmtree_slot; try exact Hposix; reflexivity. }
  assert (Hsu : superuser (host_os h) = (os_geteuid h =? 0)%nat).
  { unfold superuser, host_os. simpl. rewrite Hposix. reflexivity. }
  rewrite Hsu in Herr, Hre.
  assert (Hrun : forall onerror,
             (shutil_rmtree h t onerror w).1.1 = Ok tt
             <-> is_ok (rmtree_slot (host_os h) onerror TMP_PARENT_MODE
                          (disk w !! t)).1 = true).
  { intros onerror. unfold shutil_rmtree.
    destruct (rmtree_slot _ _ _ _) as [r e]. apply is_ok_unit. }
  split.
  - rewrite Hrun, Herr. split; intros (n & Hn & Hc); eauto.
  - rewrite !Hrun, Herr, Hre. reflexivity.
Qed.

Lemma X16_posix_cleanup_exactly_when_witness :
  ~ (shutil_rmtree sample_host "/tmp/tmpab12" err
       (set_disk {[ "/tmp/tmpab12" := module_cache ]} sample_world)).1.1
    = Ok tt.
Proof.
  destruct (X16_posix_cleanup_exactly_when sample_host "/tmp/tmpab12"
              (set_disk {[ "/tmp/tmpab12" := module_cache ]} sample_world)
              eq_refl) as [[Hif _] _].
  intros Hok. destruct (Hif Hok) as (n & Hn & Hc).
  vm_compute in Hn. injection Hn as <-. vm_compute in Hc. discriminate.
Defined.

(** ** Removal on Windows: what the callback is for *)

Section WindowsRemoval.
Variable o : os_view.
Hypothesis windows : os_platform o = Win32.

Lemma win32_guarded_unlink (m cm : Z) :
  guarded o reraise os_unlink m (Some (File cm))
  = if has_bit cm S_IWRITE then (Ok tt, None)
    else (Raise PermissionError, Some (File cm)).
Proof.
  unfold guarded, guarded_as, reraise, os_unlink, may_remove, node_mode.
  rewrite windows. destruct (has_bit cm S_IWRITE); reflexivity.
Qed.

Lemma win32_guarded_rmdir (dmode m : Z) :
  guarded o reraise os_rmdir dmode (Some (Dir m []))
  = if has_bit m S_IWRITE then (Ok tt, None)
    else (Raise PermissionError, Some (Dir m [])).
Proof.
  unfold guarded, guarded_as, reraise, os_rmdir, may_remove, node_mode.
  rewrite windows. destruct (has_bit m S_IWRITE); reflexivity.
Qed.

Lemma win32_walk (m : Z) (es : list (string * node)) :
  Forall (fun e => forall d,
            is_dir e.2 = true ->
            rmtree_node o reraise d e.2 = (Ok tt, None)
            /\ all_writable e.2 = true
            \/ is_ok (rmtree_node o reraise d e.2).1 = false
               /\ all_writable e.2 = false) es ->
  walk_with o reraise (rmtree_node o reraise m) m es = (Ok tt, [])
  /\ forallb (fun e => all_writable e.2) es = true
  \/ is_ok (walk_with o reraise (rmtree_node o reraise m) m es).1 = false
     /\ forallb (fun e => all_writable e.2) es = false.
Proof.
  induction 1 as [| [nm c] es Hc _ IH]; [left; split; reflexivity |].
  rewrite walk_with_cons. cbn [forallb snd] in *.
  destruct c as [cm | cm ces].
  - rewrite win32_guarded_unlink. cbn [all_writable].
    destruct (has_bit cm S_IWRITE); [| right; auto].
    destruct IH as [[-> ->] | [Hw ->]]; [left; auto |].
    right. destruct (walk_with _ _ _ _ _) as [[[] | x] rest];
      [discriminate | auto].
  - destruct (Hc m eq_refl) as [[-> ->] | [Hf ->]].
    + destruct IH as [[-> ->] | [Hw ->]]; [left; auto |].
      right. destruct (walk_with _ _ _ _ _) as [[[] | x] rest];
        [discriminate | auto].
    + right. destruct (rmtree_node _ _ _ _) as [[[] | x] c'];
        [discriminate | auto].
Qed.

Lemma win32_rmtree_node (n : node) :
  forall dmode,
    is_dir n = true ->
    rmtree_node o reraise dmode n = (Ok tt, None)
    /\ all_writable n = true
    \/ is_ok (rmtree_node o reraise dmode n).1 = false
       /\ all_writable n = false.
Proof.
  induction n as [m | m es IH] using node_nested_ind; intros dmode Hdir;
    [discriminate |].
  cbn [rmtree_node all_writable]. unfold os_scandir, may_list.
  rewrite windows.
  destruct (win32_walk m es IH) as [[-> ->] | [Hw ->]].
  - rewrite win32_guarded_rmdir, andb_true_r.
    destruct (has_bit m S_IWRITE); [left | right]; auto.
  - right. rewrite andb_false_r.
    destruct (walk_with _ _ _ _ _) as [[[] | x] rest]; [discriminate | auto].
Qed.
End WindowsRemoval.

(** Without a callback a removal that reports success has removed the
    entry. *)
Lemma reraise_ok_gone (o : os_view) (dmode : Z) (e e' : slot) :
  rmtree_slot o reraise dmode e = (Ok tt, e') -> e' = None.
Proof.
  destruct (os_platform o) eqn:Hp.
  - intros Hok.
    assert (His : is_ok (rmtree_slot o reraise dmode e).1 = true)
      by (rewrite Hok; reflexivity).
    apply posix_rmtree_slot in His as (n & -> & Hc);
      [| exact Hp | reflexivity ..].
    revert Hok. unfold rmtree_slot, use_fd_functions. rewrite Hp.
    destruct (superuser o) eqn:Hroot.
    + rewrite (root_rmtree_safe_fd o Hp reraise Hroot n dmode Hc).
      congruence.
    + destruct (posix_rmtree_safe_fd o Hp reraise) with (n := n)
        (dmode := dmode) as [[-> _] | [_ Hc']];
        try reflexivity; try exact Hroot; congruence.
  - unfold rmtree_slot, use_fd_functions. rewrite Hp.
    destruct e as [[m | m es] |]; [discriminate | | discriminate].
    destruct (win32_rmtree_node o Hp (Dir m es) dmode eq_refl)
      as [[-> _] | [Hf _]]; [congruence |].
    intros Hok. rewrite Hok in Hf. discriminate.
Qed.

(** X17: on Windows [shutil.rmtree] without a callback removes a directory
    exactly when no entry of the tree is read-only, while with the callback
    [err] of the scoped workspace it removes every directory: the callback
    is what lets the cleanup get rid of read-only entries there. *)
Theorem X17_windows_needs_the_callback :
  forall (o : os_view) (dmode : Z) (n : node),
    os_platform o = Win32 ->
    is_dir n = true ->
    rmtree_node o err dmode n = (Ok tt, None)
    /\ ((rmtree_node o reraise dmode n).1 = Ok tt
        <-> all_writable n = true).
Proof.
  intros o dmode n Hwin Hdir. split.
  - apply rmtree_node_removes; [rewrite Hwin; discriminate |].
    rewrite Hwin. destruct n; [discriminate | reflexivity].
  - destruct (win32_rmtree_node o Hwin n dmode Hdir) as [[-> ->] | [Hf ->]];
      [tauto |].
    destruct (rmtree_node o reraise dmode n) as [[[] | x] s];
      [discriminate |]. simpl. split; discriminate.
Qed.

Lemma X17_windows_needs_the_callback_witness :
  rmtree_node windows_user err 493 module_cache = (Ok tt, None)
  /\ ((rmtree_node windows_user reraise 493 module_cache).1 = Ok tt
      <-> all_writable module_cache = true).
Proof.
  apply (X17_windows_needs_the_callback windows_user 493 module_cache);
    reflexivity.
Defined.

(** ** [build_manylinux_wheels] *)

Lemma sorted_items_empty : sorted_items ∅ = [].
Proof. unfold sorted_items. rewrite map_to_list_empty. reflexivity. Qed.

Lemma dict_override_empty (base : gmap string string) :
  dict_override base ∅ = base.
Proof. unfold dict_override. apply (left_id_L ∅ (∪)). Qed.

(** A call with [env={}] hands the child the environment of the process. *)
Lemma check_call_plain h cmd cwd w :
  _check_call h cmd cwd ∅ w
  = let '(r, d) := subprocess_check_call h cmd cwd (environ w) (disk w) in
    (r, set_disk d w,
     [EvStderr ("$ " +:+ Py.join " " (map shlex.quote cmd));
      EvCheckCall cmd cwd (Some (environ w))]).
Proof.
  rewrite check_call_run. cbv zeta.
  rewrite sorted_items_empty, dict_override_empty. reflexivity.
Qed.

Lemma clear_dist_trace h p (b : bool) w :
  ((if b then rmtree_in_cwd h p "dist" else ret tt) w).2
  = if b then [EvRmtree "dist"] else [].
Proof.
  destruct b; [| reflexivity]. unfold rmtree_in_cwd.
  destruct (rmtree_slot _ _ _ _). reflexivity.
Qed.

Lemma clear_dist_ok h p w u w1 t1 :
  (if bool_decide (is_Some (disk w !! "dist"))
   then rmtree_in_cwd h p "dist" else ret tt) w = (Ok u, w1, t1) ->
  disk w1 !! "dist" = None /\ environ w1 = environ w.
Proof.
  destruct (bool_decide (is_Some (disk w !! "dist"))) eqn:Hd.
  - unfold rmtree_in_cwd.
    destruct (rmtree_slot _ _ _ _) as [[[] | x] e] eqn:Hrm; [| discriminate].
    apply reraise_ok_gone in Hrm as ->. intros [= _ <- _].
    split; [apply lookup_delete_eq | reflexivity].
  - intros [= _ <- _]. split; [| reflexivity].
    apply bool_decide_eq_false in Hd. apply eq_None_not_Some, Hd.
Qed.

(** The run of the helper, stage by stage. *)
Lemma wheels_run h p args w :
  build_manylinux_wheels h p args w
  = if negb (bool_decide (is_Some (disk w !! "setup.py")))
    then (Raise (OtherError "AssertionError"), w, [])
    else
      let '(ra, w1, t1) :=
        (if bool_decide (is_Some (disk w !! "dist"))
         then rmtree_in_cwd h p "dist" else ret tt) w in
      match ra with
      | Raise e => (Raise e, w1, t1)
      | Ok _ =>
          let '(rb, d2) := os_makedirs h "dist" (disk w1) in
          match rb with
          | Raise e => (Raise e, set_disk d2 w1, t1 ++ [EvMakedirs "dist"])
          | Ok _ =>
              let '(rc, d3) :=
                subprocess_check_call h cmd_sdist "." (environ w1) d2 in
              let t3 :=
                [EvMakedirs "dist";
                 EvStderr "$ python setup.py sdist";
                 EvCheckCall cmd_sdist "." (Some (environ w1))] in
              match rc with
              | Raise e => (Raise e, set_disk d3 w1, t1 ++ t3)
              | Ok _ =>
                  match sys_platform h with
                  | Win32 =>
                      (Raise (OtherError "AttributeError"), set_disk d3 w1,
                       t1 ++ t3)
                  | Posix =>
                      let cmd :=
                        cmd_docker h
                          (pretty (os_getuid p) +:+ ":"
                           +:+ pretty (os_getgid p)) args in
                      let '(re, d4) :=
                        subprocess_check_call h cmd "." (environ w1) d3 in
                      (match re with
                       | Ok _ => Ok (BANNER, 0)
                       | Raise e => Raise e
                       end,
                       set_disk d4 w1,
                       t1 ++ t3
                          ++ [EvStderr
                                ("$ " +:+ Py.join " " (map shlex.quote cmd));
                              EvCheckCall cmd "." (Some (environ w1))])
                  end
              end
          end
      end.
Proof.
  unfold build_manylinux_wheels, path_exists.
  unfold bind at 1. unfold gets at 1.
  destruct (bool_decide (is_Some (disk w !! "setup.py"))); [| reflexivity].
  cbn [negb]. unfold bind at 1. unfold gets at 1.
  unfold bind at 1.
  destruct ((if bool_decide (is_Some (disk w !! "dist"))
             then rmtree_in_cwd h p "dist" else ret tt) w)
    as [[[[] | e] w1] t1]; [| reflexivity].
  unfold bind at 1. rewrite makedirs_run.
  destruct (os_makedirs h "dist" (disk w1)) as [[[] | e] d2]; [| reflexivity].
  unfold bind at 1. rewrite check_call_plain. cbn [disk environ set_disk].
  destruct (subprocess_check_call h cmd_sdist "." (environ w1) d2)
    as [[[] | e] d3]; [| reflexivity].
  unfold bind at 1. unfold user_ids.
  destruct (sys_platform h); [| reflexivity].
  unfold ret at 1. unfold bind at 1. rewrite check_call_plain.
  cbn [disk environ set_disk].
  destruct (subprocess_check_call h _ "." (environ w1) d3)
    as [[[] | e] d4]; reflexivity.
Qed.

(** X18: a run of [build_manylinux_wheels] that returns has done all of
    this, in this order: removed a [dist] left from before, created [dist],
    run [python setup.py sdist] and then the [docker run] command, both in
    the current directory and both with the environment of the process
    itself ([env={}] overrides nothing); it printed the banner and returned
    0.  It returns on a Unix host only, and leaves [os.environ] as it
    was. *)
Theorem X18_wheels_success :
  forall (h : host) (p : process) (args : Namespace) (w : world)
         (v : list string * Z),
    (build_manylinux_wheels h p args w).1.1 = Ok v ->
    let cmd :=
      cmd_docker h (pretty (os_getuid p) +:+ ":" +:+ pretty (os_getgid p))
        args in
    v = (BANNER, 0)
    /\ sys_platform h = Posix
    /\ is_Some (disk w !! "setup.py")
    /\ environ (build_manylinux_wheels h p args w).1.2 = environ w
    /\ (build_manylinux_wheels h p args w).2
       = (if bool_decide (is_Some (disk w !! "dist"))
          then [EvRmtree "dist"] else [])
         ++ [EvMakedirs "dist";
             EvStderr "$ python setup.py sdist";
             EvCheckCall cmd_sdist "." (Some (environ w));
             EvStderr ("$ " +:+ Py.join " " (map shlex.quote cmd));
             EvCheckCall cmd "." (Some (environ w))].
Proof.
  intros h p args w v. rewrite wheels_run.
  destruct (bool_decide (is_Some (disk w !! "setup.py"))) eqn:Hs;
    [| discriminate].
  apply bool_decide_eq_true in Hs. cbn [negb].
  pose proof (clear_dist_trace h p
                (bool_decide (is_Some (disk w !! "dist"))) w) as Ht.
  destruct ((if bool_decide (is_Some (disk w !! "dist"))
             then rmtree_in_cwd h p "dist" else ret tt) w)
    as [[[u | e] w1] t1] eqn:Hclear; [| discriminate].
  apply clear_dist_ok in Hclear as [_ He]. simpl in Ht. subst t1.
  destruct (os_makedirs h "dist" (disk w1)) as [[[] | e] d2];
    [| discriminate].
  destruct (subprocess_check_call h cmd_sdist "." (environ w1) d2)
    as [[[] | e] d3]; [| discriminate].
  destruct (sys_platform h); [| discriminate]. cbv zeta.
  destruct (subprocess_check_call h _ "." (environ w1) d3)
    as [[[] | e] d4]; [| discriminate].
  simpl. rewrite He. intros [= <-]. auto.
Qed.

Lemma X18_wheels_success_witness :
  (build_manylinux_wheels project_host sample_process DEFAULT_ARGS
     project_world).2
  = [EvRmtree "dist";
     EvMakedirs "dist";
     EvStderr "$ python setup.py sdist";
     EvCheckCall cmd_sdist "." (Some (environ project_world));
     EvStderr
       ("$ " +:+ Py.join " "
          (map shlex.quote
             (cmd_docker project_host "1000:1000" DEFAULT_ARGS)));
     EvCheckCall (cmd_docker project_host "1000:1000" DEFAULT_ARGS) "."
       (Some (environ project_world))].
Proof.
  destruct (X18_wheels_success project_host sample_process DEFAULT_ARGS
              project_world (BANNER, 0))
    as (_ & _ & _ & _ & Htrace); [vm_compute; reflexivity |].
  exact Htrace.
Defined.

(** X19: [build_manylinux_wheels] starts no other child than
    [python setup.py sdist] and the [docker run] command, each in the
    current directory with the environment of the process itself, and
    none unless [setup.py] exists and [os.makedirs] has just created a
    [dist] that was not there before (a [dist] of an earlier run is gone by
    then).  The container is started on a Unix host only, and only after
    [sdist] has exited with status 0. *)
Theorem X19_wheels_children_gated :
  forall (h : host) (p : process) (args : Namespace) (w : world)
         (cmd : list string) (cwd : string)
         (env : option (gmap string string)),
    In (EvCheckCall cmd cwd env) (build_manylinux_wheels h p args w).2 ->
    is_Some (disk w !! "setup.py")
    /\ cwd = "." /\ env = Some (environ w)
    /\ exists d0 d1,
         d0 !! "dist" = None
         /\ os_makedirs h "dist" d0 = (Ok tt, d1)
         /\ (cmd = cmd_sdist
             \/ sys_platform h = Posix
                /\ cmd = cmd_docker h
                           (pretty (os_getuid p) +:+ ":"
                            +:+ pretty (os_getgid p)) args
                /\ exists d2,
                     subprocess_check_call h cmd_sdist "." (environ w) d1
                     = (Ok tt, d2)).
Proof.
  intros h p args w cmd cwd env. rewrite wheels_run.
  destruct (bool_decide (is_Some (disk w !! "setup.py"))) eqn:Hs;
    [| intros []].
  apply bool_decide_eq_true in Hs. cbn [negb].
  pose proof (clear_dist_trace h p
                (bool_decide (is_Some (disk w !! "dist"))) w) as Ht.
  assert (Hquiet : forall t1,
             t1 = (if bool_decide (is_Some (disk w !! "dist"))
                   then [EvRmtree "dist"] else []) ->
             ~ In (EvCheckCall cmd cwd env) t1).
  { intros t1 ->. destruct (bool_decide _); simpl; [| tauto].
    intros [Heq | []]. discriminate. }
  destruct ((if bool_decide (is_Some (disk w !! "dist"))
             then rmtree_in_cwd h p "dist" else ret tt) w)
    as [[[u | e] w1] t1] eqn:Hclear; simpl in Ht;
    [| intros Hin; destruct (Hquiet t1 Ht Hin)].
  apply clear_dist_ok in Hclear as [Hgone He]. rewrite He.
  destruct (os_makedirs h "dist" (disk w1)) as [[[] | e] d2] eqn:Hmk.
  2: { simpl. intros [Hin | [Heq | []]]%in_app_or;
         [destruct (Hquiet t1 Ht Hin) | discriminate]. }
  destruct (subprocess_check_call h cmd_sdist "." (environ w) d2)
    as [[[] | e] d3] eqn:Hsd.
  2: { simpl. intros [Hin | [Heq | [Heq | [Heq | []]]]]%in_app_or;
         [destruct (Hquiet t1 Ht Hin) | discriminate | discriminate |].
       injection Heq as <- <- <-. repeat split; [exact Hs |].
       exists (disk w1), d2. auto. }
  destruct (sys_platform h) eqn:Hplat.
  2: { simpl. intros [Hin | [Heq | [Heq | [Heq | []]]]]%in_app_or;
         [destruct (Hquiet t1 Ht Hin) | discriminate | discriminate |].
       injection Heq as <- <- <-. repeat split; [exact Hs |].
       exists (disk w1), d2. auto. }
  cbv zeta.
  destruct (subprocess_check_call h _ "." (environ w) d3) as [re d4].
  simpl.
  intros [Hin | [Heq | [Heq | [Heq | [Heq | [Heq | []]]]]]]%in_app_or;
    [destruct (Hquiet t1 Ht Hin) | discriminate | discriminate | |
     discriminate |].
  - injection Heq as <- <- <-. repeat split; [exact Hs |].
    exists (disk w1), d2. auto.
  - injection Heq as <- <- <-. repeat split; [exact Hs |].
    exists (disk w1), d2. split; [exact Hgone |]. split; [exact Hmk |].
    right. split; [reflexivity |]. split; [reflexivity |]. eauto.
Qed.

Lemma X19_wheels_children_gated_witness :
  exists d0 d1,
    d0 !! "dist" = None
    /\ os_makedirs project_host "dist" d0 = (Ok tt, d1)
    /\ (cmd_docker project_host "1000:1000" DEFAULT_ARGS = cmd_sdist
        \/ sys_platform project_host = Posix
           /\ cmd_docker project_host "1000:1000" DEFAULT_ARGS
              = cmd_docker project_host
                  (pretty (os_getuid sample_process) +:+ ":"
                   +:+ pretty (os_getgid sample_process)) DEFAULT_ARGS
           /\ exists d2,
                subprocess_check_call project_host cmd_sdist "."
                  (environ project_world) d1 = (Ok tt, d2)).
Proof.
  destruct (X19_wheels_children_gated project_host sample_process
              DEFAULT_ARGS project_world
              (cmd_docker project_host "1000:1000" DEFAULT_ARGS) "."
              (Some (environ project_world)))
    as (_ & _ & _ & Hgate); [| exact Hgate].
  assert (Htrace :
    (build_manylinux_wheels project_host sample_process DEFAULT_ARGS
       project_world).2
    = [EvRmtree "dist";
       EvMakedirs "dist";
       EvStderr "$ python setup.py sdist";
       EvCheckCall cmd_sdist "." (Some (environ project_world));
       EvStderr
         ("$ " +:+ Py.join " "
            (map shlex.quote
               (cmd_docker project_host "1000:1000" DEFAULT_ARGS)));
       EvCheckCall (cmd_docker project_host "1000:1000" DEFAULT_ARGS) "."
         (Some (environ project_world))])
    by (vm_compute; reflexivity).
  rewrite Htrace. do 5 right. left. reflexivity.
Defined.

Lemma replace_char_removes (a b : ascii) (s : string) :
  a <> b -> Py.contains_char a (Str.replace_char a b s) = false.
Proof.
  intros Hab. induction s as [| d s IH]; [reflexivity |]. simpl.
  rewrite IH, orb_false_r. destruct (Ascii.eqb d a) eqn:Hd.
  - apply Ascii.eqb_neq. congruence.
  - exact Hd.
Qed.

Lemma replace_char_length (a b : ascii) (s : string) :
  String.length (Str.replace_char a b s) = String.length s.
Proof.
  induction s as [| d s IH]; [reflexivity |]. simpl. rewrite IH.
  reflexivity.
Qed.

(** X20: the script handed to [bash] in the container is [SCRIPT] with the
    download address of the requested Go version and, as the word list of
    its [for] loop, the value of [--pythons] with every comma replaced by a
    space: no comma is left, nothing else is changed, and the list is as
    long as the option's value. *)
Theorem X20_docker_script_pythons :
  forall (h : host) (user : string) (args : Namespace),
    let words := Str.replace_char "," " " (pythons args) in
    last (cmd_docker h user args)
    = Some (SCRIPT (GOLANG (golang args)) words)
    /\ Py.contains_char "," words = false
    /\ String.length words = String.length (pythons args).
Proof.
  intros h user args words. subst words. split; [| split].
  - unfold cmd_docker. cbv zeta. rewrite join_split_replace. reflexivity.
  - apply replace_char_removes. discriminate.
  - apply replace_char_length.
Qed.
